(** * Git-Impact-Analysis-Tool: a shallow embedding and its properties

    The development follows the layout of the TypeScript sources:

    - [Types]          src/types/index.ts       (records of the data model)
    - [Str]            the few JavaScript string primitives the code uses
    - [GitOperations]  src/git/operations.ts    (the unified-diff parser)
    - [TestParser]     src/parser/testParser.ts (test-block extraction)
    - [ImportTracker]  src/parser/importTracker.ts
    - [ImpactAnalyzer] src/analyzer/impactAnalyzer.ts

    JavaScript strings are modelled as [string] (one [ascii] per code unit,
    code units below 256).  JavaScript numbers that hold line numbers are
    modelled as [N]: they are produced by [parseInt] on decimal digits and by
    adding loop counters, which is exact on doubles up to 2^53 and not
    beyond.  The statements about the numbers of a hunk therefore assume
    that the declared ranges end by 2^53 and that the arrays stay below the
    2^32 elements an array can hold ([DiffSpec.exactRange],
    [DiffSpec.fitsArray]).  The walk of the working tree is modelled on a
    tree that can be read; [readdirSync] and [statSync] throw on one that
    cannot, so what is stated of a failing analysis is stated of the
    outcome of [analyzeCommit], not of its causes. *)

From Stdlib Require Import List String Ascii Bool Arith NArith Lia.
Import ListNotations.

Local Open Scope string_scope.
Local Open Scope list_scope.

Set Warnings "-register-all".

(* ================================================================= *)
(** ** JavaScript string primitives *)

Module Str.

Fixpoint has_prefix (p s : string) : bool :=
  match p with
  | EmptyString => true
  | String a p' =>
      match s with
      | String b s' => Ascii.eqb a b && has_prefix p' s'
      | EmptyString => false
      end
  end.

(** [s.startsWith(p)] *)
Definition startsWith (s p : string) : bool := has_prefix p s.

(** [s.endsWith(p)] *)
Definition endsWith (s p : string) : bool :=
  let n := String.length s in
  let m := String.length p in
  (m <=? n)%nat && String.eqb (String.substring (n - m) m s) p.

(** Truthiness of a [string | null] value: [null] and the empty string are
    falsy, everything else is truthy. *)
Definition truthy (o : option string) : bool :=
  match o with
  | None => false
  | Some s => negb (String.eqb s "")
  end.

(** [s.split('\n')]: never returns the empty array. *)
Fixpoint split_lines (s : string) : list string :=
  match s with
  | EmptyString => [EmptyString]
  | String c r =>
      if Ascii.eqb c "010"%char then EmptyString :: split_lines r
      else match split_lines r with
           | l :: ls => String c l :: ls
           | [] => [String c EmptyString]
           end
  end.

(** Removes a literal prefix; [None] when the prefix is not there. *)
Fixpoint strip_prefix (lit s : string) : option string :=
  match lit with
  | EmptyString => Some s
  | String a lit' =>
      match s with
      | String b s' => if Ascii.eqb a b then strip_prefix lit' s' else None
      | EmptyString => None
      end
  end.

(** [\d] *)
Definition is_digit (c : ascii) : bool :=
  let n := nat_of_ascii c in ((48 <=? n) && (n <=? 57))%nat.

(** [\s] on code units below 256: tab, line feed, vertical tab, form feed,
    carriage return, space and the no-break space. *)
Definition is_space (c : ascii) : bool :=
  let n := nat_of_ascii c in
  (((9 <=? n) && (n <=? 13)) || (n =? 32) || (n =? 160))%nat.

(** Line terminators, which [.] refuses: line feed and carriage return. *)
Definition is_line_terminator (c : ascii) : bool :=
  let n := nat_of_ascii c in ((n =? 10) || (n =? 13))%nat.

Fixpoint all_chars (p : ascii -> bool) (s : string) : bool :=
  match s with
  | EmptyString => true
  | String c r => p c && all_chars p r
  end.

(** The longest prefix whose characters satisfy [p], and the rest. *)
Fixpoint span (p : ascii -> bool) (s : string) : string * string :=
  match s with
  | EmptyString => (EmptyString, EmptyString)
  | String c r =>
      if p c then let (a, b) := span p r in (String c a, b)
      else (EmptyString, s)
  end.

Fixpoint last_char (s : string) : option ascii :=
  match s with
  | EmptyString => None
  | String c EmptyString => Some c
  | String _ r => last_char r
  end.

(** [parseInt] on a string of decimal digits: the number the digits
    denote.  The code's result is the nearest double, which is that number
    as long as it is at most 2^53. *)
Fixpoint parseInt_from (acc : N) (s : string) : N :=
  match s with
  | EmptyString => acc
  | String c r =>
      parseInt_from (acc * 10 + N.of_nat (nat_of_ascii c - 48))%N r
  end.

Definition parseInt (s : string) : N := parseInt_from 0%N s.

End Str.

(* ================================================================= *)
(** ** src/types/index.ts *)

Module Types.

Record TestInfo := mkTestInfo {
  name : string;
  filePath : string;
  startLine : N;
  endLine : N
}.

Inductive ImpactType := added | removed | modified.

(** [isIndirect?: boolean]: [None] is the absent (undefined) field. *)
Record ImpactResult := mkImpact {
  testName : string;
  impactPath : string;
  impactType : ImpactType;
  isIndirect : option bool
}.

Inductive ChangeType := ct_added | ct_modified | ct_deleted.

Record ChangedFile := mkChangedFile {
  path : string;
  changeType : ChangeType;
  addedLines : list N;
  deletedLines : list N
}.

Definition ImpactType_eqb (a b : ImpactType) : bool :=
  match a, b with
  | added, added | removed, removed | modified, modified => true
  | _, _ => false
  end.

End Types.

Import Types.

(* ================================================================= *)
(** ** src/git/operations.ts: [parseDiff] *)

Module GitOperations.

(** The four capture groups of
    [/@@ -(\d+)(?:,(\d+))? \+(\d+)(?:,(\d+))? @@/]. *)
Record HunkMatch := mkHunkMatch {
  g_oldStart : string;
  g_oldCount : option string;
  g_newStart : string;
  g_newCount : option string
}.

(** [(?:,(\d+))?]: the group is taken when a comma and a digit follow. *)
Definition opt_count (s : string) : option string * string :=
  match s with
  | String c r =>
      if Ascii.eqb c ","%char then
        let (d, t) := Str.span Str.is_digit r in
        match d with
        | EmptyString => (None, s)
        | _ => (Some d, t)
        end
      else (None, s)
  | EmptyString => (None, s)
  end.

(** The hunk pattern matched at the head of [s].  [\d+] is greedy and what
    follows it in the pattern is never a digit, so the first attempt of the
    backtracking matcher is the only one that can succeed. *)
Definition hunk_at (s : string) : option HunkMatch :=
  match Str.strip_prefix "@@ -" s with
  | None => None
  | Some s1 =>
      let (g1, s2) := Str.span Str.is_digit s1 in
      match g1 with
      | EmptyString => None
      | _ =>
          let (g2, s3) := opt_count s2 in
          match Str.strip_prefix " +" s3 with
          | None => None
          | Some s4 =>
              let (g3, s5) := Str.span Str.is_digit s4 in
              match g3 with
              | EmptyString => None
              | _ =>
                  let (g4, s6) := opt_count s5 in
                  match Str.strip_prefix " @@" s6 with
                  | None => None
                  | Some _ => Some (mkHunkMatch g1 g2 g3 g4)
                  end
              end
          end
      end
  end.

(** [line.match(...)] with an unanchored pattern: the leftmost position at
    which the pattern matches. *)
Fixpoint hunk_search (s : string) : option HunkMatch :=
  match hunk_at s with
  | Some g => Some g
  | None =>
      match s with
      | EmptyString => None
      | String _ r => hunk_search r
      end
  end.

(** [line.match(/^---\s+(.+)$/)] on what follows the three marker
    characters: the first capture group, when the pattern matches.  [\s+]
    is greedy; it gives back one character when it has eaten the whole
    rest. *)
Definition marker_capture (rest : string) : option string :=
  let (ws, tl) := Str.span Str.is_space rest in
  match ws with
  | EmptyString => None
  | String _ ws' =>
      match tl with
      | EmptyString =>
          match ws' with
          | EmptyString => None
          | _ =>
              match Str.last_char ws' with
              | Some c =>
                  if Str.is_line_terminator c then None
                  else Some (String c EmptyString)
              | None => None
              end
          end
      | _ =>
          if Str.all_chars (fun c => negb (Str.is_line_terminator c)) tl
          then Some tl else None
      end
  end.

Definition match_old_marker (line : string) : option string :=
  match Str.strip_prefix "---" line with
  | Some rest => marker_capture rest
  | None => None
  end.

Definition match_new_marker (line : string) : option string :=
  match Str.strip_prefix "+++" line with
  | Some rest => marker_capture rest
  | None => None
  end.

Definition oldStart (g : HunkMatch) : N := Str.parseInt (g_oldStart g).
Definition newStart (g : HunkMatch) : N := Str.parseInt (g_newStart g).

(** [hunkMatch[2] ? parseInt(hunkMatch[2]) : 1]; a captured group is a
    non-empty string, hence truthy. *)
Definition count_of (o : option string) : N :=
  match o with
  | Some d => Str.parseInt d
  | None => 1%N
  end.

Definition oldCount (g : HunkMatch) : N := count_of (g_oldCount g).
Definition newCount (g : HunkMatch) : N := count_of (g_newCount g).

(** [for (let j = 0; j < count; j++) lines.push(start + j)]; the sums and
    the counter are those of the code as long as [start + count] is at most
    2^53 and the array stays below 2^32 elements. *)
Definition pushRange (lines : list N) (start count : N) : list N :=
  lines ++ map (fun j => (start + N.of_nat j)%N) (seq 0 (N.to_nat count)).

(** The local variables of [parseDiff]. *)
Record State := mkState {
  changedFiles : list ChangedFile;
  currentFile : option string;
  curType : ChangeType;
  curAdded : list N;
  curDeleted : list N
}.

Definition initial : State := mkState [] None ct_modified [] [].

(** "Save previous file if exists" / "Save last file". *)
Definition flush (st : State) : list ChangedFile :=
  if Str.truthy (currentFile st) then
    changedFiles st ++
      [mkChangedFile (match currentFile st with Some p => p | None => "" end)
                     (curType st) (curAdded st) (curDeleted st)]
  else changedFiles st.

Definition stepHeader (line : string) (st : State) : State :=
  if Str.startsWith line "diff --git" then
    mkState (flush st) None ct_modified [] []
  else st.

Definition stepOldMarker (line : string) (st : State) : State :=
  if Str.startsWith line "---" then
    match match_old_marker line with
    | Some p =>
        if String.eqb p "/dev/null"
        then mkState (changedFiles st) (currentFile st) ct_added
                     (curAdded st) (curDeleted st)
        else mkState (changedFiles st) (Some p) (curType st)
                     (curAdded st) (curDeleted st)
    | None => st
    end
  else st.

Definition stepNewMarker (line : string) (st : State) : State :=
  if Str.startsWith line "+++" then
    match match_new_marker line with
    | Some p =>
        if String.eqb p "/dev/null"
        then mkState (changedFiles st) (currentFile st) ct_deleted
                     (curAdded st) (curDeleted st)
        else mkState (changedFiles st) (Some p) (curType st)
                     (curAdded st) (curDeleted st)
    | None => st
    end
  else st.

Definition stepHunk (line : string) (st : State) : State :=
  if Str.startsWith line "@@" then
    match hunk_search line with
    | Some g =>
        mkState (changedFiles st) (currentFile st) (curType st)
                (pushRange (curAdded st) (newStart g) (newCount g))
                (pushRange (curDeleted st) (oldStart g) (oldCount g))
    | None => st
    end
  else st.

(** One iteration of the loop over the lines: the four [if]s in order. *)
Definition parseLine (st : State) (line : string) : State :=
  stepHunk line (stepNewMarker line (stepOldMarker line (stepHeader line st))).

Definition parseLines (lines : list string) : list ChangedFile :=
  flush (fold_left parseLine lines initial).

Definition parseDiff (diff : string) : list ChangedFile :=
  parseLines (Str.split_lines diff).

End GitOperations.

(* ================================================================= *)
(** ** External collaborators

    What the sources obtain from ts-morph, from git, from Node's [path]
    module and from the file system.  None of it is code of the repository,
    so the embedding takes it as an environment. *)

(** A call-expression argument as [extractTestInfo] looks at it:
    [Node.isStringLiteral] with [getLiteralValue()], or any other node with
    its source text [getText()]. *)
Inductive Arg :=
| ArgStringLiteral (literalValue : string)
| ArgOther (text : string).

(** A call expression of the syntax tree: the printed callee
    ([getExpression().getText()]), the arguments, the first and last line of
    the node, and the call expressions nested directly below it, in source
    order. *)
Inductive Call :=
| mkCall (callee : string) (args : list Arg) (startLn endLn : N)
         (children : list Call).

Definition callee_of (c : Call) : string :=
  match c with mkCall f _ _ _ _ => f end.
Definition args_of (c : Call) : list Arg :=
  match c with mkCall _ a _ _ _ => a end.
Definition startLn_of (c : Call) : N :=
  match c with mkCall _ _ s _ _ => s end.
Definition endLn_of (c : Call) : N :=
  match c with mkCall _ _ _ e _ => e end.
Definition children_of (c : Call) : list Call :=
  match c with mkCall _ _ _ _ ch => ch end.

(** The top-level call expressions of a source file. *)
Definition SourceFile := list Call.

(** A directory entry of the working tree, by name. *)
Inductive FsNode :=
| FsFile (fname : string)
| FsDir (dname : string) (entries : list FsNode).

Record Env := mkEnv {
  (** Node's [path.join], [path.resolve], [path.dirname], [path.relative] *)
  path_join : string -> string -> string;
  path_resolve : string -> string -> string;
  path_dirname : string -> string;
  path_relative : string -> string -> string;
  (** [fs.readdirSync]/[fs.statSync] below the repository path, for a tree
      that can be read.  The two calls throw on a directory that cannot be
      listed and on an entry that cannot be examined, and the analysis of
      a commit that changed a helper file then throws; such a run is not
      in this model, and what is stated of the walk and of what is built
      on it is stated of the runs in which it returns. *)
  fs_tree : list FsNode;
  (** [fs.existsSync] *)
  fs_exists : string -> bool;
  (** the text ts-morph loads in [addSourceFileAtPath]; [None] when that
      throws *)
  fs_read : string -> option string;
  (** ts-morph: the call expressions of a source text *)
  ts_calls : string -> SourceFile;
  (** ts-morph: [getModuleSpecifierValue()] of the import declarations *)
  ts_imports : string -> list string;
  (** [git show <object>]; [None] when git fails *)
  git_show_object : string -> option string;
  (** [git show <sha> --unified=0 --no-prefix]; [None] when git fails *)
  git_show_commit : string -> option string
}.

(** Exceptions are modelled by [option]. *)
Definition bind {A B} (m : option A) (k : A -> option B) : option B :=
  match m with
  | Some a => k a
  | None => None
  end.

Notation "x <- m ;; k" := (bind m (fun x => k))
  (at level 61, m at next level, right associativity).

(** [for (const x of xs) { const r = await f(x); impacts.push(...r) }] *)
Fixpoint collect {A B} (f : A -> option (list B)) (xs : list A)
  : option (list B) :=
  match xs with
  | [] => Some []
  | x :: xs' =>
      r <- f x ;;
      rs <- collect f xs' ;;
      Some (r ++ rs)
  end.

(* ================================================================= *)
(** ** src/parser/testParser.ts *)

Module TestParser.

(** [sourceFile.getDescendantsOfKind(SyntaxKind.CallExpression)]: every
    call expression, a node before the nodes below it. *)
Fixpoint descendants (c : Call) : list Call :=
  match c with
  | mkCall _ _ _ _ ch => c :: flat_map descendants ch
  end.

Definition callExpressions (sf : SourceFile) : list Call :=
  flat_map descendants sf.

Definition isTestCall (expressionText : string) : bool :=
  String.eqb expressionText "test" ||
  String.eqb expressionText "test.skip" ||
  String.eqb expressionText "test.only" ||
  String.eqb expressionText "test.describe" ||
  String.eqb expressionText "test.fixme".

(** The global replacement of the character class of the single and the
    double quote by the empty string. *)
Fixpoint removeQuotes (s : string) : string :=
  match s with
  | EmptyString => EmptyString
  | String c r =>
      if Ascii.eqb c "039"%char || Ascii.eqb c "034"%char then removeQuotes r
      else String c (removeQuotes r)
  end.

Definition extractTestInfo (callExpr : Call) (filePath : string)
  : option TestInfo :=
  match args_of callExpr with
  | nameArg :: _ :: _ =>
      let testName :=
        match nameArg with
        | ArgStringLiteral v => v
        | ArgOther t => removeQuotes t
        end in
      Some (mkTestInfo testName filePath
                       (startLn_of callExpr) (endLn_of callExpr))
  | _ => None
  end.

Definition extractTests (sf : SourceFile) (filePath : string)
  : list TestInfo :=
  fold_left
    (fun tests callExpr =>
       if isTestCall (callee_of callExpr) then
         match extractTestInfo callExpr filePath with
         | Some testInfo => tests ++ [testInfo]
         | None => tests
         end
       else tests)
    (callExpressions sf) [].

(** With a truthy [content] the text is parsed; otherwise the file is
    loaded from disk, which throws when it is not there. *)
Definition parseTestFile (E : Env) (filePath : string)
           (content : option string) : option (list TestInfo) :=
  if Str.truthy content then
    match content with
    | Some text => Some (extractTests (ts_calls E text) filePath)
    | None => None
    end
  else
    text <- fs_read E filePath ;;
    Some (extractTests (ts_calls E text) filePath).

Definition isLineInRange (line startLine endLine : N) : bool :=
  (startLine <=? line)%N && (line <=? endLine)%N.

Definition hasOverlap (lines : list N) (startLine endLine : N) : bool :=
  existsb (fun line => isLineInRange line startLine endLine) lines.

End TestParser.

(* ================================================================= *)
(** ** src/parser/importTracker.ts *)

Module ImportTracker.

Section WithEnv.

Variable E : Env.
Variable repoPath : string.

Definition normalizePath (filePath : string) : string :=
  path_resolve E repoPath filePath.

Definition resolveImportPath (fromFile importPath : string) : string :=
  if Str.startsWith importPath "." then
    let fromDir := path_dirname E fromFile in
    let resolved := path_resolve E fromDir importPath in
    if negb (fs_exists E resolved) then
      if fs_exists E (resolved ++ ".ts")%string then
        (resolved ++ ".ts")%string
      else if fs_exists E (path_join E resolved "index.ts") then
        path_join E resolved "index.ts"
      else resolved
    else resolved
  else importPath.

(** One iteration of the loop of the closure [findFiles]: what the entry
    [file] of the directory [dir] adds to [specFiles], when [readdirSync]
    and [statSync] answer. *)
Fixpoint findEntry (dir : string) (entry : FsNode) : list string :=
  match entry with
  | FsDir file sub =>
      let fullPath := path_join E dir file in
      if negb (Str.startsWith file ".") &&
         negb (String.eqb file "node_modules")
      then flat_map (findEntry fullPath) sub
      else []
  | FsFile file =>
      let fullPath := path_join E dir file in
      if Str.endsWith file ".spec.ts" then [fullPath] else []
  end.

(** The closure [findFiles] applied to a directory and its listing. *)
Definition findFiles (dir : string) (files : list FsNode) : list string :=
  flat_map (findEntry dir) files.

Definition findAllSpecFiles : list string :=
  findFiles repoPath (fs_tree E).

(** Files that cannot be loaded or parsed have no imports. *)
Definition extractImports (filePath : string) : list string :=
  match fs_read E filePath with
  | Some text => ts_imports E text
  | None => []
  end.

(** The inner loop with its [break]: does some import of [specFile]
    normalise to the normalised helper path? *)
Definition importsHelper (helperPath specFile : string) : bool :=
  let normalizedHelperPath := normalizePath helperPath in
  existsb
    (fun importPath =>
       String.eqb
         (normalizePath (resolveImportPath specFile importPath))
         normalizedHelperPath)
    (extractImports specFile).

Definition findTestFilesImporting (helperPath : string) : list string :=
  filter (importsHelper helperPath) findAllSpecFiles.

End WithEnv.

End ImportTracker.

(* ================================================================= *)
(** ** src/analyzer/impactAnalyzer.ts *)

Module ImpactAnalyzer.

Section WithEnv.

Variable E : Env.
Variable repoPath : string.

(** [gitOps.getFileAtCommit]: [git show sha:path], [null] on failure. *)
Definition getFileAtCommit (commitSha filePath : string) : option string :=
  git_show_object E (commitSha ++ ":" ++ filePath)%string.

(** [gitOps.getFileBeforeCommit]: [git show sha^:path]. *)
Definition getFileBeforeCommit (commitSha filePath : string)
  : option string :=
  git_show_object E (commitSha ++ "^:" ++ filePath)%string.

(** [gitOps.getChangedFiles]: throws when the diff cannot be had. *)
Definition getChangedFiles (commitSha : string)
  : option (list ChangedFile) :=
  diff <- git_show_commit E commitSha ;;
  Some (GitOperations.parseDiff diff).

Definition isTestFile (filePath : string) : bool :=
  Str.endsWith filePath ".spec.ts" || Str.endsWith filePath ".test.ts".

Definition sameName (a b : TestInfo) : bool :=
  String.eqb (name a) (name b).

Definition direct (cf : ChangedFile) (ty : ImpactType) (t : TestInfo)
  : ImpactResult :=
  mkImpact (name t) (path cf) ty None.

(** "Find added tests" *)
Definition addedLoop (cf : ChangedFile)
           (beforeTests currentTests : list TestInfo)
           (impacts : list ImpactResult) : list ImpactResult :=
  fold_left
    (fun impacts test =>
       let existedBefore := existsb (fun bt => sameName bt test) beforeTests in
       if negb existedBefore then
         let isInAddedLines :=
           TestParser.hasOverlap (addedLines cf)
                                 (startLine test) (endLine test) in
         if isInAddedLines || negb existedBefore
         then impacts ++ [direct cf added test]
         else impacts
       else impacts)
    currentTests impacts.

(** "Find removed tests" *)
Definition removedLoop (cf : ChangedFile)
           (beforeTests currentTests : list TestInfo)
           (impacts : list ImpactResult) : list ImpactResult :=
  fold_left
    (fun impacts test =>
       let existsNow := existsb (fun ct => sameName ct test) currentTests in
       if negb existsNow then impacts ++ [direct cf removed test]
       else impacts)
    beforeTests impacts.

(** [impacts.some(i => i.testName === test.name && i.impactType === 'added')] *)
Definition alreadyAdded (impacts : list ImpactResult) (test : TestInfo)
  : bool :=
  existsb
    (fun i => String.eqb (testName i) (name test) &&
              ImpactType_eqb (impactType i) added)
    impacts.

(** One iteration of "Find modified tests". *)
Definition modifiedStep (cf : ChangedFile) (beforeTests : list TestInfo)
           (impacts : list ImpactResult) (test : TestInfo)
  : list ImpactResult :=
  match find (fun bt => sameName bt test) beforeTests with
  | Some _ =>
      let hasChangesInTest :=
        TestParser.hasOverlap (addedLines cf)
                              (startLine test) (endLine test) in
      if hasChangesInTest then
        if negb (alreadyAdded impacts test)
        then impacts ++ [direct cf modified test]
        else impacts
      else impacts
  | None => impacts
  end.

Definition modifiedLoop (cf : ChangedFile)
           (beforeTests currentTests : list TestInfo)
           (impacts : list ImpactResult) : list ImpactResult :=
  fold_left (modifiedStep cf beforeTests) currentTests impacts.

Definition analyzeTestFile (cf : ChangedFile) (commitSha : string)
  : option (list ImpactResult) :=
  let filePath := path_join E repoPath (path cf) in
  match changeType cf with
  | ct_added =>
      let currentContent := getFileAtCommit commitSha (path cf) in
      if Str.truthy currentContent then
        tests <- TestParser.parseTestFile E filePath currentContent ;;
        Some (map (direct cf added) tests)
      else Some []
  | ct_deleted =>
      let beforeContent := getFileBeforeCommit commitSha (path cf) in
      if Str.truthy beforeContent then
        tests <- TestParser.parseTestFile E filePath beforeContent ;;
        Some (map (direct cf removed) tests)
      else Some []
  | ct_modified =>
      let beforeContent := getFileBeforeCommit commitSha (path cf) in
      let currentContent := getFileAtCommit commitSha (path cf) in
      if Str.truthy beforeContent && Str.truthy currentContent then
        beforeTests <- TestParser.parseTestFile E filePath beforeContent ;;
        currentTests <- TestParser.parseTestFile E filePath currentContent ;;
        Some (modifiedLoop cf beforeTests currentTests
                (removedLoop cf beforeTests currentTests
                   (addedLoop cf beforeTests currentTests [])))
      else Some []
  end.

Definition indirect (relativePath : string) (t : TestInfo)
  : ImpactResult :=
  mkImpact (name t) relativePath modified (Some true).

Definition analyzeHelperFile (cf : ChangedFile)
  : option (list ImpactResult) :=
  let importingTestFiles :=
    ImportTracker.findTestFilesImporting E repoPath
      (path_join E repoPath (path cf)) in
  collect
    (fun testFilePath =>
       tests <- TestParser.parseTestFile E testFilePath None ;;
       let relativePath := path_relative E repoPath testFilePath in
       Some (map (indirect relativePath) tests))
    importingTestFiles.

Definition testFilesOf (changed : list ChangedFile) : list ChangedFile :=
  filter (fun f => isTestFile (path f)) changed.

Definition helperFilesOf (changed : list ChangedFile) : list ChangedFile :=
  filter (fun f => negb (isTestFile (path f)) && Str.endsWith (path f) ".ts")
         changed.

(** The first loop of [analyzeCommit]. *)
Definition directPass (changed : list ChangedFile) (commitSha : string)
  : option (list ImpactResult) :=
  collect (fun testFile => analyzeTestFile testFile commitSha)
          (testFilesOf changed).

(** The second loop of [analyzeCommit]. *)
Definition indirectPass (changed : list ChangedFile)
  : option (list ImpactResult) :=
  collect analyzeHelperFile (helperFilesOf changed).

(** [analyzeCommit] once the changed files are known. *)
Definition analyzeChanged (changed : list ChangedFile) (commitSha : string)
  : option (list ImpactResult) :=
  d <- directPass changed commitSha ;;
  i <- indirectPass changed ;;
  Some (d ++ i).

Definition analyzeCommit (commitSha : string)
  : option (list ImpactResult) :=
  changedFiles <- getChangedFiles commitSha ;;
  analyzeChanged changedFiles commitSha.

End WithEnv.

End ImpactAnalyzer.

(* ================================================================= *)
(** ** A concrete environment for worked examples

    Node's [path] functions on POSIX paths without trailing separators, with
    the root as working directory, and an environment given by tables.  The
    general theorems below hold for every environment; this one serves to
    evaluate the code on concrete repositories. *)

Module Posix.

(** [s.split('/')] *)
Fixpoint segments (s : string) : list string :=
  match s with
  | EmptyString => [EmptyString]
  | String c r =>
      if Ascii.eqb c "/"%char then EmptyString :: segments r
      else match segments r with
           | l :: ls => String c l :: ls
           | [] => [String c EmptyString]
           end
  end.

(** Drops empty and [.] segments and lets [..] cancel the segment before
    it; [stack] holds the segments kept so far, last first. *)
Fixpoint normalize (absolute : bool) (stack segs : list string)
  : list string :=
  match segs with
  | [] => rev stack
  | seg :: rest =>
      if String.eqb seg "" || String.eqb seg "." then
        normalize absolute stack rest
      else if String.eqb seg ".." then
        match stack with
        | top :: below =>
            if String.eqb top ".." then normalize absolute (seg :: stack) rest
            else normalize absolute below rest
        | [] =>
            if absolute then normalize absolute [] rest
            else normalize absolute [seg] rest
        end
      else normalize absolute (seg :: stack) rest
  end.

Definition isAbsolute (p : string) : bool := Str.startsWith p "/".

Definition render (absolute : bool) (segs : list string) : string :=
  if absolute then ("/" ++ String.concat "/" segs)%string
  else match segs with
       | [] => "."
       | _ => String.concat "/" segs
       end.

Definition resolve (from to : string) : string :=
  if isAbsolute to then render true (normalize true [] (segments to))
  else render true (normalize true [] (segments from ++ segments to)).

Definition join (a b : string) : string :=
  let joined :=
    if String.eqb a "" then b
    else if String.eqb b "" then a
    else (a ++ "/" ++ b)%string in
  render (isAbsolute joined)
         (normalize (isAbsolute joined) [] (segments joined)).

Definition dirname (p : string) : string :=
  match removelast (segments p) with
  | [] => "."
  | segs =>
      let d := String.concat "/" segs in
      if String.eqb d "" then "/" else d
  end.

Fixpoint dropCommon (a b : list string) : list string * list string :=
  match a, b with
  | x :: a', y :: b' =>
      if String.eqb x y then dropCommon a' b' else (a, b)
  | _, _ => (a, b)
  end.

Definition relative (from to : string) : string :=
  let f := normalize true [] (segments (resolve "/" from)) in
  let t := normalize true [] (segments (resolve "/" to)) in
  let (f', t') := dropCommon f t in
  String.concat "/" (map (fun _ => "..") f' ++ t').

(** Every path below [dir] that the listing [tree] describes. *)
Fixpoint pathsOf (dir : string) (entry : FsNode) : list string :=
  match entry with
  | FsFile f => [join dir f]
  | FsDir d sub => join dir d :: flat_map (pathsOf (join dir d)) sub
  end.

Fixpoint lookup {A} (k : string) (table : list (string * A)) : option A :=
  match table with
  | [] => None
  | (k', v) :: rest => if String.eqb k k' then Some v else lookup k rest
  end.

(** An environment from a repository path, its tree, the text of its
    files, what ts-morph finds in each text (imports and calls), and what
    git answers. *)
Definition env (repoPath : string) (tree : list FsNode)
           (texts : list (string * string))
           (parsed : list (string * (list string * SourceFile)))
           (objects commits : list (string * string)) : Env :=
  mkEnv join resolve dirname relative tree
        (fun p => existsb (String.eqb p)
                    (repoPath :: flat_map (pathsOf repoPath) tree))
        (fun p => lookup p texts)
        (fun text => match lookup text parsed with
                     | Some (_, calls) => calls
                     | None => []
                     end)
        (fun text => match lookup text parsed with
                     | Some (imports, _) => imports
                     | None => []
                     end)
        (fun o => lookup o objects)
        (fun c => lookup c commits).

End Posix.

Definition LF : string := String "010"%char EmptyString.

(** The text of a diff from its lines. *)
Definition unlines (ls : list string) : string := String.concat LF ls.

(* ================================================================= *)
(** ** Notions the statements use *)

Module DiffSpec.

Import GitOperations.

(** A line that opens a per-file section of the diff. *)
Definition isHeader (line : string) : bool :=
  Str.startsWith line "diff --git".

(** The hunk header the parser decodes on a line, if any. *)
Definition hunkOf (line : string) : option HunkMatch :=
  if Str.startsWith line "@@" then hunk_search line else None.

(** The line numbers one line contributes to each side. *)
Definition addedBy (line : string) : list N :=
  match hunkOf line with
  | Some g => pushRange [] (newStart g) (newCount g)
  | None => []
  end.

Definition deletedBy (line : string) : list N :=
  match hunkOf line with
  | Some g => pushRange [] (oldStart g) (oldCount g)
  | None => []
  end.

(** [body] is a whole per-file section of [lines]: it holds no section
    header, it starts right after one (or at the start of the diff) and
    ends right before the next (or at the end of input). *)
Definition sectionOf (lines pre body post : list string) : Prop :=
  lines = pre ++ body ++ post /\
  Forall (fun l => isHeader l = false) body /\
  (pre = [] \/ exists pre' h, pre = pre' ++ [h] /\ isHeader h = true) /\
  (post = [] \/ exists h post', post = h :: post' /\ isHeader h = true).

(** The text of a well-formed hunk header from its four digit strings. *)
Definition headerText (o : string) (oc : option string)
           (n : string) (nc : option string) : string :=
  ("@@ -" ++ o ++ match oc with Some d => "," ++ d | None => "" end ++
   " +" ++ n ++ match nc with Some d => "," ++ d | None => "" end ++
   " @@")%string.

Definition digits (s : string) : Prop :=
  s <> EmptyString /\ Str.all_chars Str.is_digit s = true.

Definition digitsOpt (o : option string) : Prop :=
  match o with
  | Some d => digits d
  | None => True
  end.

(** The range [start, start + count) ends by 2^53: the numbers of the
    program are doubles, and up to there [parseInt], the loop counter and
    the sums [start + j] are exact. *)
Definition exactRange (start count : N) : Prop :=
  (start + count <= 2 ^ 53)%N.

(** An array holds fewer than 2^32 elements: [lines] can take [count]
    more. *)
Definition fitsArray (lines : list N) (count : N) : Prop :=
  (N.of_nat (List.length lines) + count < 2 ^ 32)%N.

(** What holds of the files already pushed and of the accumulator after
    the parser has read [lines]. *)
Definition Completed (lines : list string) (cf : ChangedFile) : Prop :=
  exists pre body post,
    sectionOf lines pre body post /\ post <> [] /\
    addedLines cf = flat_map addedBy body /\
    deletedLines cf = flat_map deletedBy body.

Definition Current (lines : list string) (st : State) : Prop :=
  exists pre body,
    sectionOf lines pre body [] /\
    curAdded st = flat_map addedBy body /\
    curDeleted st = flat_map deletedBy body.

Definition Inv (lines : list string) (st : State) : Prop :=
  Forall (Completed lines) (changedFiles st) /\ Current lines st.

End DiffSpec.

Module ParserSpec.

Import TestParser.

(** What one call expression adds to the result of [extractTests]. *)
Definition blocksOf (filePath : string) (c : Call) : list TestInfo :=
  if isTestCall (callee_of c) then
    match extractTestInfo c filePath with
    | Some t => [t]
    | None => []
    end
  else [].

(** The call expressions strictly below a call. *)
Definition nestedCalls (c : Call) : list Call :=
  flat_map descendants (children_of c).

(** In a syntax tree a node lies within the lines of its parent. *)
Fixpoint wellNested (c : Call) : bool :=
  match c with
  | mkCall _ _ s e ch =>
      (s <=? e)%N &&
      forallb (fun x => (s <=? startLn_of x)%N && (endLn_of x <=? e)%N &&
                        wellNested x) ch
  end.

(** The characters that [removeQuotes] deletes. *)
Definition isPlainQuote (c : ascii) : bool :=
  Ascii.eqb c "039"%char || Ascii.eqb c "034"%char.

(** The characters that delimit a literal: single quote, double quote and
    backtick. *)
Definition isQuoteDelimiter (c : ascii) : bool :=
  isPlainQuote c || Ascii.eqb c "096"%char.

Fixpoint dropLast (s : string) : string :=
  match s with
  | EmptyString => EmptyString
  | String _ EmptyString => EmptyString
  | String c r => String c (dropLast r)
  end.

(** After the specification's words, "stripping only quote delimiters": a
    text enclosed in a pair of equal quote delimiters loses that pair and
    nothing else; any other text is kept as it is. *)
Definition stripQuoteDelimiters (t : string) : string :=
  match t with
  | String q r =>
      match Str.last_char r with
      | Some q' =>
          if isQuoteDelimiter q && Ascii.eqb q q' then dropLast r else t
      | None => t
      end
  | EmptyString => t
  end.

End ParserSpec.

Module AnalyzerSpec.

Import ImpactAnalyzer.

(** The name of [t] occurs among the names of [tests]. *)
Definition presentIn (tests : list TestInfo) (t : TestInfo) : bool :=
  existsb (fun o => sameName o t) tests.

(** Some line of the changed file's [addedLines] lies within the span of
    [t], bounds included. *)
Definition overlaps (cf : ChangedFile) (t : TestInfo) : bool :=
  TestParser.hasOverlap (addedLines cf) (startLine t) (endLine t).

(** After the specification's words: the span of [t], from [startLine] to
    [endLine] with both ends included, holds at least one line of the
    changed file's [addedLines]. *)
Definition spanHoldsAddedLine (cf : ChangedFile) (t : TestInfo) : Prop :=
  exists line,
    In line (addedLines cf) /\ (startLine t <= line <= endLine t)%N.

(** After the specification's words: a test of the name of [t] is among
    [tests]. *)
Definition hasName (tests : list TestInfo) (t : TestInfo) : Prop :=
  exists o, In o tests /\ name o = name t.

(** After the specification's words: an [added] result of the name of [t]
    is among [results]. *)
Definition reportedAdded (results : list ImpactResult) (t : TestInfo) : Prop :=
  exists r, In r results /\ testName r = name t /\ impactType r = added.

Definition isModified (r : ImpactResult) : bool :=
  ImpactType_eqb (impactType r) modified.

(** A result that reports a test of the new version: [added] or
    [modified]. *)
Definition notRemoved (r : ImpactResult) : bool :=
  negb (ImpactType_eqb (impactType r) removed).

(** A content that is not there: [null], or the empty text, which the
    conditions of the code do not tell from [null]. *)
Definition missing (content : option string) : Prop :=
  Str.truthy content = false.

(** The content that the analysis of a changed test file requires is not
    there: the new one of an added file, the old one of a deleted file, one
    of the two of a modified file. *)
Definition requiredContentMissing (E : Env) (cf : ChangedFile)
           (commitSha : string) : Prop :=
  match changeType cf with
  | ct_added => missing (getFileAtCommit E commitSha (path cf))
  | ct_deleted => missing (getFileBeforeCommit E commitSha (path cf))
  | ct_modified =>
      missing (getFileBeforeCommit E commitSha (path cf)) \/
      missing (getFileAtCommit E commitSha (path cf))
  end.

End AnalyzerSpec.

Module ImportSpec.

Import ImportTracker.

(** After the specification's words: the test files below a directory
    entry, found recursively, hidden directories and the dependency cache
    left out, a test file being a file whose path ends with one of the two
    test-file suffixes ([ImpactAnalyzer.isTestFile]). *)
Fixpoint specTestFilesOf (E : Env) (dir : string) (entry : FsNode)
  : list string :=
  match entry with
  | FsDir d sub =>
      if negb (Str.startsWith d ".") && negb (String.eqb d "node_modules")
      then flat_map (specTestFilesOf E (path_join E dir d)) sub
      else []
  | FsFile f =>
      if ImpactAnalyzer.isTestFile (path_join E dir f)
      then [path_join E dir f] else []
  end.

(** After the specification's words: those test files of the repository of
    which some import, resolved against the importing file, is path-equal
    after normalisation to the target. *)
Definition specTestFilesImporting (E : Env) (repoPath targetFile : string)
  : list string :=
  filter (importsHelper E repoPath targetFile)
         (flat_map (specTestFilesOf E repoPath) (fs_tree E)).

(** After the specification's words: the paths that the resolution of a
    relative specifier tries, in order. *)
Definition candidates (E : Env) (fromFile importPath : string)
  : list string :=
  let resolved := path_resolve E (path_dirname E fromFile) importPath in
  [resolved; (resolved ++ ".ts")%string; path_join E resolved "index.ts"].

(** An import of [specFile] by the specifier [importPath] counts as an
    import of the helper. *)
Definition matchesHelper (E : Env) (repoPath helperPath specFile
                                    importPath : string) : bool :=
  String.eqb
    (normalizePath E repoPath (resolveImportPath E specFile importPath))
    (normalizePath E repoPath helperPath).

End ImportSpec.

(* ================================================================= *)
(** ** Worked inputs *)

Module Examples.

(** The diff of a commit that adds, as line 4 of [notes.spec.ts], a line
    whose text is [++ /dev/null]; git prints the added line with a [+] in
    front. *)
Definition diff_plus_line : string :=
  unlines ["diff --git notes.spec.ts notes.spec.ts";
           "index 1a2b3c4..5d6e7f8 100644";
           "--- notes.spec.ts";
           "+++ notes.spec.ts";
           "@@ -3,0 +4 @@";
           "+++ /dev/null"].

(** The diff of a commit that removes line 2 of [seed.ts], whose text was
    [-- /dev/null]. *)
Definition diff_minus_line : string :=
  unlines ["diff --git seed.ts seed.ts";
           "index 1a2b3c4..5d6e7f8 100644";
           "--- seed.ts";
           "+++ seed.ts";
           "@@ -2 +1,0 @@";
           "--- /dev/null"].

(** The diff of a commit that deletes the two-line file [old.spec.ts] and
    changes line 5 of [page.ts]. *)
Definition diff_deleted_file : string :=
  unlines ["diff --git old.spec.ts old.spec.ts";
           "deleted file mode 100644";
           "index 1a2b3c4..0000000";
           "--- old.spec.ts";
           "+++ /dev/null";
           "@@ -1,2 +0,0 @@";
           "-test('X', async () => {});";
           "-test('Y', async () => {});";
           "diff --git page.ts page.ts";
           "index 1a2b3c4..5d6e7f8 100644";
           "--- page.ts";
           "+++ page.ts";
           "@@ -5 +5 @@";
           "-old";
           "+new"].

(** The call expressions of

      1  test.describe('login', () => {
      2    test(`it's ok`, async () => {
      3      expect(page()).toBe(1);
      4    });
      5    test.skip('later');
      6  });
*)
Definition calls_describe : SourceFile :=
  [mkCall "test.describe"
          [ArgStringLiteral "login"; ArgOther "() => { ... }"] 1 6
          [mkCall "test" [ArgOther "`it's ok`"; ArgOther "async () => { ... }"]
                  2 4
                  [mkCall "expect(page()).toBe" [ArgOther "1"] 3 3
                          [mkCall "expect" [ArgOther "page()"] 3 3
                                  [mkCall "page" [] 3 3 []]]];
           mkCall "test.skip" [ArgStringLiteral "later"] 5 5 []]].

(** [test('user ' + role, async () => { ... })] on line 7. *)
Definition call_concat : Call :=
  mkCall "test" [ArgOther "'user ' + role"; ArgOther "async () => { ... }"]
         7 7 [].

(** [test(`it's ok`, async () => { ... })] on lines 2 to 4. *)
Definition call_template : Call :=
  mkCall "test" [ArgOther "`it's ok`"; ArgOther "async () => { ... }"] 2 4 [].

(** *** A small repository

    [/repo] holds the helper [helpers/login.ts] and three test files that
    import it: [tests/login.spec.ts] and [tests/cart.test.ts] by the relative
    specifier ['../helpers/login'], and [tests/bare.spec.ts] by the bare
    specifier ['helpers/login.ts'].  The commit [abc123] changes the helper
    and [tests/login.spec.ts], and touches [tests/gone.spec.ts], of which
    git has no content. *)

Definition repo : string := "/repo".

Definition login_old : string :=
  unlines ["import { login } from '../helpers/login';";
           "test('A', async () => {";
           "  await login();";
           "});"].

Definition login_new : string :=
  unlines ["import { login } from '../helpers/login';";
           "test('A', async () => {";
           "  await login('x');";
           "});";
           "test('B', async () => {";
           "});"].

Definition cart_text : string :=
  unlines ["import { login } from '../helpers/login';";
           "test('cart', async () => { await login(); });"].

Definition bare_text : string :=
  unlines ["import { login } from 'helpers/login.ts';";
           "test('bare', async () => { await login(); });"].

Definition helper_text : string := "export function login(user) {}".

Definition body : Arg := ArgOther "async () => { ... }".

Definition tree : list FsNode :=
  [FsDir ".git" [];
   FsDir "helpers" [FsFile "login.ts"];
   FsDir "node_modules" [FsDir "pkg" [FsFile "pkg.spec.ts"]];
   FsDir "tests" [FsFile "bare.spec.ts"; FsFile "cart.test.ts";
                  FsFile "login.spec.ts"]].

Definition texts : list (string * string) :=
  [("/repo/helpers/login.ts", helper_text);
   ("/repo/tests/bare.spec.ts", bare_text);
   ("/repo/tests/cart.test.ts", cart_text);
   ("/repo/tests/login.spec.ts", login_new)].

Definition parsed : list (string * (list string * SourceFile)) :=
  [(login_old,
    (["../helpers/login"],
     [mkCall "test" [ArgStringLiteral "A"; body] 2 4
             [mkCall "login" [] 3 3 []]]));
   (login_new,
    (["../helpers/login"],
     [mkCall "test" [ArgStringLiteral "A"; body] 2 4
             [mkCall "login" [ArgStringLiteral "x"] 3 3 []];
      mkCall "test" [ArgStringLiteral "B"; body] 5 6 []]));
   (cart_text,
    (["../helpers/login"],
     [mkCall "test" [ArgStringLiteral "cart"; body] 2 2
             [mkCall "login" [] 2 2 []]]));
   (bare_text,
    (["helpers/login.ts"],
     [mkCall "test" [ArgStringLiteral "bare"; body] 2 2
             [mkCall "login" [] 2 2 []]]));
   (helper_text, ([], []))].

Definition objects : list (string * string) :=
  [("abc123^:tests/login.spec.ts", login_old);
   ("abc123:tests/login.spec.ts", login_new);
   ("abc123:helpers/login.ts", helper_text)].

Definition diff_abc123 : string :=
  unlines ["commit abc123";
           "";
           "    login takes a user";
           "";
           "diff --git helpers/login.ts helpers/login.ts";
           "index 1a2b3c4..5d6e7f8 100644";
           "--- helpers/login.ts";
           "+++ helpers/login.ts";
           "@@ -1 +1 @@";
           "-export function login() {}";
           "+export function login(user) {}";
           "diff --git tests/gone.spec.ts tests/gone.spec.ts";
           "index 1a2b3c4..5d6e7f8 100644";
           "--- tests/gone.spec.ts";
           "+++ tests/gone.spec.ts";
           "@@ -1 +1 @@";
           "-// old";
           "+// new";
           "diff --git tests/login.spec.ts tests/login.spec.ts";
           "index 1a2b3c4..5d6e7f8 100644";
           "--- tests/login.spec.ts";
           "+++ tests/login.spec.ts";
           "@@ -3 +3 @@";
           "-  await login();";
           "+  await login('x');";
           "@@ -4,0 +5,2 @@";
           "+test('B', async () => {";
           "+});"].

Definition env : Env :=
  Posix.env repo tree texts parsed objects [("abc123", diff_abc123)].

(** The changed files of the commit [abc123], as the diff parser gives
    them. *)
Definition changed_helper : ChangedFile :=
  mkChangedFile "helpers/login.ts" ct_modified [1]%N [1]%N.

Definition changed_gone : ChangedFile :=
  mkChangedFile "tests/gone.spec.ts" ct_modified [1]%N [1]%N.

Definition changed_login : ChangedFile :=
  mkChangedFile "tests/login.spec.ts" ct_modified [3; 5; 6]%N [3]%N.

(** *** A describe block

    The commit [def456] changes line 3 of [tests/nested.spec.ts], whose
    call expressions, before and after, are [calls_describe]. *)

Definition nested_old : string :=
  unlines ["test.describe('login', () => {";
           "  test(`it's ok`, async () => {";
           "    expect(page()).toBe(0);";
           "  });";
           "  test.skip('later');";
           "});"].

Definition nested_new : string :=
  unlines ["test.describe('login', () => {";
           "  test(`it's ok`, async () => {";
           "    expect(page()).toBe(1);";
           "  });";
           "  test.skip('later');";
           "});"].

Definition changed_nested : ChangedFile :=
  mkChangedFile "tests/nested.spec.ts" ct_modified [3]%N [3]%N.

Definition env_nested : Env :=
  Posix.env repo [FsDir "tests" [FsFile "nested.spec.ts"]]
            [("/repo/tests/nested.spec.ts", nested_new)]
            [(nested_old, ([], calls_describe));
             (nested_new, ([], calls_describe))]
            [("def456^:tests/nested.spec.ts", nested_old);
             ("def456:tests/nested.spec.ts", nested_new)]
            [].

(** The nested [test] call of [calls_describe], with what is below it. *)
Definition call_nested : Call :=
  mkCall "test" [ArgOther "`it's ok`"; ArgOther "async () => { ... }"] 2 4
         [mkCall "expect(page()).toBe" [ArgOther "1"] 3 3
                 [mkCall "expect" [ArgOther "page()"] 3 3
                         [mkCall "page" [] 3 3 []]]].

(** The [test.describe] call of [calls_describe]. *)
Definition call_describe : Call :=
  mkCall "test.describe"
         [ArgStringLiteral "login"; ArgOther "() => { ... }"] 1 6
         [call_nested; mkCall "test.skip" [ArgStringLiteral "later"] 5 5 []].

End Examples.

(* ================================================================= *)
(** ** src/cli.ts: [main] *)

Module Cli.

Import ImpactAnalyzer.

(** What [main] ends in: the process exits with status 1, or it prints that
    no impact was found, or it prints the three groups and the summary with
    its five numbers. *)
Inductive Outcome :=
| ExitFailure
| NoImpacts
| Report (addedGroup removedGroup modifiedGroup : list ImpactResult)
         (total nAdded nRemoved nModified indirectCount : nat).

(** [impacts.filter(i => i.impactType === ty)] *)
Definition group (ty : ImpactType) (impacts : list ImpactResult)
  : list ImpactResult :=
  filter (fun i => ImpactType_eqb (impactType i) ty) impacts.

(** [impacts.filter(i => i.isIndirect)]: an absent field is falsy. *)
Definition indirectOnes (impacts : list ImpactResult) : list ImpactResult :=
  filter (fun i => match isIndirect i with
                   | Some b => b
                   | None => false
                   end) impacts.

(** [main] for the resolved repository path and the commit of the command
    line. *)
Definition main (E : Env) (repoPath commit : string) : Outcome :=
  if negb (fs_exists E repoPath) then ExitFailure
  else if negb (fs_exists E (path_join E repoPath ".git")) then ExitFailure
  else
    match analyzeCommit E repoPath commit with
    | None => ExitFailure
    | Some impacts =>
        if (List.length impacts =? 0)%nat then NoImpacts
        else
          let addedGroup := group added impacts in
          let removedGroup := group removed impacts in
          let modifiedGroup := group modified impacts in
          Report addedGroup removedGroup modifiedGroup
                 (List.length impacts)
                 (List.length addedGroup) (List.length removedGroup)
                 (List.length modifiedGroup)
                 (List.length (indirectOnes impacts))
    end.

End Cli.

(* ================================================================= *)
(** ** Diff text as git writes it *)

From Stdlib Require Import Decimal DecimalString DecimalN.

Module DiffText.

Import GitOperations DiffSpec.

(** After the specification's words: the decimal numeral [d] denotes the
    number [k], as the standard library reads numerals. *)
Definition denotes (d : string) (k : N) : Prop :=
  exists u, NilEmpty.uint_of_string d = Some u /\ N.of_uint u = k.

(** A line on which none of the four tests of the loop of [parseDiff]
    fires. *)
Definition inert (line : string) : bool :=
  negb (Str.startsWith line "diff --git") &&
  negb (Str.startsWith line "---") &&
  negb (Str.startsWith line "+++") &&
  negb (Str.startsWith line "@@").

(** A line of the body of a section: neither a section header nor a line
    that begins like a path marker.  Hunk headers and most content lines are
    such lines. *)
Definition bodyLine (line : string) : bool :=
  negb (Str.startsWith line "diff --git") &&
  negb (Str.startsWith line "---") &&
  negb (Str.startsWith line "+++").

(** The decimal numeral of a number. *)
Definition decimal (n : N) : string :=
  NilEmpty.string_of_uint (N.to_uint n).

(** The hunk header git writes for the given starts and counts; a count
    that is left out is [None]. *)
Definition hunkHeader (os : N) (oc : option N) (ns : N) (nc : option N)
  : string :=
  headerText (decimal os) (option_map decimal oc)
             (decimal ns) (option_map decimal nc).

(** A path as it stands after a marker: not empty, no white space in front,
    no line terminator inside. *)
Definition pathText (p : string) : bool :=
  match p with
  | EmptyString => false
  | String c _ =>
      negb (Str.is_space c) &&
      Str.all_chars (fun c => negb (Str.is_line_terminator c)) p
  end.

Definition oldMarker (p : string) : string := ("--- " ++ p)%string.
Definition newMarker (p : string) : string := ("+++ " ++ p)%string.

(** What a section with the old-side path [a] and the new-side path [b]
    gives, for the line sets of its body. *)
Definition sectionFiles (a b : string) (adds dels : list N)
  : list ChangedFile :=
  if String.eqb b "/dev/null" then
    if String.eqb a "/dev/null" then []
    else [mkChangedFile a ct_deleted adds dels]
  else
    [mkChangedFile b (if String.eqb a "/dev/null" then ct_added
                      else ct_modified) adds dels].

(** The state with the files [fs] pushed before its own. *)
Definition prepend (fs : list ChangedFile) (st : State) : State :=
  mkState (fs ++ changedFiles st) (currentFile st) (curType st)
          (curAdded st) (curDeleted st).

(** A path that a marker line of [lines] names. *)
Definition namedBy (lines : list string) (p : string) : Prop :=
  exists line, In line lines /\
               (match_old_marker line = Some p \/
                match_new_marker line = Some p).

(** A path that can stand in a [ChangedFile] of the parse of [lines]. *)
Definition goodPath (lines : list string) (p : string) : Prop :=
  p <> "" /\ p <> "/dev/null" /\
  Str.all_chars (fun c => negb (Str.is_line_terminator c)) p = true /\
  namedBy lines p.

(** Every path in the state is a good one. *)
Definition goodState (lines : list string) (st : State) : Prop :=
  Forall (fun cf => goodPath lines (path cf)) (changedFiles st) /\
  (forall p, currentFile st = Some p -> goodPath lines p).

End DiffText.

(* ================================================================= *)
(** ** Closed forms of the extractor and of the classifier *)

Module Closed.

Import TestParser ImpactAnalyzer AnalyzerSpec.

(** A call that [extractTests] keeps: a recognised callee and two arguments
    or more. *)
Definition recognised (c : Call) : bool :=
  isTestCall (callee_of c) && (2 <=? List.length (args_of c))%nat.

(** The name [extractTestInfo] gives to a call, from its first argument. *)
Definition blockName (c : Call) : string :=
  match args_of c with
  | ArgStringLiteral v :: _ => v
  | ArgOther t :: _ => removeQuotes t
  | [] => ""
  end.

(** The block of a call. *)
Definition blockOf (filePath : string) (c : Call) : TestInfo :=
  mkTestInfo (blockName c) filePath (startLn_of c) (endLn_of c).

(** The tests of a content that git gave; none when there is no content. *)
Definition testsOf (E : Env) (filePath : string) (content : option string)
  : list TestInfo :=
  match content with
  | Some text =>
      if String.eqb text "" then []
      else extractTests (ts_calls E text) filePath
  | None => []
  end.

(** The old and the new tests that the analysis of a changed test file
    compares: those of the contents it requires, and none at all for a
    modified file of which one content is missing. *)
Definition versions (E : Env) (repoPath : string) (cf : ChangedFile)
           (commitSha : string) : list TestInfo * list TestInfo :=
  let filePath := path_join E repoPath (path cf) in
  let old := getFileBeforeCommit E commitSha (path cf) in
  let new := getFileAtCommit E commitSha (path cf) in
  match changeType cf with
  | ct_added => ([], testsOf E filePath new)
  | ct_deleted => (testsOf E filePath old, [])
  | ct_modified =>
      if Str.truthy old && Str.truthy new
      then (testsOf E filePath old, testsOf E filePath new)
      else ([], [])
  end.

(** The results for a changed test file with the given old and new tests. *)
Definition classified (cf : ChangedFile) (beforeTests currentTests : list TestInfo)
  : list ImpactResult :=
  match changeType cf with
  | ct_added => map (direct cf added) currentTests
  | ct_deleted => map (direct cf removed) beforeTests
  | ct_modified =>
      map (direct cf added)
          (filter (fun t => negb (presentIn beforeTests t)) currentTests) ++
      map (direct cf removed)
          (filter (fun t => negb (presentIn currentTests t)) beforeTests) ++
      map (direct cf modified)
          (filter (fun t => presentIn beforeTests t && overlaps cf t)
                  currentTests)
  end.

Definition isAdded (r : ImpactResult) : bool :=
  ImpactType_eqb (impactType r) added.

Definition isRemoved (r : ImpactResult) : bool :=
  ImpactType_eqb (impactType r) removed.

(** The tests of a test file as it is on disk; none when it cannot be
    loaded. *)
Definition diskTests (E : Env) (testFilePath : string) : list TestInfo :=
  match fs_read E testFilePath with
  | Some text => extractTests (ts_calls E text) testFilePath
  | None => []
  end.

(** The results that one importing test file adds to those of a helper. *)
Definition indirectOf (E : Env) (repoPath testFilePath : string)
  : list ImpactResult :=
  map (indirect (path_relative E repoPath testFilePath))
      (diskTests E testFilePath).

(** A directory that the walk of [findAllSpecFiles] does not enter. *)
Definition skipped (d : string) : bool :=
  Str.startsWith d "." || String.eqb d "node_modules".

(** The tree with every skipped directory emptied, at any depth. *)
Fixpoint prune (entry : FsNode) : FsNode :=
  match entry with
  | FsFile f => FsFile f
  | FsDir d sub => if skipped d then FsDir d [] else FsDir d (map prune sub)
  end.

End Closed.

(* ================================================================= *)
(** ** More worked inputs *)

Module MoreExamples.

(** The section of a new file, as git writes it. *)
Definition new_file_header : string := "diff --git new.spec.ts new.spec.ts".

Definition new_file_meta : list string :=
  ["new file mode 100644"; "index 0000000..1a2b3c4"].

Definition new_file_body : list string :=
  ["@@ -0,0 +1,2 @@"; "+test('n', async () => {});"; "+// end"].

(** A diff of one file with an [index] line and a changed line. *)
Definition diff_one_file : string :=
  unlines ["diff --git a.ts a.ts";
           "index 1a2b3c4..5d6e7f8 100644";
           "--- a.ts";
           "+++ a.ts";
           "@@ -1 +1 @@";
           "-old";
           "+new"].

(** A commit [fff000] that changes the mode of [tests/nested.spec.ts] and
    leaves its text as it was: git gives the same content before and at the
    commit, and a diff section without hunks. *)
Definition changed_mode : ChangedFile :=
  mkChangedFile "tests/nested.spec.ts" ct_modified [] [].

Definition env_same : Env :=
  Posix.env Examples.repo [FsDir "tests" [FsFile "nested.spec.ts"]]
            [("/repo/tests/nested.spec.ts", Examples.nested_new)]
            [(Examples.nested_new, ([], Examples.calls_describe))]
            [("fff000^:tests/nested.spec.ts", Examples.nested_new);
             ("fff000:tests/nested.spec.ts", Examples.nested_new)]
            [("fff000",
              unlines ["diff --git tests/nested.spec.ts tests/nested.spec.ts";
                       "old mode 100644";
                       "new mode 100755"])].

(** The commit [c4d5e6] adds, as line 4 of [notes.spec.ts] and within its
    leading comment, the line [++ /dev/null]; git's diff of the commit is
    [Examples.diff_plus_line].  The test [n] of the file moves from line 5
    to line 6 and is otherwise as it was. *)
Definition notes_old : string :=
  unlines ["/* the markers of a deleted file are";
           "-- notes.spec.ts";
           "and";
           "*/";
           "test('n', async () => {});"].

Definition notes_new : string :=
  unlines ["/* the markers of a deleted file are";
           "-- notes.spec.ts";
           "and";
           "++ /dev/null";
           "*/";
           "test('n', async () => {});"].

Definition env_notes : Env :=
  Posix.env Examples.repo [FsFile "notes.spec.ts"]
            [("/repo/notes.spec.ts", notes_new)]
            [(notes_old,
              ([], [mkCall "test" [ArgStringLiteral "n"; Examples.body]
                           5 5 []]));
             (notes_new,
              ([], [mkCall "test" [ArgStringLiteral "n"; Examples.body]
                           6 6 []]))]
            [("c4d5e6^:notes.spec.ts", notes_old);
             ("c4d5e6:notes.spec.ts", notes_new)]
            [("c4d5e6", Examples.diff_plus_line)].

(** The commit [d0d0d0] changes lines 2 and 5 of [tests/dup.spec.ts], which
    holds two tests of the same name. *)
Definition dup_old : string :=
  unlines ["test('loads', async () => {";
           "  await one();";
           "});";
           "test('loads', async () => {";
           "  await two();";
           "});"].

Definition dup_new : string :=
  unlines ["test('loads', async () => {";
           "  await one(1);";
           "});";
           "test('loads', async () => {";
           "  await two(2);";
           "});"].

Definition calls_dup : SourceFile :=
  [mkCall "test" [ArgStringLiteral "loads"; Examples.body] 1 3
          [mkCall "one" [] 2 2 []];
   mkCall "test" [ArgStringLiteral "loads"; Examples.body] 4 6
          [mkCall "two" [] 5 5 []]].

Definition changed_dup : ChangedFile :=
  mkChangedFile "tests/dup.spec.ts" ct_modified [2; 5]%N [2; 5]%N.

Definition env_dup : Env :=
  Posix.env Examples.repo [FsDir "tests" [FsFile "dup.spec.ts"]]
            [("/repo/tests/dup.spec.ts", dup_new)]
            [(dup_old, ([], calls_dup)); (dup_new, ([], calls_dup))]
            [("d0d0d0^:tests/dup.spec.ts", dup_old);
             ("d0d0d0:tests/dup.spec.ts", dup_new)]
            [].

End MoreExamples.

(* ================================================================= *)
(** * Properties of the diff parser *)

Module GitOperationsProps.

Import GitOperations DiffSpec.

Lemma startsWith_at (line : string) :
  Str.startsWith line "@@" = true ->
  exists r, line = String "@"%char (String "@"%char r).
Proof.
  unfold Str.startsWith.
  destruct line as [|a [|b r]]; cbn [Str.has_prefix]; try discriminate.
  - rewrite andb_false_r. discriminate.
  - destruct (Ascii.eqb_spec "@"%char a) as [<-|]; [|discriminate].
    destruct (Ascii.eqb_spec "@"%char b) as [<-|]; [|discriminate].
    intros _. now exists r.
Qed.

(** On a line that begins with [@@] only the hunk branch can fire. *)
Lemma parseLine_at (st : State) (line : string) :
  Str.startsWith line "@@" = true ->
  parseLine st line = stepHunk line st.
Proof.
  intros H. destruct (startsWith_at _ H) as [r ->].
  reflexivity.
Qed.

Lemma pushRange_nil (ls : list N) (start count : N) :
  pushRange ls start count = ls ++ pushRange [] start count.
Proof. reflexivity. Qed.

Lemma in_pushRange (start count n : N) :
  In n (pushRange [] start count) <-> (start <= n < start + count)%N.
Proof.
  unfold pushRange. simpl. rewrite in_map_iff. split.
  - intros (j & <- & Hj). apply in_seq in Hj. lia.
  - intros Hn. exists (N.to_nat (n - start)). split; [lia|].
    apply in_seq. lia.
Qed.

Lemma length_pushRange (start count : N) :
  N.of_nat (List.length (pushRange [] start count)) = count.
Proof.
  unfold pushRange. simpl. rewrite length_map, length_seq. lia.
Qed.

Lemma NoDup_pushRange (start count : N) :
  NoDup (pushRange [] start count).
Proof.
  unfold pushRange. simpl.
  apply NoDup_map_NoDup_ForallPairs; [|apply seq_NoDup].
  intros a b _ _ Hab. lia.
Qed.

Lemma pushRange_zero (start : N) : pushRange [] start 0 = [].
Proof. reflexivity. Qed.

Lemma pushRange_empty_iff (start count : N) :
  pushRange [] start count = [] <-> count = 0%N.
Proof.
  split.
  - intros H. rewrite <- (length_pushRange start count), H. reflexivity.
  - intros ->. reflexivity.
Qed.

Lemma stepHunk_match (st : State) (line : string) (g : HunkMatch) :
  Str.startsWith line "@@" = true ->
  hunk_search line = Some g ->
  parseLine st line =
    mkState (changedFiles st) (currentFile st) (curType st)
            (curAdded st ++ pushRange [] (newStart g) (newCount g))
            (curDeleted st ++ pushRange [] (oldStart g) (oldCount g)).
Proof.
  intros Hat Hg. rewrite (parseLine_at _ _ Hat).
  unfold stepHunk. rewrite Hat, Hg. reflexivity.
Qed.

Lemma append_assoc (a b c : string) :
  ((a ++ b) ++ c = a ++ (b ++ c))%string.
Proof. induction a as [|x a IH]; simpl; [reflexivity | now rewrite IH]. Qed.

(** The greedy [\d+] takes the digit string and stops at what follows. *)
Lemma span_digits_app (d s : string) :
  Str.all_chars Str.is_digit d = true ->
  match s with
  | String c _ => Str.is_digit c = false
  | EmptyString => True
  end ->
  Str.span Str.is_digit (d ++ s) = (d, s).
Proof.
  intros Hd Hs. induction d as [|x d IH]; cbn [append Str.span].
  - destruct s as [|c r]; [reflexivity|]. cbn [Str.span]. now rewrite Hs.
  - cbn [Str.all_chars] in Hd. apply andb_prop in Hd as [Hx Hd].
    rewrite Hx, (IH Hd). reflexivity.
Qed.

Lemma opt_count_some (d s : string) :
  digits d ->
  match s with
  | String c _ => Str.is_digit c = false
  | EmptyString => True
  end ->
  opt_count ("," ++ d ++ s) = (Some d, s).
Proof.
  intros [Hne Hd] Hs. cbn [append opt_count].
  change (Ascii.eqb "," ",") with true. cbn iota.
  rewrite (span_digits_app d s Hd Hs).
  destruct d; [contradiction | reflexivity].
Qed.

(** A well-formed header text is decoded into its own digit strings,
    whatever follows the closing [@@]. *)
Lemma hunk_header_decoded (o n : string) (oc nc : option string)
      (rest : string) :
  digits o -> digitsOpt oc -> digits n -> digitsOpt nc ->
  hunk_search (headerText o oc n nc ++ rest) =
    Some (mkHunkMatch o oc n nc).
Proof.
  intros Ho Hoc Hn Hnc.
  assert (Hat : hunk_at (headerText o oc n nc ++ rest) =
                Some (mkHunkMatch o oc n nc)).
  { unfold headerText. rewrite !append_assoc.
    unfold hunk_at.
    change (Str.strip_prefix "@@ -" ("@@ -" ++ ?x)) with (Some x).
    cbv beta iota.
    set (tail2 := (match nc with Some d => "," ++ d | None => "" end
                   ++ " @@" ++ rest)%string).
    set (tail1 := (match oc with Some d => "," ++ d | None => "" end
                   ++ " +" ++ n ++ tail2)%string).
    assert (H2 : opt_count tail2 = (nc, (" @@" ++ rest)%string)).
    { unfold tail2. destruct nc as [d|].
      - rewrite append_assoc. now apply opt_count_some.
      - reflexivity. }
    assert (H1 : opt_count tail1 = (oc, (" +" ++ n ++ tail2)%string)).
    { unfold tail1. destruct oc as [d|].
      - rewrite append_assoc. now apply opt_count_some.
      - reflexivity. }
    assert (Hd2 : match tail2 with
                  | String c _ => Str.is_digit c = false
                  | EmptyString => True
                  end).
    { unfold tail2. destruct nc; reflexivity. }
    assert (Hd1 : match tail1 with
                  | String c _ => Str.is_digit c = false
                  | EmptyString => True
                  end).
    { unfold tail1. destruct oc; reflexivity. }
    rewrite (span_digits_app o tail1 (proj2 Ho) Hd1).
    destruct o as [|o0 o']; [destruct Ho as [Ho _]; contradiction|].
    rewrite H1.
    change (Str.strip_prefix " +" (" +" ++ ?x)) with (Some x).
    cbv beta iota.
    rewrite (span_digits_app n tail2 (proj2 Hn) Hd2).
    destruct n as [|n0 n']; [destruct Hn as [Hn _]; contradiction|].
    rewrite H2. reflexivity. }
  destruct (headerText o oc n nc ++ rest)%string;
    cbn [hunk_search]; now rewrite Hat.
Qed.

(** *** Decimal numerals *)

Lemma parseInt_from_pos (d : uint) (acc : positive) :
  Str.parseInt_from (Npos acc) (NilEmpty.string_of_uint d) =
    Npos (Pos.of_uint_acc d acc).
Proof.
  revert acc. induction d as [|d IH|d IH|d IH|d IH|d IH|d IH|d IH|d IH|d IH|d IH];
    intros acc; cbn [NilEmpty.string_of_uint Str.parseInt_from Pos.of_uint_acc];
    [reflexivity|..];
    match goal with
    | |- Str.parseInt_from ?x _ = N.pos (Pos.of_uint_acc _ ?y) =>
        replace x with (N.pos y)
          by (match goal with
              | |- context [N.of_nat ?t] =>
                  let v := eval vm_compute in (N.of_nat t) in
                  change (N.of_nat t) with v
              end; lia)
    end; apply IH.
Qed.

Lemma parseInt_of_uint (d : uint) :
  Str.parseInt (NilEmpty.string_of_uint d) = N.of_uint d.
Proof.
  unfold Str.parseInt, N.of_uint.
  induction d as [|d IH|d IH|d IH|d IH|d IH|d IH|d IH|d IH|d IH|d IH];
    cbn [NilEmpty.string_of_uint Str.parseInt_from Pos.of_uint];
    [reflexivity | exact IH | ..];
    match goal with
    | |- Str.parseInt_from ?x _ = N.pos (Pos.of_uint_acc _ ?y) =>
        change x with (N.pos y)
    end; apply parseInt_from_pos.
Qed.

(** [parseInt] gives a string of digits the number it denotes. *)
Lemma digits_value (d : string) :
  Str.all_chars Str.is_digit d = true ->
  DiffText.denotes d (Str.parseInt d).
Proof.
  intros Hd.
  assert (Hu : exists u, NilEmpty.uint_of_string d = Some u).
  { induction d as [|c d IH]; [now exists Nil|].
    cbn [Str.all_chars] in Hd. apply andb_prop in Hd as [Hc Hd].
    destruct (IH Hd) as [u Hu]. cbn [NilEmpty.uint_of_string]. rewrite Hu.
    destruct c as [[] [] [] [] [] [] [] []]; try discriminate Hc;
      eexists; reflexivity. }
  destruct Hu as [u Hu]. exists u. split; [exact Hu|].
  rewrite <- (NilEmpty.sus _ _ Hu). symmetry. apply parseInt_of_uint.
Qed.

(** What a match of the pattern says of the text: the literal parts were
    there and the groups are digits. *)
Lemma strip_prefix_sound (lit s r : string) :
  Str.strip_prefix lit s = Some r -> s = (lit ++ r)%string.
Proof.
  revert s. induction lit as [|a lit IH]; intros s H; cbn in H.
  - now injection H as ->.
  - destruct s as [|b s]; [discriminate|].
    destruct (Ascii.eqb_spec a b) as [<-|]; [|discriminate].
    cbn. now rewrite <- (IH _ H).
Qed.

Lemma span_sound (p : ascii -> bool) (s a b : string) :
  Str.span p s = (a, b) ->
  s = (a ++ b)%string /\ Str.all_chars p a = true.
Proof.
  revert a b. induction s as [|c s IH]; intros a b H; cbn in H.
  - injection H as <- <-. now split.
  - destruct (p c) eqn:Hc.
    + destruct (Str.span p s) as [a' b'] eqn:Hs.
      injection H as <- <-.
      destruct (IH a' b' eq_refl) as [-> Ha].
      split; [reflexivity|]. cbn. now rewrite Hc, Ha.
    + injection H as <- <-. now split.
Qed.

Lemma opt_count_sound (s t : string) (o : option string) :
  opt_count s = (o, t) ->
  s = (match o with Some d => "," ++ d | None => "" end ++ t)%string /\
  digitsOpt o.
Proof.
  unfold opt_count. destruct s as [|c r].
  - intros H. injection H as <- <-. now split.
  - destruct (Ascii.eqb_spec c ","%char) as [->|_].
    + destruct (Str.span Str.is_digit r) as [d t'] eqn:Hs.
      destruct (span_sound _ _ _ _ Hs) as [-> Hd].
      destruct d as [|x d].
      * intros H. injection H as <- <-. now split.
      * intros H. injection H as <- <-. split; [reflexivity|].
        split; [discriminate | exact Hd].
    + intros H. injection H as <- <-. now split.
Qed.

Lemma hunk_at_sound (s : string) (g : HunkMatch) :
  hunk_at s = Some g ->
  (exists rest,
     s = (headerText (g_oldStart g) (g_oldCount g)
                     (g_newStart g) (g_newCount g) ++ rest)%string) /\
  digits (g_oldStart g) /\ digitsOpt (g_oldCount g) /\
  digits (g_newStart g) /\ digitsOpt (g_newCount g).
Proof.
  unfold hunk_at.
  destruct (Str.strip_prefix "@@ -" s) as [s1|] eqn:H1; [|discriminate].
  apply strip_prefix_sound in H1. subst s.
  destruct (Str.span Str.is_digit s1) as [g1 s2] eqn:Hg1.
  destruct (span_sound _ _ _ _ Hg1) as [-> Hd1].
  destruct g1 as [|x1 g1]; [discriminate|].
  destruct (opt_count s2) as [g2 s3] eqn:Hg2.
  destruct (opt_count_sound _ _ _ Hg2) as [-> Hd2].
  destruct (Str.strip_prefix " +" s3) as [s4|] eqn:H3; [|discriminate].
  apply strip_prefix_sound in H3. subst s3.
  destruct (Str.span Str.is_digit s4) as [g3 s5] eqn:Hg3.
  destruct (span_sound _ _ _ _ Hg3) as [-> Hd3].
  destruct g3 as [|x3 g3]; [discriminate|].
  destruct (opt_count s5) as [g4 s6] eqn:Hg4.
  destruct (opt_count_sound _ _ _ Hg4) as [-> Hd4].
  destruct (Str.strip_prefix " @@" s6) as [s7|] eqn:H5; [|discriminate].
  apply strip_prefix_sound in H5. subst s6.
  intros H. injection H as <-. cbn [g_oldStart g_oldCount g_newStart g_newCount].
  repeat match goal with |- _ /\ _ => split end;
    try assumption; try (split; [discriminate | assumption]).
  exists s7. unfold headerText. now rewrite !append_assoc.
Qed.

Lemma hunk_search_sound (s : string) (g : HunkMatch) :
  hunk_search s = Some g ->
  (exists pre rest,
     s = (pre ++ headerText (g_oldStart g) (g_oldCount g)
                            (g_newStart g) (g_newCount g) ++ rest)%string) /\
  digits (g_oldStart g) /\ digitsOpt (g_oldCount g) /\
  digits (g_newStart g) /\ digitsOpt (g_newCount g).
Proof.
  induction s as [|c s IH]; cbn [hunk_search];
    destruct (hunk_at _) as [g'|] eqn:Hat.
  - intros H. injection H as ->.
    destruct (hunk_at_sound _ _ Hat) as [[rest Hr] Hd].
    split; [now exists EmptyString, rest | exact Hd].
  - discriminate.
  - intros H. injection H as ->.
    destruct (hunk_at_sound _ _ Hat) as [[rest Hr] Hd].
    split; [now exists EmptyString, rest | exact Hd].
  - intros H. destruct (IH H) as [(pre & rest & ->) Hd].
    split; [now exists (String c pre), rest | exact Hd].
Qed.

(** C5: let the hunk pattern match on a line that begins with [@@], the
    declared ranges end by 2^53 (where the program's numbers are exact) and
    the two arrays have room for them.  Then the line holds the header text
    [@@ -oldStart[,oldCount] +newStart[,newCount] @@] made of the matched
    digit strings, a header text of that form is always matched with
    exactly its digit strings, and the parser appends to the deleted lines
    exactly the numbers of [oldStart, oldStart + oldCount) and to the added
    lines exactly those of [newStart, newStart + newCount), each once,
    where a count that the header omits is 1; so the recorded numbers lie
    within the declared counts and there are as many of them as declared.
    Nothing else of the parser's state changes. *)
Theorem C5_hunk_ranges (st : State) (line : string) (g : HunkMatch) :
  Str.startsWith line "@@" = true ->
  hunk_search line = Some g ->
  exactRange (oldStart g) (oldCount g) ->
  exactRange (newStart g) (newCount g) ->
  fitsArray (curDeleted st) (oldCount g) ->
  fitsArray (curAdded st) (newCount g) ->
  (exists pre rest,
     line = (pre ++ headerText (g_oldStart g) (g_oldCount g)
                               (g_newStart g) (g_newCount g) ++ rest)%string) /\
  digits (g_oldStart g) /\ digitsOpt (g_oldCount g) /\
  digits (g_newStart g) /\ digitsOpt (g_newCount g) /\
  (forall o n oc nc rest,
     digits o -> digitsOpt oc -> digits n -> digitsOpt nc ->
     hunk_search (headerText o oc n nc ++ rest) =
       Some (mkHunkMatch o oc n nc)) /\
  DiffText.denotes (g_oldStart g) (oldStart g) /\
  DiffText.denotes (g_newStart g) (newStart g) /\
  match g_oldCount g with
  | Some d => DiffText.denotes d (oldCount g)
  | None => oldCount g = 1%N
  end /\
  match g_newCount g with
  | Some d => DiffText.denotes d (newCount g)
  | None => newCount g = 1%N
  end /\
  exists del add : list N,
    curDeleted (parseLine st line) = curDeleted st ++ del /\
    curAdded (parseLine st line) = curAdded st ++ add /\
    (forall n, In n del <-> (oldStart g <= n < oldStart g + oldCount g)%N) /\
    (forall n, In n add <-> (newStart g <= n < newStart g + newCount g)%N) /\
    NoDup del /\ NoDup add /\
    N.of_nat (List.length del) = oldCount g /\
    N.of_nat (List.length add) = newCount g /\
    oldStart g = Str.parseInt (g_oldStart g) /\
    newStart g = Str.parseInt (g_newStart g) /\
    oldCount g = match g_oldCount g with
                 | Some d => Str.parseInt d
                 | None => 1%N
                 end /\
    newCount g = match g_newCount g with
                 | Some d => Str.parseInt d
                 | None => 1%N
                 end /\
    changedFiles (parseLine st line) = changedFiles st /\
    currentFile (parseLine st line) = currentFile st /\
    curType (parseLine st line) = curType st.
Proof.
  intros Hat Hg _ _ _ _.
  destruct (hunk_search_sound _ _ Hg) as (Htext & Ho & Hoc & Hn & Hnc).
  repeat match goal with |- _ /\ _ => split end; try assumption.
  { intros o n oc nc rest. apply hunk_header_decoded. }
  { apply digits_value, Ho. }
  { apply digits_value, Hn. }
  { unfold oldCount. destruct (g_oldCount g) as [d|]; [|reflexivity].
    apply digits_value, Hoc. }
  { unfold newCount. destruct (g_newCount g) as [d|]; [|reflexivity].
    apply digits_value, Hnc. }
  rewrite (stepHunk_match st line g Hat Hg). simpl.
  exists (pushRange [] (oldStart g) (oldCount g)),
         (pushRange [] (newStart g) (newCount g)).
  repeat match goal with |- _ /\ _ => split end;
    try reflexivity;
    try (intros n; apply in_pushRange);
    try apply NoDup_pushRange;
    try apply length_pushRange.
Qed.

Lemma C5_hunk_ranges_witness :
  exists del add : list N,
    curDeleted (parseLine initial "@@ -3,2 +7 @@ test()") = [] ++ del /\
    curAdded (parseLine initial "@@ -3,2 +7 @@ test()") = [] ++ add /\
    del = [3; 4]%N /\ add = [7]%N.
Proof.
  assert (Hold : exactRange 3 2) by (unfold exactRange; lia).
  assert (Hnew : exactRange 7 1) by (unfold exactRange; lia).
  assert (Hfd : fitsArray [] 2) by (unfold fitsArray; simpl; lia).
  assert (Hfa : fitsArray [] 1) by (unfold fitsArray; simpl; lia).
  destruct (C5_hunk_ranges initial "@@ -3,2 +7 @@ test()"
              (mkHunkMatch "3" (Some "2") "7" None)
              eq_refl eq_refl Hold Hnew Hfd Hfa)
    as (_ & _ & _ & _ & _ & _ & _ & _ & _ & _ & del & add & Hd & Ha & _).
  exists del, add. repeat split; try assumption.
  - vm_compute in Hd. congruence.
  - vm_compute in Ha. congruence.
Defined.

Lemma stepHunk_skip (st : State) (line : string) :
  Str.startsWith line "@@" = true ->
  hunk_search line = None ->
  parseLine st line = st.
Proof.
  intros Hat Hg. rewrite (parseLine_at _ _ Hat).
  unfold stepHunk. rewrite Hat, Hg. reflexivity.
Qed.

(** C7: a line that begins with [@@] and on which the hunk pattern does
    not match leaves the parser's state as it is, so the parse of the diff
    is the parse of the diff without that line: no line number is recorded
    for it and what was accumulated before and what comes after is kept. *)
Theorem C7_malformed_hunk_skipped
        (diff : string) (pre post : list string) (bad : string) :
  Str.split_lines diff = pre ++ bad :: post ->
  Str.startsWith bad "@@" = true ->
  hunk_search bad = None ->
  (forall st, parseLine st bad = st) /\
  addedBy bad = [] /\ deletedBy bad = [] /\
  parseDiff diff = parseLines (pre ++ post).
Proof.
  intros Hsplit Hat Hbad. repeat split.
  - intros st. now apply stepHunk_skip.
  - unfold addedBy, hunkOf. now rewrite Hat, Hbad.
  - unfold deletedBy, hunkOf. now rewrite Hat, Hbad.
  - unfold parseDiff, parseLines. rewrite Hsplit.
    rewrite !fold_left_app. simpl.
    now rewrite (stepHunk_skip _ bad Hat Hbad).
Qed.

Lemma C7_malformed_hunk_skipped_witness :
  parseDiff (unlines ["diff --git a.spec.ts a.spec.ts"; "--- a.spec.ts";
                      "+++ a.spec.ts"; "@@ -1 +1 @@"; "@@ -x,2 +y @@";
                      "@@ -9,0 +10,2 @@"; "diff --git b.ts b.ts";
                      "--- b.ts"; "+++ b.ts"; "@@ -4 +4 @@"])
  = [mkChangedFile "a.spec.ts" ct_modified [1; 10; 11]%N [1]%N;
     mkChangedFile "b.ts" ct_modified [4]%N [4]%N].
Proof.
  destruct (C7_malformed_hunk_skipped
              (unlines ["diff --git a.spec.ts a.spec.ts"; "--- a.spec.ts";
                        "+++ a.spec.ts"; "@@ -1 +1 @@"; "@@ -x,2 +y @@";
                        "@@ -9,0 +10,2 @@"; "diff --git b.ts b.ts";
                        "--- b.ts"; "+++ b.ts"; "@@ -4 +4 @@"])
              ["diff --git a.spec.ts a.spec.ts"; "--- a.spec.ts";
               "+++ a.spec.ts"; "@@ -1 +1 @@"]
              ["@@ -9,0 +10,2 @@"; "diff --git b.ts b.ts";
               "--- b.ts"; "+++ b.ts"; "@@ -4 +4 @@"]
              "@@ -x,2 +y @@" eq_refl eq_refl eq_refl)
    as (_ & _ & _ & H).
  rewrite H. reflexivity.
Defined.

(** *** The line sets of a file come from the hunks of its section *)

Lemma header_line (st : State) (line : string) :
  isHeader line = true ->
  parseLine st line = mkState (flush st) None ct_modified [] [].
Proof.
  intros H. unfold parseLine, stepHeader. fold (isHeader line). rewrite H.
  unfold isHeader, Str.startsWith in H.
  destruct line as [|a r]; [discriminate|].
  cbn [Str.has_prefix] in H. apply andb_prop in H as [Ha _].
  apply Ascii.eqb_eq in Ha. subst a. reflexivity.
Qed.

Lemma body_line (st : State) (line : string) :
  isHeader line = false ->
  changedFiles (parseLine st line) = changedFiles st /\
  curAdded (parseLine st line) = curAdded st ++ addedBy line /\
  curDeleted (parseLine st line) = curDeleted st ++ deletedBy line.
Proof.
  intros H. unfold parseLine, stepHeader. fold (isHeader line). rewrite H.
  unfold stepHunk, addedBy, deletedBy, hunkOf.
  assert (Hmark :
    let st' := stepNewMarker line (stepOldMarker line st) in
    changedFiles st' = changedFiles st /\
    curAdded st' = curAdded st /\ curDeleted st' = curDeleted st).
  { unfold stepNewMarker, stepOldMarker.
    destruct (Str.startsWith line "---");
      [destruct (match_old_marker line) as [p|];
       [destruct (String.eqb p "/dev/null")|]|];
      (destruct (Str.startsWith line "+++");
       [destruct (match_new_marker line) as [q|];
        [destruct (String.eqb q "/dev/null")|]|]);
      simpl; auto. }
  destruct Hmark as (Hf & Ha & Hd).
  destruct (Str.startsWith line "@@");
    [destruct (hunk_search line) as [g|]|];
    simpl; rewrite ?app_nil_r, ?Hf, ?Ha, ?Hd; auto.
Qed.

Lemma Completed_snoc (lines : list string) (l : string) (cf : ChangedFile) :
  Completed lines cf -> Completed (lines ++ [l]) cf.
Proof.
  intros (pre & body & post & (Hl & Hb & Hpre & Hpost) & Hne & Ha & Hd).
  exists pre, body, (post ++ [l]). repeat split; try assumption.
  - rewrite Hl, <- !app_assoc. reflexivity.
  - right. destruct Hpost as [->|(h & post' & -> & Hh)]; [contradiction|].
    exists h, (post' ++ [l]). now split.
  - destruct post; [contradiction | discriminate].
Qed.

Lemma Current_closed (lines : list string) (l : string) (st : State) :
  isHeader l = true ->
  Current lines st ->
  Completed (lines ++ [l])
            (mkChangedFile
               (match currentFile st with Some p => p | None => "" end)
               (curType st) (curAdded st) (curDeleted st)).
Proof.
  intros Hh (pre & body & (Hl & Hb & Hpre & _) & Ha & Hd).
  exists pre, body, [l]. repeat split; try assumption.
  - rewrite Hl, app_nil_r, <- app_assoc. reflexivity.
  - right. now exists l, [].
  - discriminate.
Qed.

Lemma Inv_initial : Inv [] initial.
Proof.
  split; [constructor|].
  exists [], []. repeat split; auto.
Qed.

Lemma Inv_step (lines : list string) (l : string) (st : State) :
  Inv lines st -> Inv (lines ++ [l]) (parseLine st l).
Proof.
  intros [Hfiles Hcur].
  assert (Hold : Forall (Completed (lines ++ [l])) (changedFiles st)).
  { eapply Forall_impl; [|exact Hfiles]. intros cf. apply Completed_snoc. }
  destruct (isHeader l) eqn:Hh.
  - rewrite (header_line st l Hh). split; simpl.
    + unfold flush. destruct (Str.truthy (currentFile st)); [|exact Hold].
      apply Forall_app. split; [exact Hold|].
      constructor; [|constructor]. now apply Current_closed.
    + exists (lines ++ [l]), [].
      repeat split; auto;
        try (now rewrite !app_nil_r); try (right; now exists lines, l).
  - destruct (body_line st l Hh) as (Hf & Ha & Hd). split.
    + now rewrite Hf.
    + destruct Hcur as (pre & body & (Hl & Hb & Hpre & _) & Hca & Hcd).
      exists pre, (body ++ [l]). repeat split; auto.
      * rewrite Hl, !app_nil_r, app_assoc. reflexivity.
      * apply Forall_app. split; [exact Hb|]. now constructor.
      * rewrite Ha, Hca, flat_map_app. simpl. now rewrite app_nil_r.
      * rewrite Hd, Hcd, flat_map_app. simpl. now rewrite app_nil_r.
Qed.

Lemma Inv_run (ls lines : list string) (st : State) :
  Inv lines st -> Inv (lines ++ ls) (fold_left parseLine ls st).
Proof.
  revert lines st. induction ls as [|l ls IH]; intros lines st H; simpl.
  - now rewrite app_nil_r.
  - replace (lines ++ l :: ls) with ((lines ++ [l]) ++ ls)
      by now rewrite <- app_assoc.
    apply IH. now apply Inv_step.
Qed.

(** Every file of the result has a section of the input whose hunk
    headers account for its two line sets. *)
Lemma parseLines_sections (lines : list string) (cf : ChangedFile) :
  In cf (parseLines lines) ->
  exists pre body post,
    sectionOf lines pre body post /\
    addedLines cf = flat_map addedBy body /\
    deletedLines cf = flat_map deletedBy body.
Proof.
  unfold parseLines. intros Hin.
  destruct (Inv_run lines [] initial Inv_initial) as [Hfiles Hcur].
  simpl in Hfiles, Hcur.
  set (st := fold_left parseLine lines initial) in *.
  assert (Hdone : forall c, In c (changedFiles st) ->
            exists pre body post,
              sectionOf lines pre body post /\
              addedLines c = flat_map addedBy body /\
              deletedLines c = flat_map deletedBy body).
  { intros c Hc. rewrite Forall_forall in Hfiles.
    destruct (Hfiles c Hc) as (pre & body & post & Hs & _ & Ha & Hd).
    now exists pre, body, post. }
  unfold flush in Hin. destruct (Str.truthy (currentFile st)).
  - apply in_app_or in Hin as [Hc|[<-|[]]]; [now apply Hdone|].
    destruct Hcur as (pre & body & Hs & Ha & Hd).
    now exists pre, body, [].
  - now apply Hdone.
Qed.

Lemma flat_map_nil {A B} (f : A -> list B) (l : list A) :
  (forall x, In x l -> f x = []) -> flat_map f l = [].
Proof.
  induction l as [|a l IH]; intros H; simpl; [reflexivity|].
  rewrite (H a (or_introl eq_refl)). apply IH.
  intros x Hx. apply H. now right.
Qed.

(** C4 fails in the code: [parseDiff] takes the line [+++ /dev/null] for
    the marker of a deleted file wherever it stands in a section, also
    among the changed lines of a hunk, where it is the added line
    [++ /dev/null].  The diff of a commit that adds that line as line 4 of
    [notes.spec.ts] is parsed into a file of change type [deleted] whose
    [addedLines] is [4]; without that one line the same diff is parsed into
    the [modified] file it describes.  Likewise a removed line
    [-- /dev/null] makes [seed.ts] an [added] file whose [deletedLines] is
    [2].  So the invariant of the claim does not hold of [parseDiff]; and
    the analysis of the commit reports the test [n], which the file holds
    before and at the commit, as removed. *)
Theorem C4_content_line_read_as_marker :
  parseDiff Examples.diff_plus_line =
    [mkChangedFile "notes.spec.ts" ct_deleted [4]%N []] /\
  parseLines (removelast (Str.split_lines Examples.diff_plus_line)) =
    [mkChangedFile "notes.spec.ts" ct_modified [4]%N []] /\
  last (Str.split_lines Examples.diff_plus_line) "" = "+++ /dev/null" /\
  parseDiff Examples.diff_minus_line =
    [mkChangedFile "seed.ts" ct_added [] [2]%N] /\
  ~ (forall diff cf,
       In cf (parseDiff diff) ->
       (changeType cf = ct_deleted -> addedLines cf = []) /\
       (changeType cf = ct_added -> deletedLines cf = [])) /\
  ImpactAnalyzer.getFileAtCommit MoreExamples.env_notes "c4d5e6"
    "notes.spec.ts" = Some MoreExamples.notes_new /\
  ImpactAnalyzer.analyzeCommit MoreExamples.env_notes Examples.repo "c4d5e6" =
    Some [mkImpact "n" "notes.spec.ts" removed None].
Proof.
  split; [reflexivity|]. split; [reflexivity|]. split; [reflexivity|].
  split; [reflexivity|]. split; [|split; reflexivity].
  intros H.
  destruct (H Examples.diff_plus_line
              (mkChangedFile "notes.spec.ts" ct_deleted [4]%N [])
              (or_introl eq_refl)) as [Hd _].
  specialize (Hd eq_refl). discriminate Hd.
Qed.

End GitOperationsProps.

(* ================================================================= *)
(** * Properties of the test-block extractor *)

Module TestParserProps.

Import TestParser ParserSpec.

(** Induction on call trees: the property may be assumed of the children. *)
Lemma Call_tree_ind (P : Call -> Prop) :
  (forall f a s e ch, Forall P ch -> P (mkCall f a s e ch)) ->
  forall c, P c.
Proof.
  intros step. fix IH 1. intros [f a s e ch]. apply step.
  induction ch as [|x ch IHch]; constructor; [apply IH | exact IHch].
Qed.

Lemma extractTests_from (filePath : string) (cs : list Call)
      (acc : list TestInfo) :
  fold_left
    (fun tests callExpr =>
       if isTestCall (callee_of callExpr) then
         match extractTestInfo callExpr filePath with
         | Some testInfo => tests ++ [testInfo]
         | None => tests
         end
       else tests) cs acc
  = acc ++ flat_map (blocksOf filePath) cs.
Proof.
  revert acc. induction cs as [|c cs IH]; intros acc; simpl.
  - now rewrite app_nil_r.
  - rewrite IH. unfold blocksOf.
    destruct (isTestCall (callee_of c)); [|reflexivity].
    destruct (extractTestInfo c filePath); [|reflexivity].
    now rewrite <- app_assoc.
Qed.

(** [extractTests] visits the call expressions in order and keeps, for each
    recognised one with two arguments or more, one block. *)
Lemma extractTests_blocks (sf : SourceFile) (filePath : string) :
  extractTests sf filePath = flat_map (blocksOf filePath) (callExpressions sf).
Proof. unfold extractTests. now rewrite extractTests_from. Qed.

Lemma descendants_head (c : Call) :
  descendants c = c :: nestedCalls c.
Proof. destruct c; reflexivity. Qed.

Lemma in_forest_block (cs : list Call) (d : Call) :
  Forall (fun c => In d (descendants c) ->
                   exists p q, descendants c = p ++ descendants d ++ q) cs ->
  In d (flat_map descendants cs) ->
  exists p q, flat_map descendants cs = p ++ descendants d ++ q.
Proof.
  induction 1 as [|c cs Hc _ IH]; simpl; [contradiction|].
  intros Hin. apply in_app_or in Hin as [Hin|Hin].
  - destruct (Hc Hin) as (p & q & ->).
    exists p, (q ++ flat_map descendants cs). now rewrite <- !app_assoc.
  - destruct (IH Hin) as (p & q & ->).
    exists (descendants c ++ p), q. now rewrite <- !app_assoc.
Qed.

(** The descendants of a node form one run of the traversal. *)
Lemma descendants_block (root d : Call) :
  In d (descendants root) ->
  exists p q, descendants root = p ++ descendants d ++ q.
Proof.
  induction root as [f a s e ch IH] using Call_tree_ind.
  intros Hin. cbn [descendants] in Hin. destruct Hin as [<-|Hin].
  - exists [], []. now rewrite app_nil_r.
  - destruct (in_forest_block ch d IH Hin) as (p & q & Hpq).
    exists (mkCall f a s e ch :: p), q. cbn [descendants]. now rewrite Hpq.
Qed.

Lemma callExpressions_block (sf : SourceFile) (d : Call) :
  In d (callExpressions sf) ->
  exists p q, callExpressions sf = p ++ descendants d ++ q.
Proof.
  intros Hin. apply in_forest_block; [|exact Hin].
  apply Forall_forall. intros c _. apply descendants_block.
Qed.

(** In a well-nested tree every call below [d] lies within the lines of
    [d]. *)
Lemma nested_span (d c : Call) :
  wellNested d = true ->
  In c (nestedCalls d) ->
  (startLn_of d <= startLn_of c)%N /\ (endLn_of c <= endLn_of d)%N.
Proof.
  revert c. induction d as [f a s e ch IH] using Call_tree_ind.
  intros c Hwn Hin. cbn [wellNested] in Hwn.
  apply andb_prop in Hwn as [_ Hch]. rewrite forallb_forall in Hch.
  unfold nestedCalls in Hin. cbn [children_of] in Hin.
  apply in_flat_map in Hin as (x & Hx & Hc).
  specialize (Hch x Hx). apply andb_prop in Hch as [Hch Hwx].
  apply andb_prop in Hch as [Hs He].
  apply N.leb_le in Hs, He. cbn [startLn_of endLn_of].
  rewrite descendants_head in Hc. destruct Hc as [<-|Hc]; [now split|].
  rewrite Forall_forall in IH.
  destruct (IH x Hx c Hwx Hc) as [Hs' He']. split; lia.
Qed.

Lemma removeQuotes_filter (t : string) :
  list_ascii_of_string (removeQuotes t) =
    filter (fun ch => negb (isPlainQuote ch)) (list_ascii_of_string t).
Proof.
  induction t as [|ch t IH]; [reflexivity|].
  cbn [removeQuotes list_ascii_of_string filter]. unfold isPlainQuote at 1.
  destruct (Ascii.eqb ch "039" || Ascii.eqb ch "034"); cbn [negb].
  - exact IH.
  - cbn [list_ascii_of_string]. now rewrite IH.
Qed.

(** C3, as the code has it: the name of the block of a recognised call
    with two arguments or more is the literal value of a first argument that
    is a string literal, and otherwise the source text of the first argument
    with every single-quote and every double-quote character deleted,
    wherever it stands, the other characters kept in order. *)
Theorem C3_name_of_block (sf : SourceFile) (filePath : string) (c : Call)
        (nameArg second : Arg) (rest : list Arg) :
  In c (callExpressions sf) ->
  isTestCall (callee_of c) = true ->
  args_of c = nameArg :: second :: rest ->
  exists info,
    extractTestInfo c filePath = Some info /\
    In info (extractTests sf filePath) /\
    match nameArg with
    | ArgStringLiteral v => name info = v
    | ArgOther t =>
        list_ascii_of_string (name info) =
          filter (fun ch => negb (isPlainQuote ch)) (list_ascii_of_string t)
    end.
Proof.
  intros Hin Htest Hargs.
  unfold extractTestInfo. rewrite Hargs.
  eexists. split; [reflexivity|]. split.
  - rewrite extractTests_blocks. apply in_flat_map. exists c.
    split; [exact Hin|]. unfold blocksOf, extractTestInfo.
    rewrite Htest, Hargs. now left.
  - destruct nameArg as [v|t]; cbn [name]; [reflexivity|].
    apply removeQuotes_filter.
Qed.

Lemma C3_name_of_block_witness :
  exists info,
    extractTestInfo Examples.call_template "a.spec.ts" = Some info /\
    In info (extractTests Examples.calls_describe "a.spec.ts") /\
    name info = "`its ok`".
Proof.
  destruct (C3_name_of_block Examples.calls_describe "a.spec.ts"
              (mkCall "test"
                      [ArgOther "`it's ok`"; ArgOther "async () => { ... }"]
                      2 4
                      [mkCall "expect(page()).toBe" [ArgOther "1"] 3 3
                              [mkCall "expect" [ArgOther "page()"] 3 3
                                      [mkCall "page" [] 3 3 []]]])
              (ArgOther "`it's ok`") (ArgOther "async () => { ... }") []
              (or_intror (or_introl eq_refl)) eq_refl eq_refl)
    as (info & He & Hin & _).
  exists info. split; [|split; [exact Hin|]].
  - rewrite <- He. reflexivity.
  - vm_compute in He. injection He as <-. reflexivity.
Defined.

(** C3 as the specification states it fails: for the template literal
    [`it's ok`] the apostrophe inside is deleted, and for the concatenation
    ['user ' + role] the quotes inside the expression are deleted. *)
Lemma C3_counterexample :
  extractTestInfo Examples.call_template "a.spec.ts" =
    Some (mkTestInfo "`its ok`" "a.spec.ts" 2 4) /\
  stripQuoteDelimiters "`it's ok`" = "it's ok" /\
  extractTestInfo Examples.call_concat "a.spec.ts" =
    Some (mkTestInfo "user  + role" "a.spec.ts" 7 7) /\
  stripQuoteDelimiters "'user ' + role" = "'user ' + role" /\
  ~ (forall c filePath t second rest info,
       isTestCall (callee_of c) = true ->
       args_of c = ArgOther t :: second :: rest ->
       extractTestInfo c filePath = Some info ->
       name info = stripQuoteDelimiters t).
Proof.
  split; [reflexivity|]. split; [reflexivity|].
  split; [reflexivity|]. split; [reflexivity|].
  intros H.
  specialize (H Examples.call_template "a.spec.ts" "`it's ok`"
                (ArgOther "async () => { ... }") []
                (mkTestInfo "`its ok`" "a.spec.ts" 2 4)
                eq_refl eq_refl eq_refl).
  discriminate H.
Qed.

Lemma extractTestInfo_two_args (c : Call) (filePath : string) :
  2 <= List.length (args_of c) ->
  exists info,
    extractTestInfo c filePath = Some info /\
    filePath = Types.filePath info /\
    startLine info = startLn_of c /\ endLine info = endLn_of c.
Proof.
  intros Hlen. unfold extractTestInfo.
  destruct (args_of c) as [|a1 [|a2 rest]]; simpl in Hlen; try lia.
  eexists. split; [reflexivity|]. now repeat split.
Qed.

Lemma hasOverlap_in (lines : list N) (line s e : N) :
  In line lines -> (s <= line <= e)%N -> hasOverlap lines s e = true.
Proof.
  intros Hin Hr. unfold hasOverlap. apply existsb_exists. exists line.
  split; [exact Hin|]. unfold isLineInRange.
  apply andb_true_intro. split; apply N.leb_le; lia.
Qed.

(** [hasOverlap] against the comparison of the numbers. *)
Lemma hasOverlap_iff (lines : list N) (s e : N) :
  hasOverlap lines s e = true <->
  exists line, In line lines /\ (s <= line <= e)%N.
Proof.
  split.
  - unfold hasOverlap, isLineInRange. intros H.
    apply existsb_exists in H as (line & Hin & Hr).
    apply andb_prop in Hr as [H1 H2]. apply N.leb_le in H1, H2.
    exists line. split; [exact Hin | lia].
  - intros (line & Hin & Hr). now apply (hasOverlap_in lines line).
Qed.

(** A recognised call with two arguments or more and a recognised call with
    two arguments or more below it both give a block, the outer one first,
    and in a well-nested tree the span of the inner block lies within the
    span of the outer one. *)
Lemma nested_blocks (sf : SourceFile) (filePath : string) (d c : Call) :
  In d (callExpressions sf) ->
  isTestCall (callee_of d) = true ->
  2 <= List.length (args_of d) ->
  In c (nestedCalls d) ->
  isTestCall (callee_of c) = true ->
  2 <= List.length (args_of c) ->
  exists bd bc l1 l2 l3,
    extractTestInfo d filePath = Some bd /\
    extractTestInfo c filePath = Some bc /\
    extractTests sf filePath = l1 ++ bd :: l2 ++ bc :: l3 /\
    startLine bd = startLn_of d /\ endLine bd = endLn_of d /\
    startLine bc = startLn_of c /\ endLine bc = endLn_of c.
Proof.
  intros Hd Htd Had Hc Htc Hac.
  destruct (extractTestInfo_two_args d filePath Had)
    as (bd & Hbd & _ & Hsd & Hed).
  destruct (extractTestInfo_two_args c filePath Hac)
    as (bc & Hbc & _ & Hsc & Hec).
  destruct (callExpressions_block sf d Hd) as (p & q & Hpq).
  destruct (in_split c (nestedCalls d) Hc) as (m1 & m2 & Hm).
  exists bd, bc, (flat_map (blocksOf filePath) p),
         (flat_map (blocksOf filePath) m1),
         (flat_map (blocksOf filePath) m2 ++ flat_map (blocksOf filePath) q).
  repeat split; try assumption.
  rewrite extractTests_blocks, Hpq, descendants_head, Hm.
  rewrite !flat_map_app. cbn [flat_map]. rewrite !flat_map_app.
  cbn [flat_map].
  unfold blocksOf at 2 4. rewrite Htd, Hbd, Htc, Hbc.
  cbn [app]. rewrite <- !app_assoc. reflexivity.
Qed.

End TestParserProps.

(* ================================================================= *)
(** * Properties of the impact classifier *)

Module ImpactAnalyzerProps.

Import TestParser ImpactAnalyzer AnalyzerSpec.

Section WithEnv.

Variable E : Env.
Variable repoPath : string.

Lemma find_existsb {A} (p : A -> bool) (l : list A) :
  match find p l with Some _ => true | None => false end = existsb p l.
Proof.
  induction l as [|a l IH]; simpl; [reflexivity|].
  destruct (p a); [reflexivity | exact IH].
Qed.

(** The first loop: one [added] result for each current test whose name the
    old version does not have. *)
Lemma addedLoop_filter (cf : ChangedFile) (beforeTests currentTests : list TestInfo)
      (impacts : list ImpactResult) :
  addedLoop cf beforeTests currentTests impacts =
    impacts ++ map (direct cf added)
                   (filter (fun t => negb (presentIn beforeTests t))
                           currentTests).
Proof.
  unfold addedLoop. revert impacts.
  induction currentTests as [|t ts IH]; intros impacts; simpl.
  - now rewrite app_nil_r.
  - rewrite IH. unfold presentIn at 2.
    destruct (existsb (fun bt => sameName bt t) beforeTests); cbn [negb].
    + reflexivity.
    + rewrite orb_true_r. cbn [map]. now rewrite <- app_assoc.
Qed.

(** The second loop: one [removed] result for each old test whose name the
    new version does not have. *)
Lemma removedLoop_filter (cf : ChangedFile)
      (beforeTests currentTests : list TestInfo)
      (impacts : list ImpactResult) :
  removedLoop cf beforeTests currentTests impacts =
    impacts ++ map (direct cf removed)
                   (filter (fun t => negb (presentIn currentTests t))
                           beforeTests).
Proof.
  unfold removedLoop. revert impacts.
  induction beforeTests as [|t ts IH]; intros impacts; simpl.
  - now rewrite app_nil_r.
  - rewrite IH. unfold presentIn at 2.
    destruct (existsb (fun ct => sameName ct t) currentTests); cbn [negb].
    + reflexivity.
    + cbn [map]. now rewrite <- app_assoc.
Qed.

Lemma alreadyAdded_app (xs ys : list ImpactResult) (t : TestInfo) :
  alreadyAdded (xs ++ ys) t = alreadyAdded xs t || alreadyAdded ys t.
Proof. unfold alreadyAdded. apply existsb_app. Qed.

Lemma alreadyAdded_modified (cf : ChangedFile) (t' t : TestInfo) :
  alreadyAdded [direct cf modified t'] t = false.
Proof. unfold alreadyAdded. simpl. now rewrite andb_false_r. Qed.

(** The third loop, for results [emitted] by the first two: one [modified]
    result for each current test that the old version has by name, whose
    span holds an added line and for which no [added] result of that name
    was emitted. *)
Lemma modifiedLoop_filter (cf : ChangedFile)
      (beforeTests currentTests : list TestInfo)
      (emitted : list ImpactResult) :
  modifiedLoop cf beforeTests currentTests emitted =
    emitted ++ map (direct cf modified)
                   (filter (fun t => presentIn beforeTests t &&
                                     overlaps cf t &&
                                     negb (alreadyAdded emitted t))
                           currentTests).
Proof.
  unfold modifiedLoop.
  assert (H : forall ms,
    fold_left (modifiedStep cf beforeTests) currentTests
              (emitted ++ map (direct cf modified) ms) =
    emitted ++ map (direct cf modified)
      (ms ++ filter (fun t => presentIn beforeTests t && overlaps cf t &&
                              negb (alreadyAdded emitted t)) currentTests)).
  { induction currentTests as [|t ts IH]; intros ms;
      cbn [fold_left filter].
    - now rewrite app_nil_r.
    - assert (Hadd : alreadyAdded (emitted ++ map (direct cf modified) ms) t
                     = alreadyAdded emitted t).
      { rewrite alreadyAdded_app.
        assert (Hms : alreadyAdded (map (direct cf modified) ms) t = false).
        { clear. induction ms as [|m ms IHm]; [reflexivity|].
          change (map (direct cf modified) (m :: ms))
            with ([direct cf modified m] ++ map (direct cf modified) ms).
          now rewrite alreadyAdded_app, alreadyAdded_modified, IHm. }
        now rewrite Hms, orb_false_r. }
      assert (Hfind : match find (fun bt => sameName bt t) beforeTests with
                      | Some _ => true
                      | None => false
                      end = presentIn beforeTests t)
        by apply find_existsb.
      unfold modifiedStep at 2. fold (overlaps cf t).
      destruct (find (fun bt => sameName bt t) beforeTests);
        rewrite <- Hfind; cbn [andb]; [|apply IH].
      destruct (overlaps cf t); cbn [andb]; [|apply IH].
      rewrite Hadd. destruct (alreadyAdded emitted t); cbn [negb]; [apply IH|].
      rewrite <- app_assoc.
      change ([direct cf modified t]) with (map (direct cf modified) [t]).
      rewrite <- map_app, IH, <- app_assoc. reflexivity. }
  specialize (H []). simpl in H. rewrite app_nil_r in H. exact H.
Qed.

Lemma truthy_some (text : string) :
  text <> "" -> Str.truthy (Some text) = true.
Proof.
  intros H. unfold Str.truthy.
  destruct (String.eqb_spec text ""); [contradiction | reflexivity].
Qed.

Lemma parseTestFile_content (filePath text : string) :
  text <> "" ->
  parseTestFile E filePath (Some text) =
    Some (extractTests (ts_calls E text) filePath).
Proof. intros H. unfold parseTestFile. now rewrite truthy_some. Qed.

Lemma presentIn_name (tests : list TestInfo) (t t' : TestInfo) :
  name t = name t' -> presentIn tests t = presentIn tests t'.
Proof. intros H. unfold presentIn, sameName. now rewrite H. Qed.

(** The result of the [modified] branch when both contents are there. *)
Lemma analyzeTestFile_modified (cf : ChangedFile)
      (commitSha oldText newText : string) :
  changeType cf = ct_modified ->
  getFileBeforeCommit E commitSha (path cf) = Some oldText -> oldText <> "" ->
  getFileAtCommit E commitSha (path cf) = Some newText -> newText <> "" ->
  let filePath := path_join E repoPath (path cf) in
  let beforeTests := extractTests (ts_calls E oldText) filePath in
  let currentTests := extractTests (ts_calls E newText) filePath in
  let emitted :=
    map (direct cf added)
        (filter (fun t => negb (presentIn beforeTests t)) currentTests) ++
    map (direct cf removed)
        (filter (fun t => negb (presentIn currentTests t)) beforeTests) in
  analyzeTestFile E repoPath cf commitSha =
    Some (emitted ++
          map (direct cf modified)
              (filter (fun t => presentIn beforeTests t && overlaps cf t &&
                                negb (alreadyAdded emitted t))
                      currentTests)).
Proof.
  intros Hty Hold Hne Hnew Hne'. cbv zeta.
  unfold analyzeTestFile. rewrite Hty, Hold, Hnew.
  rewrite !truthy_some by assumption. cbn [andb].
  rewrite !parseTestFile_content by assumption. cbn [bind].
  rewrite modifiedLoop_filter, removedLoop_filter, addedLoop_filter.
  reflexivity.
Qed.

(** No [added] result is emitted under a name that the old version has. *)
Lemma not_alreadyAdded (cf : ChangedFile)
      (beforeTests currentTests : list TestInfo) (t : TestInfo) :
  presentIn beforeTests t = true ->
  alreadyAdded
    (map (direct cf added)
         (filter (fun t => negb (presentIn beforeTests t)) currentTests) ++
     map (direct cf removed)
         (filter (fun t => negb (presentIn currentTests t)) beforeTests)) t
  = false.
Proof.
  intros Hin. apply not_true_is_false. intros Hadd.
  unfold alreadyAdded in Hadd. apply existsb_exists in Hadd as (i & Hi & Hc).
  apply andb_prop in Hc as [Hname Hty]. apply String.eqb_eq in Hname.
  apply in_app_or in Hi as [Hi|Hi]; apply in_map_iff in Hi as (t' & <- & Ht').
  - apply filter_In in Ht' as [_ Hnot]. cbn [direct testName] in Hname.
    rewrite (presentIn_name beforeTests t' t Hname), Hin in Hnot.
    discriminate.
  - discriminate Hty.
Qed.

Lemma presentIn_iff (tests : list TestInfo) (t : TestInfo) :
  presentIn tests t = true <-> hasName tests t.
Proof.
  unfold presentIn, hasName, sameName. rewrite existsb_exists.
  split; intros (o & Hin & Ho); exists o; (split; [exact Hin|]);
    now apply String.eqb_eq.
Qed.

Lemma overlaps_iff (cf : ChangedFile) (t : TestInfo) :
  overlaps cf t = true <-> spanHoldsAddedLine cf t.
Proof. apply TestParserProps.hasOverlap_iff. Qed.

Lemma alreadyAdded_iff (results : list ImpactResult) (t : TestInfo) :
  alreadyAdded results t = true <-> reportedAdded results t.
Proof.
  unfold alreadyAdded, reportedAdded. rewrite existsb_exists.
  split.
  - intros (r & Hin & Hr). apply andb_prop in Hr as [Hn Hty].
    apply String.eqb_eq in Hn. exists r. repeat split; try assumption.
    destruct (impactType r); try discriminate Hty. reflexivity.
  - intros (r & Hin & Hn & Hty). exists r. split; [exact Hin|].
    rewrite Hn, Hty, String.eqb_refl. reflexivity.
Qed.

(** C2: for a modified test file whose two contents are there, the results
    are those of the added and removed passes followed by one [modified]
    result for each test of the new version, in order, that the old version
    has by name, whose new span from [startLine] to [endLine] (both
    included) holds at least one line of [addedLines], and for which no
    [added] result of its name was emitted before.  The three conditions of
    the code are the comparisons the words say: of names, of line numbers
    with the two ends of the span, of names and type among the results
    emitted.  No [added] result is ever emitted under a name that the old
    version has; so a test that exists in both versions is reported as
    [modified] exactly when the span of a test of its name holds an added
    line, and when no test of a name holds one, no [modified] result
    carries that name. *)
Theorem C2_modified_exactly_on_overlap (cf : ChangedFile)
        (commitSha oldText newText : string) :
  changeType cf = ct_modified ->
  getFileBeforeCommit E commitSha (path cf) = Some oldText -> oldText <> "" ->
  getFileAtCommit E commitSha (path cf) = Some newText -> newText <> "" ->
  let filePath := path_join E repoPath (path cf) in
  let beforeTests := extractTests (ts_calls E oldText) filePath in
  let currentTests := extractTests (ts_calls E newText) filePath in
  exists (emitted : list ImpactResult) (modifiedTests : list TestInfo)
         (results : list ImpactResult),
    analyzeTestFile E repoPath cf commitSha = Some results /\
    results = emitted ++ map (direct cf modified) modifiedTests /\
    modifiedTests =
      filter (fun t => presentIn beforeTests t && overlaps cf t &&
                       negb (alreadyAdded emitted t))
             currentTests /\
    (forall t, presentIn beforeTests t = true <-> hasName beforeTests t) /\
    (forall t, overlaps cf t = true <->
               exists line, In line (addedLines cf) /\
                            (startLine t <= line <= endLine t)%N) /\
    (forall t, alreadyAdded emitted t = true <-> reportedAdded emitted t) /\
    (forall t, In t modifiedTests <->
               In t currentTests /\ hasName beforeTests t /\
               spanHoldsAddedLine cf t /\ ~ reportedAdded emitted t) /\
    Forall (fun r => impactType r <> modified) emitted /\
    (forall t, In t currentTests -> hasName beforeTests t ->
               ~ reportedAdded emitted t) /\
    (forall t, In t currentTests -> hasName beforeTests t ->
               (In (direct cf modified t) results <->
                exists t', In t' currentTests /\ name t' = name t /\
                           spanHoldsAddedLine cf t')) /\
    (forall n, (forall t, In t currentTests -> name t = n ->
                          ~ spanHoldsAddedLine cf t) ->
               forall r, In r results -> testName r = n ->
                         impactType r <> modified).
Proof.
  intros Hty Hold Hne Hnew Hne' filePath beforeTests currentTests.
  pose proof (analyzeTestFile_modified cf commitSha oldText newText
                Hty Hold Hne Hnew Hne') as Hres.
  cbv zeta in Hres. fold filePath in Hres.
  fold beforeTests currentTests in Hres.
  set (emitted :=
         map (direct cf added)
             (filter (fun t => negb (presentIn beforeTests t)) currentTests) ++
         map (direct cf removed)
             (filter (fun t => negb (presentIn currentTests t)) beforeTests))
    in *.
  assert (Hemitted : Forall (fun r => impactType r <> modified) emitted).
  { apply Forall_app. split; apply Forall_forall; intros r Hr;
      apply in_map_iff in Hr as (t & <- & _); discriminate. }
  assert (Hnever : forall t, hasName beforeTests t ->
                             ~ reportedAdded emitted t).
  { intros t Ht Hadd. apply presentIn_iff in Ht. apply alreadyAdded_iff in Hadd.
    assert (Hno : alreadyAdded emitted t = false)
      by exact (not_alreadyAdded cf beforeTests currentTests t Ht).
    rewrite Hno in Hadd. discriminate Hadd. }
  assert (Hmem : forall t,
             In t (filter (fun t => presentIn beforeTests t && overlaps cf t &&
                                    negb (alreadyAdded emitted t))
                          currentTests) <->
             In t currentTests /\ hasName beforeTests t /\
             spanHoldsAddedLine cf t /\ ~ reportedAdded emitted t).
  { intros t. rewrite filter_In, !andb_true_iff, negb_true_iff.
    rewrite presentIn_iff, overlaps_iff, <- alreadyAdded_iff.
    rewrite not_true_iff_false. tauto. }
  exists emitted. eexists. eexists.
  split; [exact Hres|]. split; [reflexivity|]. split; [reflexivity|].
  split; [intros t; apply presentIn_iff|].
  split; [intros t; apply overlaps_iff|].
  split; [intros t; apply alreadyAdded_iff|].
  split; [exact Hmem|].
  split; [exact Hemitted|]. split; [intros t _; apply Hnever|]. split.
  - intros t Hin Hpresent. split.
    + intros Hr. apply in_app_or in Hr as [Hr|Hr].
      * rewrite Forall_forall in Hemitted. now destruct (Hemitted _ Hr).
      * apply in_map_iff in Hr as (t' & Heq & Ht').
        apply Hmem in Ht' as (Hin' & _ & Hov & _).
        exists t'. repeat split; try assumption.
        now injection Heq.
    + intros (t' & Hin' & Hname & Hov).
      apply in_or_app. right. apply in_map_iff. exists t'. split.
      * unfold direct. now rewrite Hname.
      * apply Hmem.
        assert (Hhas : hasName beforeTests t').
        { destruct Hpresent as (o & Ho & Hn). exists o.
          split; [exact Ho | congruence]. }
        repeat split; try assumption. now apply Hnever.
  - intros n Hno r Hr Hn Hmod.
    apply in_app_or in Hr as [Hr|Hr].
    + rewrite Forall_forall in Hemitted. now destruct (Hemitted _ Hr).
    + apply in_map_iff in Hr as (t & <- & Ht).
      apply Hmem in Ht as (Hin & _ & Hov & _).
      exact (Hno t Hin Hn Hov).
Qed.

(** *** Missing contents *)

Lemma collect_app {A B} (f : A -> option (list B)) (xs ys : list A) :
  collect f (xs ++ ys) =
    (a <- collect f xs ;; b <- collect f ys ;; Some (a ++ b)).
Proof.
  induction xs as [|x xs IH]; simpl.
  - destruct (collect f ys); reflexivity.
  - destruct (f x) as [r|]; [|reflexivity]. simpl. rewrite IH.
    destruct (collect f xs) as [a|]; [|reflexivity]. simpl.
    destruct (collect f ys) as [b|]; [|reflexivity]. simpl.
    now rewrite app_assoc.
Qed.

Lemma collect_skip {A B} (f : A -> option (list B)) (xs ys : list A) (x : A) :
  f x = Some [] ->
  collect f (xs ++ x :: ys) = collect f (xs ++ ys).
Proof.
  intros Hx. rewrite !collect_app. simpl. rewrite Hx. simpl.
  destruct (collect f xs) as [a|]; [|reflexivity]. simpl.
  destruct (collect f ys) as [b|]; reflexivity.
Qed.

Lemma analyzeTestFile_missing (cf : ChangedFile) (commitSha : string) :
  requiredContentMissing E cf commitSha ->
  analyzeTestFile E repoPath cf commitSha = Some [].
Proof.
  unfold requiredContentMissing, missing, analyzeTestFile.
  destruct (changeType cf).
  - intros ->. reflexivity.
  - intros [-> | ->]; [reflexivity|]. now rewrite andb_false_r.
  - intros ->. reflexivity.
Qed.

(** C6: a changed test file whose required content is not there yields the
    empty list of results, not a failure; and with such a file among the
    changed files the analysis gives what it gives without it. *)
Theorem C6_missing_content_contributes_nothing
        (cf : ChangedFile) (commitSha : string) :
  isTestFile (path cf) = true ->
  requiredContentMissing E cf commitSha ->
  analyzeTestFile E repoPath cf commitSha = Some [] /\
  forall pre post : list ChangedFile,
    directPass E repoPath (pre ++ cf :: post) commitSha =
      directPass E repoPath (pre ++ post) commitSha /\
    indirectPass E repoPath (pre ++ cf :: post) =
      indirectPass E repoPath (pre ++ post) /\
    analyzeChanged E repoPath (pre ++ cf :: post) commitSha =
      analyzeChanged E repoPath (pre ++ post) commitSha.
Proof.
  intros Htest Hmiss.
  pose proof (analyzeTestFile_missing cf commitSha Hmiss) as Hnil.
  split; [exact Hnil|]. intros pre post.
  assert (Hd : directPass E repoPath (pre ++ cf :: post) commitSha =
               directPass E repoPath (pre ++ post) commitSha).
  { unfold directPass, testFilesOf. rewrite !filter_app. cbn [filter].
    rewrite Htest. now apply collect_skip. }
  assert (Hi : indirectPass E repoPath (pre ++ cf :: post) =
               indirectPass E repoPath (pre ++ post)).
  { unfold indirectPass, helperFilesOf. rewrite !filter_app. cbn [filter].
    now rewrite Htest. }
  repeat split; try assumption.
  unfold analyzeChanged. now rewrite Hd, Hi.
Qed.

(** *** Direct and indirect results *)

Lemma collect_Forall {A B} (f : A -> option (list B)) (P : B -> Prop)
      (xs : list A) (rs : list B) :
  (forall x r, In x xs -> f x = Some r -> Forall P r) ->
  collect f xs = Some rs -> Forall P rs.
Proof.
  revert rs. induction xs as [|x xs IH]; intros rs Hf; simpl.
  - intros [= <-]. constructor.
  - destruct (f x) as [r|] eqn:Hx; [|discriminate]. simpl.
    destruct (collect f xs) as [rs'|] eqn:Hxs; [|discriminate]. simpl.
    intros [= <-]. apply Forall_app. split.
    + apply (Hf x r); [now left | exact Hx].
    + apply IH; [|reflexivity]. intros y r' Hy. apply Hf. now right.
Qed.

Lemma Forall_map_direct (cf : ChangedFile) (ty : ImpactType)
      (ts : list TestInfo) :
  Forall (fun r => isIndirect r = None) (map (direct cf ty) ts).
Proof. apply Forall_forall. intros r Hr. apply in_map_iff in Hr as (t & <- & _). reflexivity. Qed.

(** The results for a test file never carry the [isIndirect] field. *)
Lemma analyzeTestFile_direct (cf : ChangedFile) (commitSha : string)
      (rs : list ImpactResult) :
  analyzeTestFile E repoPath cf commitSha = Some rs ->
  Forall (fun r => isIndirect r = None) rs.
Proof.
  unfold analyzeTestFile.
  destruct (changeType cf).
  - destruct (Str.truthy _); [|intros [= <-]; constructor].
    destruct (parseTestFile _ _ _) as [ts|]; [|discriminate].
    intros [= <-]. apply Forall_map_direct.
  - destruct (_ && _); [|intros [= <-]; constructor].
    destruct (parseTestFile _ _ (getFileBeforeCommit _ _ _)) as [bs|];
      [|discriminate].
    simpl.
    destruct (parseTestFile _ _ (getFileAtCommit _ _ _)) as [cs|];
      [|discriminate].
    simpl. intros [= <-].
    rewrite modifiedLoop_filter, removedLoop_filter, addedLoop_filter.
    simpl. repeat (apply Forall_app; split); apply Forall_map_direct.
  - destruct (Str.truthy _); [|intros [= <-]; constructor].
    destruct (parseTestFile _ _ _) as [ts|]; [|discriminate].
    intros [= <-]. apply Forall_map_direct.
Qed.

(** The results for a helper file are all [modified] and indirect. *)
Lemma analyzeHelperFile_indirect (cf : ChangedFile) (rs : list ImpactResult) :
  analyzeHelperFile E repoPath cf = Some rs ->
  Forall (fun r => impactType r = modified /\ isIndirect r = Some true) rs.
Proof.
  unfold analyzeHelperFile. apply collect_Forall.
  intros p r _. destruct (parseTestFile E p None) as [ts|]; [|discriminate].
  simpl. intros [= <-]. apply Forall_forall. intros x Hx.
  apply in_map_iff in Hx as (t & <- & _). now split.
Qed.

(** C8: a result sequence that [analyzeCommit] returns is the results of the
    test-file pass followed by those of the helper-file pass; the first
    never carry [isIndirect], the second are all [modified] with
    [isIndirect] true. *)
Theorem C8_direct_and_indirect (commitSha : string)
        (results : list ImpactResult) :
  analyzeCommit E repoPath commitSha = Some results ->
  exists changed d i,
    getChangedFiles E commitSha = Some changed /\
    directPass E repoPath changed commitSha = Some d /\
    indirectPass E repoPath changed = Some i /\
    results = d ++ i /\
    Forall (fun r => isIndirect r = None /\ isIndirect r <> Some true) d /\
    Forall (fun r => impactType r = modified /\ isIndirect r = Some true) i.
Proof.
  unfold analyzeCommit, analyzeChanged.
  destruct (getChangedFiles E commitSha) as [changed|]; [|discriminate].
  simpl.
  destruct (directPass E repoPath changed commitSha) as [d|] eqn:Hd;
    [|discriminate].
  simpl.
  destruct (indirectPass E repoPath changed) as [i|] eqn:Hi; [|discriminate].
  simpl. intros [= <-]. exists changed, d, i.
  repeat split; try reflexivity; try assumption.
  - unfold directPass in Hd.
    eapply Forall_impl;
      [|eapply collect_Forall with (P := fun r => isIndirect r = None);
        [|exact Hd]].
    + intros r ->. split; [reflexivity | discriminate].
    + intros cf rs _. apply analyzeTestFile_direct.
  - unfold indirectPass in Hi. eapply collect_Forall; [|exact Hi].
    intros cf rs _. apply analyzeHelperFile_indirect.
Qed.

(** *** Blocks within blocks *)

Lemma length_filter_direct (cf : ChangedFile) (ty : ImpactType)
      (ts : list TestInfo) :
  List.length (filter notRemoved (map (direct cf ty) ts)) =
    if ImpactType_eqb ty removed then 0 else List.length ts.
Proof.
  induction ts as [|t ts IH]; simpl.
  - now destruct (ImpactType_eqb ty removed).
  - unfold notRemoved at 1. cbn [direct impactType].
    destruct (ImpactType_eqb ty removed); simpl; [exact IH | now rewrite IH].
Qed.

Lemma overlapping_covered (cf : ChangedFile) (beforeTests : list TestInfo)
      (emitted : list ImpactResult) (ts : list TestInfo) :
  (forall t, presentIn beforeTests t = true ->
             alreadyAdded emitted t = false) ->
  List.length (filter (overlaps cf) ts) <=
    List.length (filter (fun t => negb (presentIn beforeTests t)) ts) +
    List.length (filter (fun t => presentIn beforeTests t && overlaps cf t &&
                                  negb (alreadyAdded emitted t)) ts).
Proof.
  intros Hnever. induction ts as [|t ts IH]; simpl; [lia|].
  destruct (presentIn beforeTests t) eqn:Hp; cbn [negb andb].
  - rewrite (Hnever t Hp). cbn [negb]. rewrite andb_true_r.
    destruct (overlaps cf t); simpl; lia.
  - destruct (overlaps cf t); simpl; lia.
Qed.

(** Each test of the new version of a modified file whose span holds an
    added line is reported, as [added] or as [modified]. *)
Lemma overlapping_blocks_reported (cf : ChangedFile)
      (commitSha oldText newText : string) :
  changeType cf = ct_modified ->
  getFileBeforeCommit E commitSha (path cf) = Some oldText -> oldText <> "" ->
  getFileAtCommit E commitSha (path cf) = Some newText -> newText <> "" ->
  exists results,
    analyzeTestFile E repoPath cf commitSha = Some results /\
    List.length
      (filter (overlaps cf)
              (extractTests (ts_calls E newText)
                            (path_join E repoPath (path cf))))
    <= List.length (filter notRemoved results).
Proof.
  intros Hty Hold Hne Hnew Hne'.
  pose proof (analyzeTestFile_modified cf commitSha oldText newText
                Hty Hold Hne Hnew Hne') as Hres.
  cbv zeta in Hres. eexists. split; [exact Hres|].
  rewrite !filter_app, !length_app, !length_filter_direct. cbn [ImpactType_eqb].
  rewrite Nat.add_0_r. apply overlapping_covered.
  intros t Ht. now apply not_alreadyAdded.
Qed.

(** C10: a [test.describe] call with two arguments or more and a recognised
    call with two arguments or more anywhere below it each give a block of
    their own, the describe block first; in a well-nested tree the span of
    the nested block lies within the span of the describe block, so a line
    within the nested block overlaps both, and a modified file with an added
    line there gets two results or more from it. *)
Theorem C10_describe_and_nested_blocks
        (sf : SourceFile) (filePath : string) (d c : Call) :
  In d (callExpressions sf) ->
  callee_of d = "test.describe" ->
  2 <= List.length (args_of d) ->
  In c (ParserSpec.nestedCalls d) ->
  isTestCall (callee_of c) = true ->
  2 <= List.length (args_of c) ->
  ParserSpec.wellNested d = true ->
  exists bd bc l1 l2 l3,
    extractTestInfo d filePath = Some bd /\
    extractTestInfo c filePath = Some bc /\
    extractTests sf filePath = l1 ++ bd :: l2 ++ bc :: l3 /\
    startLine bd = startLn_of d /\ endLine bd = endLn_of d /\
    startLine bc = startLn_of c /\ endLine bc = endLn_of c /\
    (startLine bd <= startLine bc)%N /\ (endLine bc <= endLine bd)%N /\
    (forall lines line,
        In line lines -> (startLine bc <= line <= endLine bc)%N ->
        hasOverlap lines (startLine bd) (endLine bd) = true /\
        hasOverlap lines (startLine bc) (endLine bc) = true) /\
    (forall cf commitSha oldText newText line,
        filePath = path_join E repoPath (path cf) ->
        changeType cf = ct_modified ->
        getFileBeforeCommit E commitSha (path cf) = Some oldText ->
        oldText <> "" ->
        getFileAtCommit E commitSha (path cf) = Some newText ->
        newText <> "" ->
        ts_calls E newText = sf ->
        In line (addedLines cf) ->
        (startLine bc <= line <= endLine bc)%N ->
        exists results,
          analyzeTestFile E repoPath cf commitSha = Some results /\
          2 <= List.length (filter notRemoved results)).
Proof.
  intros Hd Hcallee Had Hc Htc Hac Hwn.
  assert (Htd : isTestCall (callee_of d) = true) by now rewrite Hcallee.
  destruct (TestParserProps.nested_blocks sf filePath d c Hd Htd Had Hc Htc Hac)
    as (bd & bc & l1 & l2 & l3 & Hbd & Hbc & Hall & Hsd & Hed & Hsc & Hec).
  destruct (TestParserProps.nested_span d c Hwn Hc) as [Hs He].
  assert (Hboth : forall lines line,
             In line lines -> (startLine bc <= line <= endLine bc)%N ->
             hasOverlap lines (startLine bd) (endLine bd) = true /\
             hasOverlap lines (startLine bc) (endLine bc) = true).
  { intros lines line Hin Hr.
    split; apply (TestParserProps.hasOverlap_in lines line); trivial; lia. }
  exists bd, bc, l1, l2, l3.
  repeat match goal with |- _ /\ _ => split end; try assumption; try lia.
  intros cf commitSha oldText newText line Hpath Hty Hold Hne Hnew Hne'
         Hsf Hline Hr.
  destruct (overlapping_blocks_reported cf commitSha oldText newText
              Hty Hold Hne Hnew Hne') as (results & Hres & Hlen).
  exists results. split; [exact Hres|].
  rewrite Hsf, <- Hpath, Hall in Hlen.
  destruct (Hboth (addedLines cf) line Hline Hr) as [Hod Hoc].
  rewrite !filter_app in Hlen. cbn [filter] in Hlen.
  rewrite filter_app in Hlen. cbn [filter] in Hlen.
  unfold overlaps at 2 4 in Hlen. rewrite Hod, Hoc in Hlen.
  rewrite !length_app in Hlen. cbn [List.length] in Hlen.
  rewrite !length_app in Hlen. cbn [List.length] in Hlen. lia.
Qed.

End WithEnv.

Lemma C2_modified_exactly_on_overlap_witness :
  spanHoldsAddedLine Examples.changed_login
    (mkTestInfo "A" "/repo/tests/login.spec.ts" 2 4) /\
  exists results : list ImpactResult,
    analyzeTestFile Examples.env Examples.repo Examples.changed_login "abc123"
      = Some results /\
    In (direct Examples.changed_login modified
               (mkTestInfo "A" "/repo/tests/login.spec.ts" 2 4)) results /\
    results = [mkImpact "B" "tests/login.spec.ts" added None;
               mkImpact "A" "tests/login.spec.ts" modified None].
Proof.
  set (a := mkTestInfo "A" "/repo/tests/login.spec.ts" 2 4).
  assert (Hold : Examples.login_old <> "") by (vm_compute; discriminate).
  assert (Hnew : Examples.login_new <> "") by (vm_compute; discriminate).
  assert (Hspan : spanHoldsAddedLine Examples.changed_login a).
  { exists 3%N. split; [left; reflexivity | cbn; lia]. }
  split; [exact Hspan|].
  destruct (C2_modified_exactly_on_overlap
              Examples.env Examples.repo Examples.changed_login "abc123"
              Examples.login_old Examples.login_new
              eq_refl eq_refl Hold eq_refl Hnew)
    as (emitted & modifiedTests & results & Hres & _ & _ & _ & _ & _ & _ & _ &
        _ & Hiff & _).
  exists results. split; [exact Hres|]. split.
  - apply (Hiff a).
    + left. reflexivity.
    + exists a. split; [left; reflexivity | reflexivity].
    + exists a. repeat split; [left; reflexivity | exact Hspan].
  - vm_compute in Hres. now injection Hres.
Defined.

Lemma C6_missing_content_contributes_nothing_witness :
  analyzeTestFile Examples.env Examples.repo Examples.changed_gone "abc123"
    = Some [] /\
  analyzeChanged Examples.env Examples.repo
    [Examples.changed_helper; Examples.changed_gone; Examples.changed_login]
    "abc123"
  = analyzeChanged Examples.env Examples.repo
      [Examples.changed_helper; Examples.changed_login] "abc123".
Proof.
  destruct (C6_missing_content_contributes_nothing
              Examples.env Examples.repo Examples.changed_gone "abc123"
              eq_refl (or_introl eq_refl))
    as [Hnil Hrest].
  split; [exact Hnil|].
  exact (proj2 (proj2 (Hrest [Examples.changed_helper]
                             [Examples.changed_login]))).
Defined.

Lemma C8_direct_and_indirect_witness :
  exists d i : list ImpactResult,
    analyzeCommit Examples.env Examples.repo "abc123" = Some (d ++ i) /\
    d = [mkImpact "B" "tests/login.spec.ts" added None;
         mkImpact "A" "tests/login.spec.ts" modified None] /\
    i = [mkImpact "bare" "tests/bare.spec.ts" modified (Some true);
         mkImpact "A" "tests/login.spec.ts" modified (Some true);
         mkImpact "B" "tests/login.spec.ts" modified (Some true)].
Proof.
  destruct (C8_direct_and_indirect Examples.env Examples.repo "abc123"
              _ eq_refl)
    as (changed & d & i & Hc & Hd & Hi & Hres & _).
  exists d, i. split; [now rewrite <- Hres|].
  vm_compute in Hc. injection Hc as <-.
  vm_compute in Hd, Hi. injection Hd as <-. injection Hi as <-.
  now split.
Defined.

Lemma C10_describe_and_nested_blocks_witness :
  extractTests Examples.calls_describe "/repo/tests/nested.spec.ts" =
    [mkTestInfo "login" "/repo/tests/nested.spec.ts" 1 6;
     mkTestInfo "`its ok`" "/repo/tests/nested.spec.ts" 2 4] /\
  exists results,
    analyzeTestFile Examples.env_nested Examples.repo
                    Examples.changed_nested "def456" = Some results /\
    2 <= List.length (filter notRemoved results).
Proof.
  split; [reflexivity|].
  assert (Hold : Examples.nested_old <> "") by (vm_compute; discriminate).
  assert (Hnew : Examples.nested_new <> "") by (vm_compute; discriminate).
  assert (Hargs : 2 <= 2) by lia.
  destruct (C10_describe_and_nested_blocks
              Examples.env_nested Examples.repo
              Examples.calls_describe "/repo/tests/nested.spec.ts"
              Examples.call_describe Examples.call_nested
              (or_introl eq_refl) eq_refl Hargs (or_introl eq_refl)
              eq_refl Hargs eq_refl)
    as (bd & bc & l1 & l2 & l3 & Hbd & Hbc & _ & _ & _ & _ & _ & _ & _ & _
        & Hres).
  vm_compute in Hbc. injection Hbc as <-.
  apply (Hres Examples.changed_nested "def456"
              Examples.nested_old Examples.nested_new 3%N
              eq_refl eq_refl eq_refl Hold eq_refl Hnew eq_refl
              (or_introl eq_refl)).
  cbn [startLine endLine]. lia.
Defined.

End ImpactAnalyzerProps.

(* ================================================================= *)
(** * Properties of the import tracker *)

Module ImportTrackerProps.

Import ImportTracker ImportSpec.

(** Induction on directory trees: the property may be assumed of the
    entries of a directory. *)
Lemma FsNode_tree_ind (P : FsNode -> Prop) :
  (forall f, P (FsFile f)) ->
  (forall d sub, Forall P sub -> P (FsDir d sub)) ->
  forall n, P n.
Proof.
  intros Hfile Hdir. fix IH 1. intros [f | d sub]; [apply Hfile|].
  apply Hdir. induction sub as [|x sub IHsub]; constructor;
    [apply IH | exact IHsub].
Qed.

Section WithEnv.

Variable E : Env.
Variable repoPath : string.

(** What [findTestFilesImporting] returns: the [.spec.ts] files of the walk
    of which some import, once resolved and normalised, is the normalised
    helper path; in the order of the walk. *)
Lemma findTestFilesImporting_iff (helperPath specFile : string) :
  In specFile (findTestFilesImporting E repoPath helperPath) <->
  In specFile (findAllSpecFiles E repoPath) /\
  exists importPath,
    In importPath (extractImports E specFile) /\
    matchesHelper E repoPath helperPath specFile importPath = true.
Proof.
  unfold findTestFilesImporting. rewrite filter_In.
  unfold importsHelper. rewrite existsb_exists. reflexivity.
Qed.

(** The walk of the code finds nothing that the walk of the specification
    does not find, as long as joining a name to a directory keeps the suffix
    of the name. *)
Lemma findEntry_incl (dir : string) (entry : FsNode) :
  (forall d f, Str.endsWith f ".spec.ts" = true ->
               Str.endsWith (path_join E d f) ".spec.ts" = true) ->
  incl (findEntry E dir entry) (specTestFilesOf E dir entry).
Proof.
  intros Hjoin. revert dir.
  induction entry as [f | d sub IH] using FsNode_tree_ind;
    intros dir; cbn [findEntry specTestFilesOf].
  - destruct (Str.endsWith f ".spec.ts") eqn:Hs; [|apply incl_nil_l].
    unfold ImpactAnalyzer.isTestFile. rewrite (Hjoin dir f Hs).
    apply incl_refl.
  - destruct (negb (Str.startsWith d ".") && negb (String.eqb d "node_modules"));
      [|apply incl_nil_l].
    intros p Hp. apply in_flat_map in Hp as (x & Hx & Hp).
    apply in_flat_map. exists x. split; [exact Hx|].
    rewrite Forall_forall in IH. now apply (IH x Hx).
Qed.

Lemma resolveImportPath_bare (fromFile importPath : string) :
  Str.startsWith importPath "." = false ->
  resolveImportPath E fromFile importPath = importPath.
Proof. intros H. unfold resolveImportPath. now rewrite H. Qed.

(** C9, as the code has it: a specifier that begins with [.] is resolved
    against the directory of the importing file; the result is that path
    when it exists, else that path with [.ts] appended when that exists,
    else [index.ts] joined to that path when that exists, else that path.
    Any other specifier is returned as it is, whatever the file system
    holds; the caller then normalises it against the repository path like
    every other import, so that it counts as an import of the helper exactly
    when the two normalise to the same path. *)
Theorem C9_resolution (fromFile importPath : string) :
  let resolved := path_resolve E (path_dirname E fromFile) importPath in
  let result := resolveImportPath E fromFile importPath in
  (Str.startsWith importPath "." = true ->
   In result (candidates E fromFile importPath) /\
   (fs_exists E resolved = true -> result = resolved) /\
   (fs_exists E resolved = false ->
    fs_exists E (resolved ++ ".ts")%string = true ->
    result = (resolved ++ ".ts")%string) /\
   (fs_exists E resolved = false ->
    fs_exists E (resolved ++ ".ts")%string = false ->
    fs_exists E (path_join E resolved "index.ts") = true ->
    result = path_join E resolved "index.ts") /\
   (fs_exists E resolved = false ->
    fs_exists E (resolved ++ ".ts")%string = false ->
    fs_exists E (path_join E resolved "index.ts") = false ->
    result = resolved)) /\
  (Str.startsWith importPath "." = false ->
   result = importPath /\
   forall helperPath,
     matchesHelper E repoPath helperPath fromFile importPath =
       String.eqb (path_resolve E repoPath importPath)
                  (path_resolve E repoPath helperPath)).
Proof.
  cbv zeta. split.
  - intros Hrel. unfold resolveImportPath, candidates. rewrite Hrel.
    set (resolved := path_resolve E (path_dirname E fromFile) importPath).
    destruct (fs_exists E resolved) eqn:H1; cbn [negb].
    { repeat split; try discriminate; simpl; auto. }
    destruct (fs_exists E (resolved ++ ".ts")%string) eqn:H2.
    { repeat split; try discriminate; simpl; auto. }
    destruct (fs_exists E (path_join E resolved "index.ts")) eqn:H3.
    { repeat split; try discriminate; simpl; auto. }
    repeat split; try discriminate; simpl; auto.
  - intros Hbare. split; [now apply resolveImportPath_bare|].
    intros helperPath. unfold matchesHelper, normalizePath.
    now rewrite resolveImportPath_bare.
Qed.

End WithEnv.

(** C1, at a repository where [tests/cart.test.ts] imports the helper by
    ['../helpers/login']: the file is a test file, the walk the
    specification describes finds it, and its import resolves to the helper;
    [findTestFilesImporting] does not return it, because [findAllSpecFiles]
    keeps the names that end with [.spec.ts] only. *)
Theorem C1_test_suffix_missed :
  ImpactAnalyzer.isTestFile "/repo/tests/cart.test.ts" = true /\
  extractImports Examples.env "/repo/tests/cart.test.ts" =
    ["../helpers/login"] /\
  matchesHelper Examples.env Examples.repo "/repo/helpers/login.ts"
                "/repo/tests/cart.test.ts" "../helpers/login" = true /\
  specTestFilesImporting Examples.env Examples.repo "/repo/helpers/login.ts"
    = ["/repo/tests/bare.spec.ts"; "/repo/tests/cart.test.ts";
       "/repo/tests/login.spec.ts"] /\
  findAllSpecFiles Examples.env Examples.repo =
    ["/repo/tests/bare.spec.ts"; "/repo/tests/login.spec.ts"] /\
  findTestFilesImporting Examples.env Examples.repo "/repo/helpers/login.ts"
    = ["/repo/tests/bare.spec.ts"; "/repo/tests/login.spec.ts"] /\
  ~ In "/repo/tests/cart.test.ts"
       (findTestFilesImporting Examples.env Examples.repo
                               "/repo/helpers/login.ts").
Proof.
  repeat split; try reflexivity.
  vm_compute. intros [H|[H|[]]]; discriminate H.
Qed.

Lemma C9_resolution_witness :
  Str.startsWith "../helpers/login" "." = true /\
  fs_exists Examples.env "/repo/helpers/login" = false /\
  fs_exists Examples.env "/repo/helpers/login.ts" = true /\
  resolveImportPath Examples.env "/repo/tests/login.spec.ts" "../helpers/login"
    = "/repo/helpers/login.ts" /\
  Str.startsWith "@playwright/test" "." = false /\
  resolveImportPath Examples.env "/repo/tests/login.spec.ts" "@playwright/test"
    = "@playwright/test".
Proof.
  destruct (C9_resolution Examples.env Examples.repo
              "/repo/tests/login.spec.ts" "../helpers/login")
    as [Hrel _].
  destruct (Hrel eq_refl) as (_ & _ & Hts & _).
  destruct (C9_resolution Examples.env Examples.repo
              "/repo/tests/login.spec.ts" "@playwright/test")
    as [_ Hbare].
  destruct (Hbare eq_refl) as [Hsame _].
  split; [reflexivity|]. split; [reflexivity|]. split; [reflexivity|].
  split; [exact (Hts eq_refl eq_refl)|]. split; [reflexivity | exact Hsame].
Defined.

(** C9 as the specification states it fails: [tests/bare.spec.ts] imports
    the bare specifier ['helpers/login.ts']; the resolver returns it as it
    is, the caller normalises it against [/repo], and the file is reported
    as importing [/repo/helpers/login.ts]. *)
Lemma C9_counterexample :
  Str.startsWith "helpers/login.ts" "." = false /\
  extractImports Examples.env "/repo/tests/bare.spec.ts" =
    ["helpers/login.ts"] /\
  resolveImportPath Examples.env "/repo/tests/bare.spec.ts" "helpers/login.ts"
    = "helpers/login.ts" /\
  In "/repo/tests/bare.spec.ts"
     (findTestFilesImporting Examples.env Examples.repo
                             "/repo/helpers/login.ts") /\
  ~ (forall (E : Env) (repoPath helperPath specFile importPath : string),
       Str.startsWith importPath "." = false ->
       matchesHelper E repoPath helperPath specFile importPath = false).
Proof.
  repeat split; try reflexivity.
  - vm_compute. now left.
  - intros H.
    specialize (H Examples.env Examples.repo "/repo/helpers/login.ts"
                  "/repo/tests/bare.spec.ts" "helpers/login.ts" eq_refl).
    vm_compute in H. discriminate H.
Qed.

End ImportTrackerProps.

(* ================================================================= *)
(** * More on the diff parser *)

Module GitOperationsMore.

Import GitOperations DiffSpec DiffText.

(** *** Decimal numerals *)

(** [parseInt] reads a decimal numeral back. *)
Lemma parseInt_decimal (n : N) : Str.parseInt (decimal n) = n.
Proof.
  unfold decimal. rewrite GitOperationsProps.parseInt_of_uint.
  apply DecimalN.Unsigned.of_to.
Qed.

Lemma digits_of_uint (d : uint) :
  Str.all_chars Str.is_digit (NilEmpty.string_of_uint d) = true.
Proof.
  induction d; cbn [NilEmpty.string_of_uint Str.all_chars];
    [reflexivity | ..]; exact IHd.
Qed.

Lemma digits_decimal (n : N) : digits (decimal n).
Proof.
  split; [|apply digits_of_uint].
  unfold decimal. intros Hempty.
  assert (Hnil : N.to_uint n = Nil).
  { destruct (N.to_uint n); try discriminate Hempty. reflexivity. }
  pose proof (DecimalN.Unsigned.of_to n) as Hn. rewrite Hnil in Hn.
  cbn in Hn. subst n. discriminate Hnil.
Qed.

(** *** Hunk headers written from numbers *)

Lemma startsWith_hunkHeader (o n : string) (oc nc : option string)
      (rest : string) :
  Str.startsWith (headerText o oc n nc ++ rest) "@@" = true.
Proof. reflexivity. Qed.

(** X1: A hunk header written from numbers whose ranges end by 2^53 (where
    the program's numbers are exact), read while the two arrays have room,
    makes the parser record, whatever follows the header on the line,
    exactly the old-side numbers [os, os + oc) as deleted and the new-side
    numbers [ns, ns + nc) as added, a count that is left out being 1; the
    rest of its state stays. *)
Theorem hunk_header_round_trip (st : State) (os ns : N) (oc nc : option N)
        (rest : string) :
  let oldN := match oc with Some c => c | None => 1%N end in
  let newN := match nc with Some c => c | None => 1%N end in
  exactRange os oldN -> exactRange ns newN ->
  fitsArray (curDeleted st) oldN -> fitsArray (curAdded st) newN ->
  exists dels adds : list N,
    parseLine st (hunkHeader os oc ns nc ++ rest) =
      mkState (changedFiles st) (currentFile st) (curType st)
              (curAdded st ++ adds) (curDeleted st ++ dels) /\
    (forall n, In n dels <-> (os <= n < os + oldN)%N) /\
    (forall n, In n adds <-> (ns <= n < ns + newN)%N) /\
    N.of_nat (List.length dels) = oldN /\
    N.of_nat (List.length adds) = newN.
Proof.
  cbv zeta. intros _ _ _ _.
  assert (Hopt : forall o : option N, digitsOpt (option_map decimal o)).
  { intros [c|]; [apply digits_decimal | exact I]. }
  assert (Hcount : forall o : option N,
             count_of (option_map decimal o) =
               match o with Some c => c | None => 1%N end).
  { intros [c|]; [apply parseInt_decimal | reflexivity]. }
  pose proof (GitOperationsProps.hunk_header_decoded
                (decimal os) (decimal ns)
                (option_map decimal oc) (option_map decimal nc) rest
                (digits_decimal os) (Hopt oc) (digits_decimal ns) (Hopt nc))
    as Hdec.
  unfold hunkHeader.
  rewrite (GitOperationsProps.stepHunk_match st _ _
             (startsWith_hunkHeader _ _ _ _ rest) Hdec).
  unfold oldStart, newStart, oldCount, newCount. cbn [g_oldStart g_newStart
    g_oldCount g_newCount]. rewrite !parseInt_decimal, !Hcount.
  eexists. eexists. split; [reflexivity|].
  repeat match goal with |- _ /\ _ => split end;
    try (intros n; apply GitOperationsProps.in_pushRange);
    apply GitOperationsProps.length_pushRange.
Qed.

Lemma hunk_header_round_trip_witness :
  exists dels adds : list N,
    parseLine initial (hunkHeader 12 (Some 3%N) 15 None ++ " it('a'") =
      mkState [] None ct_modified ([] ++ adds) ([] ++ dels) /\
    dels = [12; 13; 14]%N /\ adds = [15]%N.
Proof.
  assert (Hold : exactRange 12 3) by (unfold exactRange; lia).
  assert (Hnew : exactRange 15 1) by (unfold exactRange; lia).
  assert (Hfd : fitsArray (curDeleted initial) 3)
    by (unfold fitsArray; simpl; lia).
  assert (Hfa : fitsArray (curAdded initial) 1)
    by (unfold fitsArray; simpl; lia).
  destruct (hunk_header_round_trip initial 12 15 (Some 3%N) None " it('a'"
              Hold Hnew Hfd Hfa)
    as (dels & adds & Hst & _).
  exists dels, adds. split; [exact Hst|].
  vm_compute in Hst. injection Hst as Ha Hd. now subst.
Defined.

(** *** Lines that do not count *)

Lemma inert_parseLine (st : State) (line : string) :
  inert line = true -> parseLine st line = st.
Proof.
  unfold inert. intros H.
  apply andb_prop in H as [H H4]. apply andb_prop in H as [H H3].
  apply andb_prop in H as [H1 H2].
  apply negb_true_iff in H1, H2, H3, H4.
  unfold parseLine, stepHeader, stepOldMarker, stepNewMarker, stepHunk.
  now rewrite H1, H2, H3, H4.
Qed.

(** X2: A line that begins with none of [diff --git], [---], [+++] and [@@]
    (the commit message, [index] and mode lines, added and removed content)
    leaves the parser's state as it is: the diff parses as it does without
    the line. *)
Theorem inert_line_ignored (diff : string) (pre post : list string)
        (line : string) :
  Str.split_lines diff = pre ++ line :: post ->
  inert line = true ->
  (forall st, parseLine st line = st) /\
  parseDiff diff = parseLines (pre ++ post).
Proof.
  intros Hsplit Hinert. split; [intros st; now apply inert_parseLine|].
  unfold parseDiff, parseLines. rewrite Hsplit, !fold_left_app. simpl.
  now rewrite inert_parseLine.
Qed.

(** *** Sections parse one by one *)

Lemma flush_prepend (fs : list ChangedFile) (st : State) :
  flush (prepend fs st) = fs ++ flush st.
Proof.
  unfold flush, prepend. cbn [changedFiles currentFile curType curAdded
    curDeleted].
  destruct (Str.truthy (currentFile st)); [now rewrite app_assoc | reflexivity].
Qed.

Lemma parseLine_prepend (fs : list ChangedFile) (st : State) (line : string) :
  parseLine (prepend fs st) line = prepend fs (parseLine st line).
Proof.
  unfold parseLine.
  assert (H1 : stepHeader line (prepend fs st) =
               prepend fs (stepHeader line st)).
  { unfold stepHeader. destruct (Str.startsWith line "diff --git");
      [|reflexivity].
    rewrite flush_prepend. reflexivity. }
  assert (H2 : forall s, stepOldMarker line (prepend fs s) =
                         prepend fs (stepOldMarker line s)).
  { intros s. unfold stepOldMarker.
    destruct (Str.startsWith line "---"); [|reflexivity].
    destruct (match_old_marker line) as [p|]; [|reflexivity].
    destruct (String.eqb p "/dev/null"); reflexivity. }
  assert (H3 : forall s, stepNewMarker line (prepend fs s) =
                         prepend fs (stepNewMarker line s)).
  { intros s. unfold stepNewMarker.
    destruct (Str.startsWith line "+++"); [|reflexivity].
    destruct (match_new_marker line) as [p|]; [|reflexivity].
    destruct (String.eqb p "/dev/null"); reflexivity. }
  assert (H4 : forall s, stepHunk line (prepend fs s) =
                         prepend fs (stepHunk line s)).
  { intros s. unfold stepHunk.
    destruct (Str.startsWith line "@@"); [|reflexivity].
    destruct (hunk_search line); reflexivity. }
  now rewrite H1, H2, H3, H4.
Qed.

Lemma run_prepend (lines : list string) (fs : list ChangedFile) (st : State) :
  fold_left parseLine lines (prepend fs st) =
    prepend fs (fold_left parseLine lines st).
Proof.
  revert st. induction lines as [|l ls IH]; intros st; simpl; [reflexivity|].
  now rewrite parseLine_prepend, IH.
Qed.

(** The lines of a section that starts with a header parse on their own,
    after whatever came before. *)
Lemma parseLines_app_header (before after : list string) (h : string) :
  isHeader h = true ->
  parseLines (before ++ h :: after) =
    parseLines before ++ parseLines (h :: after).
Proof.
  intros Hh. unfold parseLines. rewrite fold_left_app. cbn [fold_left].
  rewrite !(GitOperationsProps.header_line _ h Hh).
  change (flush initial) with (@nil ChangedFile).
  set (done := flush (fold_left parseLine before initial)).
  assert (Hst : mkState done None ct_modified [] [] =
                prepend done (mkState [] None ct_modified [] []))
    by (unfold prepend; cbn; now rewrite app_nil_r).
  now rewrite Hst, run_prepend, flush_prepend.
Qed.

Lemma split_lines_app (a b : string) :
  Str.split_lines (a ++ LF ++ b) = Str.split_lines a ++ Str.split_lines b.
Proof.
  induction a as [|c a IH]; [reflexivity|].
  cbn [append Str.split_lines]. rewrite IH.
  destruct (Ascii.eqb c "010"); [reflexivity|].
  destruct (Str.split_lines a) as [|l ls] eqn:Ha; [|reflexivity].
  destruct a; cbn [Str.split_lines] in Ha; [discriminate|].
  destruct (Ascii.eqb a "010"); [discriminate|].
  destruct (Str.split_lines a0); discriminate.
Qed.

Lemma first_line_header (b : string) :
  Str.startsWith b "diff --git" = true ->
  exists h rest, Str.split_lines b = h :: rest /\ isHeader h = true.
Proof.
  unfold isHeader, Str.startsWith.
  assert (H : forall p s,
             Str.all_chars (fun c => negb (Ascii.eqb c "010")) p = true ->
             Str.has_prefix p s = true ->
             exists h rest, Str.split_lines s = h :: rest /\
                            Str.has_prefix p h = true).
  { induction p as [|x p IH]; intros s Hp Hs.
    - destruct (Str.split_lines s) as [|h rest] eqn:Hsp.
      + destruct s; cbn [Str.split_lines] in Hsp; [discriminate|].
        destruct (Ascii.eqb a "010"); [discriminate|].
        destruct (Str.split_lines s); discriminate.
      + now exists h, rest.
    - destruct s as [|y s]; cbn [Str.has_prefix] in Hs; [discriminate|].
      apply andb_prop in Hs as [Hxy Hs]. apply Ascii.eqb_eq in Hxy. subst y.
      cbn [Str.all_chars] in Hp. apply andb_prop in Hp as [Hx Hp].
      destruct (IH s Hp Hs) as (h & rest & Hsp & Hh).
      cbn [Str.split_lines]. apply negb_true_iff in Hx. rewrite Hx, Hsp.
      exists (String x h), rest. split; [reflexivity|].
      cbn [Str.has_prefix]. now rewrite Ascii.eqb_refl, Hh. }
  apply H. reflexivity.
Qed.

(** X3: Diff texts compose: when [b] begins with a section header, the parse of
    [a], a line break and [b] is the parse of [a] followed by the parse of
    [b]. *)
Theorem parseDiff_sections_compose (a b : string) :
  Str.startsWith b "diff --git" = true ->
  parseDiff (a ++ LF ++ b) = parseDiff a ++ parseDiff b.
Proof.
  intros Hb. unfold parseDiff. rewrite split_lines_app.
  destruct (first_line_header b Hb) as (h & rest & -> & Hh).
  now apply parseLines_app_header.
Qed.

(** *** A well-formed section *)

Lemma marker_capture_path (p : string) :
  pathText p = true -> marker_capture (" " ++ p) = Some p.
Proof.
  destruct p as [|c r]; [discriminate|]. cbn [pathText].
  intros H. apply andb_prop in H as [Hc Hall]. apply negb_true_iff in Hc.
  unfold marker_capture. cbn [append Str.span].
  change (Str.is_space " ") with true. cbn iota. rewrite Hc.
  now rewrite Hall.
Qed.

Lemma parseLine_oldMarker (st : State) (a : string) :
  pathText a = true ->
  parseLine st (oldMarker a) =
    if String.eqb a "/dev/null"
    then mkState (changedFiles st) (currentFile st) ct_added
                 (curAdded st) (curDeleted st)
    else mkState (changedFiles st) (Some a) (curType st)
                 (curAdded st) (curDeleted st).
Proof.
  intros Ha. unfold parseLine, oldMarker.
  change (stepHeader ("--- " ++ a) st) with st.
  unfold stepOldMarker at 1, match_old_marker.
  change (Str.startsWith ("--- " ++ a) "---") with true.
  change (Str.strip_prefix "---" ("--- " ++ a)) with (Some (" " ++ a)%string).
  cbv iota. rewrite (marker_capture_path a Ha).
  destruct (String.eqb a "/dev/null"); reflexivity.
Qed.

Lemma parseLine_newMarker (st : State) (b : string) :
  pathText b = true ->
  parseLine st (newMarker b) =
    if String.eqb b "/dev/null"
    then mkState (changedFiles st) (currentFile st) ct_deleted
                 (curAdded st) (curDeleted st)
    else mkState (changedFiles st) (Some b) (curType st)
                 (curAdded st) (curDeleted st).
Proof.
  intros Hb. unfold parseLine, newMarker.
  change (stepHeader ("+++ " ++ b) st) with st.
  change (stepOldMarker ("+++ " ++ b) st) with st.
  unfold stepNewMarker at 1, match_new_marker.
  change (Str.startsWith ("+++ " ++ b) "+++") with true.
  change (Str.strip_prefix "+++" ("+++ " ++ b)) with (Some (" " ++ b)%string).
  cbv iota. rewrite (marker_capture_path b Hb).
  destruct (String.eqb b "/dev/null"); reflexivity.
Qed.

Lemma parseLine_bodyLine (st : State) (line : string) :
  bodyLine line = true ->
  parseLine st line =
    mkState (changedFiles st) (currentFile st) (curType st)
            (curAdded st ++ addedBy line) (curDeleted st ++ deletedBy line).
Proof.
  unfold bodyLine. intros H.
  apply andb_prop in H as [H H3]. apply andb_prop in H as [H1 H2].
  apply negb_true_iff in H1, H2, H3.
  unfold parseLine, stepHeader, stepOldMarker, stepNewMarker, stepHunk,
    addedBy, deletedBy, hunkOf.
  rewrite H1, H2, H3.
  destruct (Str.startsWith line "@@"); [destruct (hunk_search line)|];
    cbn; rewrite ?app_nil_r; now destruct st.
Qed.

Lemma run_body (body : list string) (st : State) :
  Forall (fun l => bodyLine l = true) body ->
  fold_left parseLine body st =
    mkState (changedFiles st) (currentFile st) (curType st)
            (curAdded st ++ flat_map addedBy body)
            (curDeleted st ++ flat_map deletedBy body).
Proof.
  intros H. revert st. induction H as [|l ls Hl _ IH]; intros st; simpl.
  - rewrite !app_nil_r. now destruct st.
  - rewrite (parseLine_bodyLine st l Hl), IH. cbn.
    now rewrite <- !app_assoc.
Qed.

Lemma run_inert (meta : list string) (st : State) :
  Forall (fun l => inert l = true) meta ->
  fold_left parseLine meta st = st.
Proof.
  intros H. induction H as [|l ls Hl _ IH]; simpl; [reflexivity|].
  now rewrite (inert_parseLine st l Hl).
Qed.

Lemma pathText_nonempty (p : string) : pathText p = true -> p <> "".
Proof. destruct p; [discriminate | discriminate]. Qed.

(** X4: A section as git writes it: the header, lines that do not count, the
    old-side marker with path [a], the new-side marker with path [b], then
    hunk headers and content lines.  Its parse is one file: [b] as added when
    [a] is [/dev/null], [a] as deleted when [b] is [/dev/null], [b] as
    modified otherwise, with the line numbers that the hunk headers of the
    body declare; and no file when both sides are [/dev/null]. *)
Theorem section_parse (h a b : string) (meta body : list string) :
  isHeader h = true ->
  Forall (fun l => inert l = true) meta ->
  pathText a = true ->
  pathText b = true ->
  Forall (fun l => bodyLine l = true) body ->
  parseLines (h :: meta ++ oldMarker a :: newMarker b :: body) =
    sectionFiles a b (flat_map addedBy body) (flat_map deletedBy body).
Proof.
  intros Hh Hmeta Ha Hb Hbody.
  unfold parseLines. cbn [fold_left].
  rewrite (GitOperationsProps.header_line _ h Hh).
  rewrite fold_left_app, (run_inert meta _ Hmeta). cbn [fold_left].
  rewrite (parseLine_oldMarker _ a Ha).
  change (flush initial) with (@nil ChangedFile).
  unfold sectionFiles.
  pose proof (pathText_nonempty a Ha) as Hane.
  pose proof (pathText_nonempty b Hb) as Hbne.
  destruct (String.eqb a "/dev/null") eqn:Ea;
    rewrite (parseLine_newMarker _ b Hb);
    destruct (String.eqb b "/dev/null") eqn:Eb;
    rewrite (run_body body _ Hbody); unfold flush;
    cbn [changedFiles currentFile curType curAdded curDeleted Str.truthy app];
    try reflexivity.
  - destruct (String.eqb_spec b ""); [contradiction | reflexivity].
  - destruct (String.eqb_spec a ""); [contradiction | reflexivity].
  - destruct (String.eqb_spec b ""); [contradiction | reflexivity].
Qed.

(** *** The paths of the result *)

Lemma marker_capture_good (rest p : string) :
  marker_capture rest = Some p ->
  p <> "" /\
  Str.all_chars (fun c => negb (Str.is_line_terminator c)) p = true.
Proof.
  unfold marker_capture.
  destruct (Str.span Str.is_space rest) as [ws tl].
  destruct ws as [|w ws']; [discriminate|].
  destruct tl as [|t tl'].
  - destruct ws' as [|w' ws'']; [discriminate|].
    destruct (Str.last_char (String w' ws'')) as [c|]; [|discriminate].
    destruct (Str.is_line_terminator c) eqn:Hc; [discriminate|].
    intros [= <-]. split; [discriminate|].
    cbn [Str.all_chars]. now rewrite Hc.
  - destruct (Str.all_chars _ (String t tl')) eqn:Hall; [|discriminate].
    intros [= <-]. split; [discriminate | exact Hall].
Qed.

Lemma match_old_marker_good (line p : string) :
  match_old_marker line = Some p ->
  p <> "" /\
  Str.all_chars (fun c => negb (Str.is_line_terminator c)) p = true.
Proof.
  unfold match_old_marker.
  destruct (Str.strip_prefix "---" line); [apply marker_capture_good|].
  discriminate.
Qed.

Lemma match_new_marker_good (line p : string) :
  match_new_marker line = Some p ->
  p <> "" /\
  Str.all_chars (fun c => negb (Str.is_line_terminator c)) p = true.
Proof.
  unfold match_new_marker.
  destruct (Str.strip_prefix "+++" line); [apply marker_capture_good|].
  discriminate.
Qed.

Lemma goodState_flush (lines : list string) (st : State) :
  goodState lines st ->
  Forall (fun cf => goodPath lines (path cf)) (flush st).
Proof.
  intros [Hfiles Hcur]. unfold flush.
  destruct (currentFile st) as [p|] eqn:Hp; cbn [Str.truthy];
    [|exact Hfiles].
  destruct (negb (String.eqb p "")); [|exact Hfiles].
  apply Forall_app. split; [exact Hfiles|].
  constructor; [|constructor]. cbn [path]. now apply Hcur.
Qed.

Lemma goodState_parseLine (lines : list string) (st : State) (line : string) :
  In line lines -> goodState lines st -> goodState lines (parseLine st line).
Proof.
  intros Hin Hst. unfold parseLine.
  assert (H1 : goodState lines (stepHeader line st)).
  { unfold stepHeader. destruct (Str.startsWith line "diff --git");
      [|exact Hst].
    split; [now apply goodState_flush | discriminate]. }
  assert (H2 : goodState lines (stepOldMarker line (stepHeader line st))).
  { revert H1. generalize (stepHeader line st). intros s [Hf Hc].
    unfold stepOldMarker. destruct (Str.startsWith line "---");
      [|now split].
    destruct (match_old_marker line) as [p|] eqn:Hm; [|now split].
    destruct (String.eqb_spec p "/dev/null"); [now split|].
    split; [exact Hf|]. cbn [currentFile]. intros q [= <-].
    destruct (match_old_marker_good line p Hm) as [Hne Hall].
    repeat split; try assumption. exists line. split; [exact Hin | now left]. }
  assert (H3 : goodState lines
                 (stepNewMarker line (stepOldMarker line (stepHeader line st)))).
  { revert H2. generalize (stepOldMarker line (stepHeader line st)).
    intros s [Hf Hc].
    unfold stepNewMarker. destruct (Str.startsWith line "+++");
      [|now split].
    destruct (match_new_marker line) as [p|] eqn:Hm; [|now split].
    destruct (String.eqb_spec p "/dev/null"); [now split|].
    split; [exact Hf|]. cbn [currentFile]. intros q [= <-].
    destruct (match_new_marker_good line p Hm) as [Hne Hall].
    repeat split; try assumption. exists line. split; [exact Hin | now right]. }
  revert H3.
  generalize (stepNewMarker line (stepOldMarker line (stepHeader line st))).
  intros s [Hf Hc]. unfold stepHunk.
  destruct (Str.startsWith line "@@"); [|now split].
  destruct (hunk_search line); now split.
Qed.

Lemma goodState_run (lines ls : list string) (st : State) :
  incl ls lines -> goodState lines st ->
  goodState lines (fold_left parseLine ls st).
Proof.
  revert st. induction ls as [|l ls IH]; intros st Hincl Hst; simpl;
    [exact Hst|].
  apply IH.
  - intros x Hx. apply Hincl. now right.
  - apply goodState_parseLine; [|exact Hst]. apply Hincl. now left.
Qed.

(** X5: The path of every file of the result is the text that a marker line of
    the diff names: it is not empty, it is not [/dev/null], and it holds no
    line terminator. *)
Theorem parseDiff_paths (diff : string) (cf : ChangedFile) :
  In cf (parseDiff diff) ->
  path cf <> "" /\ path cf <> "/dev/null" /\
  Str.all_chars (fun c => negb (Str.is_line_terminator c)) (path cf) = true /\
  namedBy (Str.split_lines diff) (path cf).
Proof.
  unfold parseDiff, parseLines. intros Hin.
  assert (Hinit : goodState (Str.split_lines diff) initial).
  { split; [constructor | discriminate]. }
  pose proof (goodState_flush _ _
                (goodState_run (Str.split_lines diff) (Str.split_lines diff)
                               initial (incl_refl _) Hinit)) as Hall.
  rewrite Forall_forall in Hall. exact (Hall cf Hin).
Qed.

(** *** One file per section at most *)

Lemma length_flush (st : State) :
  List.length (flush st) <= S (List.length (changedFiles st)).
Proof.
  unfold flush. destruct (Str.truthy (currentFile st));
    [rewrite length_app; simpl; lia | lia].
Qed.

Lemma length_run (lines : list string) (st : State) :
  List.length (changedFiles (fold_left parseLine lines st)) <=
    List.length (changedFiles st) + List.length (filter isHeader lines).
Proof.
  revert st. induction lines as [|l ls IH]; intros st; simpl; [lia|].
  specialize (IH (parseLine st l)).
  destruct (isHeader l) eqn:Hh.
  - rewrite (GitOperationsProps.header_line st l Hh) in *.
    cbn [changedFiles] in IH. pose proof (length_flush st). simpl. lia.
  - destruct (GitOperationsProps.body_line st l Hh) as (Hf & _).
    rewrite Hf in IH. lia.
Qed.

(** X6: The result has at most one file for each section header of the diff,
    and one more for what stands before the first header. *)
Theorem parseDiff_count (diff : string) :
  List.length (parseDiff diff) <=
    S (List.length (filter isHeader (Str.split_lines diff))).
Proof.
  unfold parseDiff, parseLines.
  pose proof (length_flush (fold_left parseLine (Str.split_lines diff) initial)).
  pose proof (length_run (Str.split_lines diff) initial).
  simpl in *. lia.
Qed.

(** *** Worked cases *)

Lemma inert_line_ignored_witness :
  parseDiff MoreExamples.diff_one_file =
    [mkChangedFile "a.ts" ct_modified [1]%N [1]%N].
Proof.
  destruct (inert_line_ignored
              MoreExamples.diff_one_file
              ["diff --git a.ts a.ts"]
              ["--- a.ts"; "+++ a.ts"; "@@ -1 +1 @@"; "-old"; "+new"]
              "index 1a2b3c4..5d6e7f8 100644" eq_refl eq_refl)
    as [_ H].
  rewrite H. reflexivity.
Defined.

Lemma parseDiff_sections_compose_witness :
  parseDiff (Examples.diff_plus_line ++ LF ++ Examples.diff_minus_line) =
    [mkChangedFile "notes.spec.ts" ct_deleted [4]%N [];
     mkChangedFile "seed.ts" ct_added [] [2]%N].
Proof.
  rewrite (parseDiff_sections_compose
             Examples.diff_plus_line Examples.diff_minus_line eq_refl).
  reflexivity.
Defined.

Lemma section_parse_witness :
  parseLines (MoreExamples.new_file_header ::
              MoreExamples.new_file_meta ++
              oldMarker "/dev/null" :: newMarker "new.spec.ts" ::
              MoreExamples.new_file_body) =
    [mkChangedFile "new.spec.ts" ct_added [1; 2]%N []].
Proof.
  assert (Hmeta : Forall (fun l => inert l = true)
                          MoreExamples.new_file_meta)
    by (repeat constructor).
  assert (Hbody : Forall (fun l => bodyLine l = true)
                         MoreExamples.new_file_body)
    by (repeat constructor).
  rewrite (section_parse
             MoreExamples.new_file_header "/dev/null" "new.spec.ts"
             MoreExamples.new_file_meta MoreExamples.new_file_body
             eq_refl Hmeta eq_refl eq_refl Hbody).
  reflexivity.
Defined.

Lemma parseDiff_paths_witness :
  "old.spec.ts" <> "" /\ "old.spec.ts" <> "/dev/null" /\
  namedBy (Str.split_lines Examples.diff_deleted_file) "old.spec.ts".
Proof.
  destruct (parseDiff_paths
              Examples.diff_deleted_file
              (mkChangedFile "old.spec.ts" ct_deleted [] [1; 2]%N)
              (or_introl eq_refl))
    as (H1 & H2 & _ & H4).
  exact (conj H1 (conj H2 H4)).
Defined.

End GitOperationsMore.

(* ================================================================= *)
(** * More on the test-block extractor *)

Module TestParserMore.

Import TestParser ParserSpec Closed.

Lemma blocksOf_recognised (filePath : string) (c : Call) :
  blocksOf filePath c =
    if recognised c then [blockOf filePath c] else [].
Proof.
  unfold blocksOf, recognised, extractTestInfo, blockOf, blockName.
  destruct (isTestCall (callee_of c)); [|reflexivity].
  destruct (args_of c) as [|a1 [|a2 rest]]; reflexivity.
Qed.

(** X7: [extractTests] gives one block for each recognised call with two
    arguments or more, in the order of the traversal (a call before the
    calls inside it), with the given file path and the lines of the call;
    calls with another callee or with fewer than two arguments give
    nothing. *)
Theorem extractTests_closed (sf : SourceFile) (filePath : string) :
  extractTests sf filePath =
    map (blockOf filePath) (filter recognised (callExpressions sf)) /\
  List.length (extractTests sf filePath) <= List.length (callExpressions sf) /\
  forall info, In info (extractTests sf filePath) ->
               Types.filePath info = filePath.
Proof.
  assert (H : extractTests sf filePath =
              map (blockOf filePath) (filter recognised (callExpressions sf))).
  { rewrite TestParserProps.extractTests_blocks.
    induction (callExpressions sf) as [|c cs IH]; [reflexivity|].
    cbn [flat_map filter]. rewrite IH, blocksOf_recognised.
    now destruct (recognised c). }
  split; [exact H|]. split.
  - rewrite H, length_map. apply filter_length_le.
  - intros info Hin. rewrite H in Hin.
    apply in_map_iff in Hin as (c & <- & _). reflexivity.
Qed.

(** X8: [hasOverlap] holds exactly when one of the lines lies within the span,
    both ends included; so a span that ends before it starts overlaps
    nothing, a wider span overlaps whatever a narrower one does, and the
    lines of two lists overlap when those of one of them do. *)
Theorem hasOverlap_spec (lines : list N) (s e : N) :
  (hasOverlap lines s e = true <->
   exists line, In line lines /\ (s <= line <= e)%N) /\
  ((e < s)%N -> hasOverlap lines s e = false) /\
  (forall s' e', (s' <= s)%N -> (e <= e')%N ->
                 hasOverlap lines s e = true ->
                 hasOverlap lines s' e' = true) /\
  (forall more, hasOverlap (lines ++ more) s e =
                hasOverlap lines s e || hasOverlap more s e).
Proof.
  assert (Hiff : forall l a b,
             hasOverlap l a b = true <->
             exists line, In line l /\ (a <= line <= b)%N).
  { intros l a b. unfold hasOverlap, isLineInRange.
    rewrite existsb_exists. split; intros (line & Hin & Hr); exists line;
      (split; [exact Hin|]).
    - apply andb_prop in Hr as [H1 H2]. apply N.leb_le in H1, H2. lia.
    - apply andb_true_intro. split; apply N.leb_le; lia. }
  split; [apply Hiff|]. split; [|split].
  - intros Hlt. apply not_true_is_false. intros H.
    apply Hiff in H as (line & _ & Hr). lia.
  - intros s' e' Hs He H. apply Hiff in H as (line & Hin & Hr).
    apply Hiff. exists line. split; [exact Hin | lia].
  - intros more. unfold hasOverlap. apply existsb_app.
Qed.

Lemma removeQuotes_clean (t : string) (ch : ascii) :
  In ch (list_ascii_of_string (removeQuotes t)) -> isPlainQuote ch = false.
Proof.
  rewrite TestParserProps.removeQuotes_filter. intros H.
  apply filter_In in H as [_ H]. now apply negb_true_iff in H.
Qed.

Lemma removeQuotes_id (t : string) :
  (forall ch, In ch (list_ascii_of_string t) -> isPlainQuote ch = false) ->
  removeQuotes t = t.
Proof.
  induction t as [|c t IH]; intros H; [reflexivity|].
  cbn [removeQuotes].
  pose proof (H c (or_introl eq_refl)) as Hc. unfold isPlainQuote in Hc.
  rewrite Hc, IH; [reflexivity|].
  intros ch Hch. apply H. now right.
Qed.

(** X20: The name that the fallback gives to a call whose first argument is not
    a string literal holds no single-quote and no double-quote character;
    it is the text of the argument itself when that text holds none, and
    cleaning it once more changes nothing. *)
Theorem fallback_name_quote_free (c : Call) (filePath t : string)
        (second : Arg) (rest : list Arg) (info : TestInfo) :
  args_of c = ArgOther t :: second :: rest ->
  extractTestInfo c filePath = Some info ->
  (forall ch, In ch (list_ascii_of_string (name info)) ->
              isPlainQuote ch = false) /\
  ((forall ch, In ch (list_ascii_of_string t) -> isPlainQuote ch = false) ->
   name info = t) /\
  removeQuotes (name info) = name info.
Proof.
  intros Hargs Hinfo. unfold extractTestInfo in Hinfo.
  rewrite Hargs in Hinfo. injection Hinfo as <-. cbn [name].
  split; [apply removeQuotes_clean|]. split; [apply removeQuotes_id|].
  apply removeQuotes_id, removeQuotes_clean.
Qed.

Lemma fallback_name_quote_free_witness :
  removeQuotes "`its ok`" = "`its ok`".
Proof.
  exact (proj2 (proj2 (fallback_name_quote_free
                         Examples.call_template "a.spec.ts" "`it's ok`"
                         (ArgOther "async () => { ... }") []
                         (mkTestInfo "`its ok`" "a.spec.ts" 2 4)
                         eq_refl eq_refl))).
Defined.

End TestParserMore.

(* ================================================================= *)
(** * More on the import tracker *)

Module ImportTrackerMore.

Import ImportTracker ImportSpec Closed.

Section WithEnv.

Variable E : Env.
Variable repoPath : string.

Lemma count_occ_filter_le (keep : string -> bool) (xs : list string)
      (p : string) :
  count_occ string_dec (filter keep xs) p <= count_occ string_dec xs p.
Proof.
  induction xs as [|x xs IH]; [apply le_n|].
  cbn [filter]. destruct (keep x); cbn [count_occ];
    destruct (string_dec x p); lia.
Qed.

Lemma importing_readable (helperPath p : string) :
  In p (findTestFilesImporting E repoPath helperPath) ->
  exists text, fs_read E p = Some text /\ ts_imports E text <> [].
Proof.
  unfold findTestFilesImporting. rewrite filter_In. intros [_ Himp].
  unfold importsHelper, extractImports in Himp.
  destruct (fs_read E p) as [text|]; [|discriminate Himp].
  exists text. split; [reflexivity|]. intros Hnil.
  rewrite Hnil in Himp. discriminate Himp.
Qed.

(** X17: Every file that [findTestFilesImporting] returns is a file of the walk
    that could be loaded and that has an import which resolves and
    normalises to the normalised helper path; so a file that cannot be
    loaded, or that imports nothing, is never returned, and the files come
    in the order of the walk, none more often than the walk has it. *)
Theorem importing_files_loaded (helperPath p : string) :
  In p (findTestFilesImporting E repoPath helperPath) ->
  In p (findAllSpecFiles E repoPath) /\
  (exists text importPath,
      fs_read E p = Some text /\
      In importPath (ts_imports E text) /\
      matchesHelper E repoPath helperPath p importPath = true) /\
  count_occ string_dec (findTestFilesImporting E repoPath helperPath) p <=
    count_occ string_dec (findAllSpecFiles E repoPath) p.
Proof.
  intros Hin. pose proof Hin as Hin'.
  unfold findTestFilesImporting in Hin'. apply filter_In in Hin' as [Hwalk Himp].
  split; [exact Hwalk|]. split.
  - unfold importsHelper, extractImports in Himp.
    destruct (fs_read E p) as [text|]; [|discriminate Himp].
    apply existsb_exists in Himp as (importPath & Hi & Hm).
    now exists text, importPath.
  - apply count_occ_filter_le.
Qed.

Lemma findEntry_prune (dir : string) (entry : FsNode) :
  findEntry E dir (prune entry) = findEntry E dir entry.
Proof.
  revert dir.
  induction entry as [f | d sub IH] using ImportTrackerProps.FsNode_tree_ind;
    intros dir; [reflexivity|].
  cbn [prune]. unfold skipped.
  destruct (Str.startsWith d ".") eqn:Hdot; cbn [orb].
  { cbn [findEntry]. now rewrite Hdot. }
  destruct (String.eqb d "node_modules") eqn:Hnm.
  { cbn [findEntry]. now rewrite Hdot, Hnm. }
  cbn [findEntry]. rewrite Hdot, Hnm. cbn [negb andb].
  induction IH as [|x xs Hx _ IHxs]; [reflexivity|].
  cbn [map flat_map]. now rewrite Hx, IHxs.
Qed.

(** X18: What is inside hidden directories and inside [node_modules], at any
    depth, never matters: the walk finds the same files in the tree with
    those directories emptied. *)
Theorem skipped_directories_never_matter (tree : list FsNode) (dir : string) :
  findFiles E dir (map prune tree) = findFiles E dir tree.
Proof.
  unfold findFiles. induction tree as [|x xs IH]; [reflexivity|].
  cbn [map flat_map]. now rewrite findEntry_prune, IH.
Qed.

(** X19: The resolution of a specifier that begins with [.] gives a path that
    exists on disk exactly when one of the three paths it tries exists. *)
Theorem resolved_exists_when_possible (fromFile importPath : string) :
  Str.startsWith importPath "." = true ->
  (fs_exists E (resolveImportPath E fromFile importPath) = true <->
   exists c, In c (candidates E fromFile importPath) /\
             fs_exists E c = true).
Proof.
  intros Hrel. unfold resolveImportPath, candidates. rewrite Hrel.
  set (resolved := path_resolve E (path_dirname E fromFile) importPath).
  destruct (fs_exists E resolved) eqn:H1; cbn [negb].
  { rewrite H1. split; [|reflexivity]. intros _. exists resolved.
    split; [now left | exact H1]. }
  destruct (fs_exists E (resolved ++ ".ts")%string) eqn:H2.
  { rewrite H2. split; [|reflexivity]. intros _.
    exists (resolved ++ ".ts")%string. split; [right; now left | exact H2]. }
  destruct (fs_exists E (path_join E resolved "index.ts")) eqn:H3.
  { rewrite H3. split; [|reflexivity]. intros _.
    exists (path_join E resolved "index.ts").
    split; [right; right; now left | exact H3]. }
  rewrite H1. split; [discriminate|].
  intros (c & [<-|[<-|[<-|[]]]] & Hc); congruence.
Qed.

End WithEnv.

Lemma importing_files_loaded_witness :
  In "/repo/tests/login.spec.ts"
     (findAllSpecFiles Examples.env Examples.repo) /\
  exists text importPath,
    fs_read Examples.env "/repo/tests/login.spec.ts" = Some text /\
    In importPath (ts_imports Examples.env text) /\
    matchesHelper Examples.env Examples.repo "/repo/helpers/login.ts"
                  "/repo/tests/login.spec.ts" importPath = true.
Proof.
  assert (Hin : In "/repo/tests/login.spec.ts"
                   (findTestFilesImporting Examples.env Examples.repo
                                           "/repo/helpers/login.ts"))
    by (vm_compute; auto).
  destruct (importing_files_loaded Examples.env Examples.repo
              "/repo/helpers/login.ts" "/repo/tests/login.spec.ts" Hin)
    as (Hwalk & Hload & _).
  exact (conj Hwalk Hload).
Defined.

Lemma resolved_exists_when_possible_witness :
  fs_exists Examples.env
    (resolveImportPath Examples.env "/repo/tests/login.spec.ts"
                       "../helpers/login") = true.
Proof.
  apply (resolved_exists_when_possible
           Examples.env "/repo/tests/login.spec.ts" "../helpers/login"
           eq_refl).
  exists "/repo/helpers/login.ts". split; [right; now left | reflexivity].
Defined.

End ImportTrackerMore.

(* ================================================================= *)
(** * More on the string primitives *)

Module StrMore.

Lemma length_append (a b : string) :
  String.length (a ++ b) = String.length a + String.length b.
Proof. induction a as [|c a IH]; simpl; [reflexivity | now rewrite IH]. Qed.

Lemma substring_full (s : string) : substring 0 (String.length s) s = s.
Proof. induction s as [|c s IH]; simpl; [reflexivity | now rewrite IH]. Qed.

Lemma substring_skip (pre p : string) :
  substring (String.length pre) (String.length p) (pre ++ p) = p.
Proof.
  induction pre as [|c pre IH]; simpl; [apply substring_full | exact IH].
Qed.

Lemma substring_split (s : string) (k : nat) :
  k <= String.length s ->
  (substring 0 k s ++ substring k (String.length s - k) s)%string = s.
Proof.
  revert k. induction s as [|c s IH]; intros k Hk.
  - destruct k; [reflexivity | simpl in Hk; lia].
  - destruct k as [|k].
    + simpl. now rewrite substring_full.
    + simpl in Hk. simpl. rewrite IH; [reflexivity | lia].
Qed.

(** [s.endsWith(p)] holds exactly when [s] is some text followed by [p]. *)
Lemma endsWith_iff (s p : string) :
  Str.endsWith s p = true <-> exists pre, s = (pre ++ p)%string.
Proof.
  unfold Str.endsWith. split.
  - intros H. apply andb_prop in H as [Hlen Heq].
    apply Nat.leb_le in Hlen. apply String.eqb_eq in Heq.
    exists (substring 0 (String.length s - String.length p) s).
    pose proof (substring_split s (String.length s - String.length p)) as Hs.
    replace (String.length s - (String.length s - String.length p))
      with (String.length p) in Hs by lia.
    rewrite Heq in Hs. symmetry. apply Hs. lia.
  - intros (pre & ->). rewrite length_append.
    apply andb_true_intro. split; [apply Nat.leb_le; lia|].
    replace (String.length pre + String.length p - String.length p)
      with (String.length pre) by lia.
    rewrite substring_skip. apply String.eqb_refl.
Qed.

Lemma endsWith_longer (s a b : string) :
  Str.endsWith s (a ++ b) = true -> Str.endsWith s b = true.
Proof.
  intros H. apply endsWith_iff in H as (pre & ->).
  apply endsWith_iff. exists (pre ++ a)%string.
  clear. induction pre as [|c pre IH]; simpl; [reflexivity | now rewrite IH].
Qed.

End StrMore.

(* ================================================================= *)
(** * More on the impact classifier *)

Module ImpactAnalyzerMore.

Import TestParser ImportTracker ImpactAnalyzer AnalyzerSpec Closed.

Section WithEnv.

Variable E : Env.
Variable repoPath : string.

(** *** The closed form of [analyzeTestFile] *)

Lemma parseTestFile_testsOf (filePath : string) (content : option string) :
  Str.truthy content = true ->
  parseTestFile E filePath content = Some (testsOf E filePath content).
Proof.
  unfold parseTestFile, testsOf. intros H. rewrite H.
  destruct content as [text|]; [|discriminate H].
  cbn [Str.truthy] in H. apply negb_true_iff in H. now rewrite H.
Qed.

Lemma modified_filter (cf : ChangedFile) (beforeTests currentTests : list TestInfo) :
  let emitted :=
    map (direct cf added)
        (filter (fun t => negb (presentIn beforeTests t)) currentTests) ++
    map (direct cf removed)
        (filter (fun t => negb (presentIn currentTests t)) beforeTests) in
  filter (fun t => presentIn beforeTests t && overlaps cf t &&
                   negb (alreadyAdded emitted t)) currentTests =
  filter (fun t => presentIn beforeTests t && overlaps cf t) currentTests.
Proof.
  cbv zeta. apply filter_ext. intros t.
  destruct (presentIn beforeTests t) eqn:Hp; [|reflexivity].
  rewrite (ImpactAnalyzerProps.not_alreadyAdded cf beforeTests currentTests t Hp).
  now rewrite andb_true_r.
Qed.

(** [analyzeTestFile] never fails; its result is [classified] on the old
    and new tests of [versions]. *)
Lemma analyzeTestFile_classified (cf : ChangedFile) (commitSha : string) :
  analyzeTestFile E repoPath cf commitSha =
    Some (classified cf (fst (versions E repoPath cf commitSha))
                        (snd (versions E repoPath cf commitSha))).
Proof.
  unfold analyzeTestFile, versions, classified.
  destruct (changeType cf).
  - destruct (Str.truthy (getFileAtCommit E commitSha (path cf))) eqn:Hn.
    + now rewrite (parseTestFile_testsOf _ _ Hn).
    + cbn [snd]. unfold testsOf.
      destruct (getFileAtCommit E commitSha (path cf)) as [text|];
        [|reflexivity].
      cbn [Str.truthy] in Hn. apply negb_false_iff in Hn. now rewrite Hn.
  - destruct (Str.truthy (getFileBeforeCommit E commitSha (path cf))) eqn:Ho;
      destruct (Str.truthy (getFileAtCommit E commitSha (path cf))) eqn:Hn;
      cbn [andb fst snd]; try reflexivity.
    rewrite (parseTestFile_testsOf _ _ Ho), (parseTestFile_testsOf _ _ Hn).
    cbn [bind].
    rewrite ImpactAnalyzerProps.addedLoop_filter,
      ImpactAnalyzerProps.removedLoop_filter,
      ImpactAnalyzerProps.modifiedLoop_filter.
    cbn [Datatypes.app]. rewrite modified_filter, <- app_assoc. reflexivity.
  - destruct (Str.truthy (getFileBeforeCommit E commitSha (path cf))) eqn:Ho.
    + now rewrite (parseTestFile_testsOf _ _ Ho).
    + cbn [fst]. unfold testsOf.
      destruct (getFileBeforeCommit E commitSha (path cf)) as [text|];
        [|reflexivity].
      cbn [Str.truthy] in Ho. apply negb_false_iff in Ho. now rewrite Ho.
Qed.

Lemma presentIn_self (tests : list TestInfo) (t : TestInfo) :
  In t tests -> presentIn tests t = true.
Proof.
  intros Hin. unfold presentIn. apply existsb_exists. exists t.
  split; [exact Hin|]. unfold sameName. apply String.eqb_refl.
Qed.

(** What a result of [classified] tells of the name it carries. *)
Lemma classified_inv (cf : ChangedFile) (beforeTests currentTests : list TestInfo)
      (r : ImpactResult) :
  In r (classified cf beforeTests currentTests) ->
  exists t,
    r = direct cf (impactType r) t /\
    match changeType cf, impactType r with
    | ct_added, added => In t currentTests
    | ct_deleted, removed => In t beforeTests
    | ct_modified, added =>
        In t currentTests /\ presentIn beforeTests t = false
    | ct_modified, removed =>
        In t beforeTests /\ presentIn beforeTests t = true /\
        presentIn currentTests t = false
    | ct_modified, modified =>
        In t currentTests /\ presentIn beforeTests t = true /\
        presentIn currentTests t = true /\ overlaps cf t = true
    | _, _ => False
    end.
Proof.
  unfold classified. destruct (changeType cf).
  - intros Hr. apply in_map_iff in Hr as (t & <- & Ht). now exists t.
  - intros Hr. apply in_app_or in Hr as [Hr|Hr];
      [|apply in_app_or in Hr as [Hr|Hr]];
      apply in_map_iff in Hr as (t & <- & Ht);
      apply filter_In in Ht as [Hin Hc]; exists t; cbn [direct impactType].
    + apply negb_true_iff in Hc. now split.
    + apply negb_true_iff in Hc. split; [reflexivity|].
      split; [exact Hin|]. split; [now apply presentIn_self | exact Hc].
    + apply andb_prop in Hc as [Hp Hov]. split; [reflexivity|].
      split; [exact Hin|]. split; [exact Hp|].
      split; [now apply presentIn_self | exact Hov].
  - intros Hr. apply in_map_iff in Hr as (t & <- & Ht). now exists t.
Qed.

(** *** Added and removed go by name alone *)

Lemma filter_type_direct (cf : ChangedFile) (ty want : ImpactType)
      (ts : list TestInfo) :
  filter (fun r => ImpactType_eqb (impactType r) want)
         (map (direct cf ty) ts) =
    if ImpactType_eqb ty want then map (direct cf ty) ts else [].
Proof.
  induction ts as [|t ts IH]; cbn [map filter].
  - now destruct (ImpactType_eqb ty want).
  - rewrite IH. cbn [direct impactType].
    now destruct (ImpactType_eqb ty want).
Qed.

(** X9: For a modified test file whose two contents are there, the [added]
    results are, in order, the tests of the new version whose name the old
    version does not have, and the [removed] results the tests of the old
    version whose name the new version does not have: the changed lines play
    no part in either. *)
Theorem added_and_removed_by_name (cf : ChangedFile)
        (commitSha oldText newText : string) :
  changeType cf = ct_modified ->
  getFileBeforeCommit E commitSha (path cf) = Some oldText -> oldText <> "" ->
  getFileAtCommit E commitSha (path cf) = Some newText -> newText <> "" ->
  let filePath := path_join E repoPath (path cf) in
  let beforeTests := extractTests (ts_calls E oldText) filePath in
  let currentTests := extractTests (ts_calls E newText) filePath in
  exists results,
    analyzeTestFile E repoPath cf commitSha = Some results /\
    filter isAdded results =
      map (direct cf added)
          (filter (fun t => negb (presentIn beforeTests t)) currentTests) /\
    filter isRemoved results =
      map (direct cf removed)
          (filter (fun t => negb (presentIn currentTests t)) beforeTests).
Proof.
  intros Hty Hold Hne Hnew Hne'. cbv zeta.
  pose proof (ImpactAnalyzerProps.analyzeTestFile_modified
                E repoPath cf commitSha oldText newText
                Hty Hold Hne Hnew Hne') as Hres.
  cbv zeta in Hres. eexists. split; [exact Hres|].
  unfold isAdded, isRemoved.
  split; rewrite !filter_app, !filter_type_direct;
    cbn [ImpactType_eqb Datatypes.app]; now rewrite ?app_nil_r.
Qed.

(** *** One impact type for a name *)

(** X10: In the results for one changed test file, two results with the same
    test name have the same impact type: a name is never reported as added
    and modified, as added and removed, or as removed and modified. *)
Theorem one_type_per_name (cf : ChangedFile) (commitSha : string)
        (results : list ImpactResult) (r1 r2 : ImpactResult) :
  analyzeTestFile E repoPath cf commitSha = Some results ->
  In r1 results -> In r2 results ->
  testName r1 = testName r2 ->
  impactType r1 = impactType r2.
Proof.
  rewrite analyzeTestFile_classified. intros [= <-] H1 H2 Hname.
  destruct (classified_inv _ _ _ _ H1) as (t1 & E1 & C1).
  destruct (classified_inv _ _ _ _ H2) as (t2 & E2 & C2).
  assert (Hn : name t1 = name t2).
  { rewrite E1, E2 in Hname. exact Hname. }
  pose proof (ImpactAnalyzerProps.presentIn_name
                (fst (versions E repoPath cf commitSha)) t1 t2 Hn) as Hb.
  pose proof (ImpactAnalyzerProps.presentIn_name
                (snd (versions E repoPath cf commitSha)) t1 t2 Hn) as Hc.
  destruct (changeType cf), (impactType r1), (impactType r2);
    try reflexivity; try contradiction;
    repeat match goal with H : _ /\ _ |- _ => destruct H end;
    congruence.
Qed.

(** *** Only added lines count *)

Lemma hasOverlap_nil (s e : N) : hasOverlap [] s e = false.
Proof. reflexivity. Qed.

(** X11: The deleted lines of a changed test file never enter its analysis: the
    results are the same whatever they are.  And when the file has no added
    line, as after a commit that only deletes lines, no test is reported as
    modified. *)
Theorem only_added_lines_count (cf : ChangedFile) (commitSha : string)
        (results : list ImpactResult) :
  analyzeTestFile E repoPath cf commitSha = Some results ->
  (forall deleted : list N,
      analyzeTestFile E repoPath
        (mkChangedFile (path cf) (changeType cf) (addedLines cf) deleted)
        commitSha = Some results) /\
  (addedLines cf = [] ->
   Forall (fun r => impactType r <> modified) results).
Proof.
  intros Hres. split.
  - intros deleted. rewrite <- Hres. reflexivity.
  - intros Hnone. rewrite analyzeTestFile_classified in Hres.
    injection Hres as <-. apply Forall_forall. intros r Hr Hmod.
    destruct (classified_inv _ _ _ _ Hr) as (t & _ & Hc).
    rewrite Hmod in Hc. destruct (changeType cf); try contradiction.
    destruct Hc as (_ & _ & _ & Hov).
    unfold overlaps in Hov. rewrite Hnone, hasOverlap_nil in Hov.
    discriminate Hov.
Qed.

(** *** Identical contents *)

Lemma filter_all_present (tests : list TestInfo) :
  filter (fun t => negb (presentIn tests t)) tests = [].
Proof.
  assert (H : forall l, incl l tests ->
                        filter (fun t => negb (presentIn tests t)) l = []).
  { induction l as [|t l IH]; intros Hincl; [reflexivity|].
    cbn [filter]. rewrite (presentIn_self tests t (Hincl t (or_introl eq_refl))).
    apply IH. intros x Hx. apply Hincl. now right. }
  apply H, incl_refl.
Qed.

Lemma filter_present_overlaps (cf : ChangedFile) (tests : list TestInfo) :
  filter (fun t => presentIn tests t && overlaps cf t) tests =
    filter (overlaps cf) tests.
Proof.
  assert (H : forall l, incl l tests ->
                        filter (fun t => presentIn tests t && overlaps cf t) l =
                        filter (overlaps cf) l).
  { induction l as [|t l IH]; intros Hincl; [reflexivity|].
    cbn [filter]. rewrite (presentIn_self tests t (Hincl t (or_introl eq_refl))).
    cbn [andb]. rewrite IH; [reflexivity|].
    intros x Hx. apply Hincl. now right. }
  apply H, incl_refl.
Qed.

(** X12: When the old and the new content of a modified test file are the same
    text, nothing is reported as added or removed: the results are one
    [modified] result for each test whose span holds an added line, and
    none at all when the file has no added line. *)
Theorem identical_contents (cf : ChangedFile) (commitSha text : string) :
  changeType cf = ct_modified ->
  getFileBeforeCommit E commitSha (path cf) = Some text ->
  getFileAtCommit E commitSha (path cf) = Some text ->
  text <> "" ->
  analyzeTestFile E repoPath cf commitSha =
    Some (map (direct cf modified)
              (filter (overlaps cf)
                      (extractTests (ts_calls E text)
                                    (path_join E repoPath (path cf))))) /\
  (addedLines cf = [] -> analyzeTestFile E repoPath cf commitSha = Some []).
Proof.
  intros Hty Hold Hnew Hne.
  assert (Hres : analyzeTestFile E repoPath cf commitSha =
    Some (map (direct cf modified)
              (filter (overlaps cf)
                      (extractTests (ts_calls E text)
                                    (path_join E repoPath (path cf)))))).
  { rewrite analyzeTestFile_classified. unfold versions, classified.
    rewrite Hty, Hold, Hnew, (ImpactAnalyzerProps.truthy_some text Hne).
    cbn [andb fst snd testsOf].
    destruct (String.eqb_spec text ""); [contradiction|].
    now rewrite filter_all_present, filter_present_overlaps. }
  split; [exact Hres|].
  intros Hnone. rewrite Hres. f_equal. clear Hres.
  induction (extractTests (ts_calls E text) (path_join E repoPath (path cf)))
    as [|t ts IH]; [reflexivity|].
  cbn [filter]. unfold overlaps at 1. rewrite Hnone, hasOverlap_nil. exact IH.
Qed.

(** *** The helper pass *)

Lemma collect_closed {A B} (f : A -> option (list B)) (g : A -> list B)
      (xs : list A) :
  (forall x, In x xs -> f x = Some (g x)) ->
  collect f xs = Some (flat_map g xs).
Proof.
  induction xs as [|x xs IH]; intros H; [reflexivity|].
  cbn [collect flat_map]. rewrite (H x (or_introl eq_refl)). cbn [bind].
  rewrite IH; [reflexivity|]. intros y Hy. apply H. now right.
Qed.

(** Once the walk of the working tree has returned, which it does on the
    tree of the model, no step of [analyzeHelperFile] fails: the files it
    parses were loaded a moment before, to read their imports. *)
Lemma analyzeHelperFile_flat (cf : ChangedFile) :
  analyzeHelperFile E repoPath cf =
    Some (flat_map (indirectOf E repoPath)
                   (findTestFilesImporting E repoPath
                      (path_join E repoPath (path cf)))).
Proof.
  unfold analyzeHelperFile. apply collect_closed. intros p Hp.
  destruct (ImportTrackerMore.importing_readable E repoPath _ p Hp)
    as (text & Hread & _).
  unfold parseTestFile, indirectOf, diskTests. cbn [Str.truthy].
  now rewrite Hread.
Qed.

(** X13: Whenever [analyzeHelperFile] returns for a changed helper file, its
    result is, for each test file that [findTestFilesImporting] returns and
    in that order, one [modified], indirect result for each test of the
    file as it is on disk, under the path of the file relative to the
    repository.  Each of those files is parsed from disk without failure,
    having been loaded a moment before for its imports.  The helper enters
    through its path alone, not through its change type or its lines; and
    the result is empty when no test file imports it. *)
Theorem helper_results (cf : ChangedFile) (results : list ImpactResult) :
  analyzeHelperFile E repoPath cf = Some results ->
  let importing :=
    findTestFilesImporting E repoPath (path_join E repoPath (path cf)) in
  results = flat_map (indirectOf E repoPath) importing /\
  (forall p, In p importing ->
             TestParser.parseTestFile E p None = Some (diskTests E p)) /\
  (forall cf' results',
      path cf' = path cf ->
      analyzeHelperFile E repoPath cf' = Some results' ->
      results' = results) /\
  (importing = [] -> results = []).
Proof.
  rewrite analyzeHelperFile_flat. intros [= <-] importing.
  split; [reflexivity|]. split; [|split].
  - intros p Hp.
    destruct (ImportTrackerMore.importing_readable E repoPath _ p Hp)
      as (text & Hread & _).
    unfold TestParser.parseTestFile, diskTests. cbn [Str.truthy].
    now rewrite Hread.
  - intros cf' results' Hpath. rewrite analyzeHelperFile_flat, Hpath.
    now intros [= <-].
  - unfold importing. now intros ->.
Qed.

(** *** The whole analysis *)

(** On the tree of the model, where the walk returns. *)
Lemma analyzeChanged_flat (changed : list ChangedFile) (commitSha : string) :
  analyzeChanged E repoPath changed commitSha =
    Some (flat_map
            (fun cf =>
               classified cf (fst (versions E repoPath cf commitSha))
                             (snd (versions E repoPath cf commitSha)))
            (testFilesOf changed) ++
          flat_map
            (fun cf =>
               flat_map (indirectOf E repoPath)
                        (findTestFilesImporting E repoPath
                           (path_join E repoPath (path cf))))
            (helperFilesOf changed)).
Proof.
  unfold analyzeChanged, directPass, indirectPass.
  rewrite (collect_closed _ _ _
             (fun cf _ => analyzeTestFile_classified cf commitSha)).
  rewrite (collect_closed _ _ _ (fun cf _ => analyzeHelperFile_flat cf)).
  reflexivity.
Qed.

(** X14: Whenever the pass over the changed test files returns, its result is
    the results of those files in order.  When git does not give the diff
    of the commit, [analyzeCommit] fails; and whenever [analyzeCommit]
    returns, git gave the diff and the result is, for the files of the
    parsed diff, the results of the changed test files in order followed
    by those of the changed helper files. *)
Theorem analysis_of_parsed_diff (commitSha : string) :
  (forall changed direct,
      directPass E repoPath changed commitSha = Some direct ->
      direct =
        flat_map
          (fun cf =>
             classified cf (fst (versions E repoPath cf commitSha))
                           (snd (versions E repoPath cf commitSha)))
          (testFilesOf changed)) /\
  (git_show_commit E commitSha = None ->
   analyzeCommit E repoPath commitSha = None) /\
  (forall results,
      analyzeCommit E repoPath commitSha = Some results ->
      exists diff,
        git_show_commit E commitSha = Some diff /\
        results =
          flat_map
            (fun cf =>
               classified cf (fst (versions E repoPath cf commitSha))
                             (snd (versions E repoPath cf commitSha)))
            (testFilesOf (GitOperations.parseDiff diff)) ++
          flat_map
            (fun cf =>
               flat_map (indirectOf E repoPath)
                        (findTestFilesImporting E repoPath
                           (path_join E repoPath (path cf))))
            (helperFilesOf (GitOperations.parseDiff diff))).
Proof.
  split; [|split].
  - intros changed direct. unfold directPass.
    rewrite (collect_closed _ _ _
               (fun cf _ => analyzeTestFile_classified cf commitSha)).
    now intros [= <-].
  - intros Hnone. unfold analyzeCommit, getChangedFiles.
    now rewrite Hnone.
  - intros results. unfold analyzeCommit, getChangedFiles.
    destruct (git_show_commit E commitSha) as [diff|]; cbn [bind];
      [|discriminate].
    rewrite analyzeChanged_flat. intros [= <-].
    now exists diff.
Qed.

(** *** Whole files *)

(** X21: Every test of the new content of an added test file is reported as
    added, and every test of the old content of a deleted test file as
    removed, one result for each in the order of the file, whatever the line
    sets of the diff are and whatever git holds for the other side. *)
Theorem whole_file_added_or_deleted (cf : ChangedFile)
        (commitSha text : string) :
  text <> "" ->
  (changeType cf = ct_added ->
   getFileAtCommit E commitSha (path cf) = Some text ->
   analyzeTestFile E repoPath cf commitSha =
     Some (map (direct cf added)
               (extractTests (ts_calls E text)
                             (path_join E repoPath (path cf))))) /\
  (changeType cf = ct_deleted ->
   getFileBeforeCommit E commitSha (path cf) = Some text ->
   analyzeTestFile E repoPath cf commitSha =
     Some (map (direct cf removed)
               (extractTests (ts_calls E text)
                             (path_join E repoPath (path cf))))).
Proof.
  intros Hne. split; intros Hty Hget;
    rewrite analyzeTestFile_classified; unfold versions, classified, testsOf;
    rewrite Hty, Hget; cbn [fst snd];
    destruct (String.eqb_spec text ""); try contradiction; reflexivity.
Qed.

(** *** Files that are no TypeScript *)

Lemma isTestFile_ts (p : string) :
  isTestFile p = true -> Str.endsWith p ".ts" = true.
Proof.
  unfold isTestFile. intros H. apply orb_prop in H as [H|H].
  - apply (StrMore.endsWith_longer p ".spec" ".ts"). exact H.
  - apply (StrMore.endsWith_longer p ".test" ".ts"). exact H.
Qed.

(** X15: A changed file is a test file, a helper file, or neither, and never two
    of these; a changed file whose path does not end with [.ts] is neither,
    and the analysis gives what it gives without it. *)
Theorem other_files_ignored (cf : ChangedFile) (commitSha : string) :
  (isTestFile (path cf) = true ->
   Str.endsWith (path cf) ".ts" = true /\ helperFilesOf [cf] = []) /\
  (Str.endsWith (path cf) ".ts" = false ->
   testFilesOf [cf] = [] /\ helperFilesOf [cf] = [] /\
   forall pre post,
     analyzeChanged E repoPath (pre ++ cf :: post) commitSha =
       analyzeChanged E repoPath (pre ++ post) commitSha).
Proof.
  split.
  - intros Htest. split; [now apply isTestFile_ts|].
    unfold helperFilesOf. cbn [filter]. now rewrite Htest.
  - intros Hts.
    assert (Htest : isTestFile (path cf) = false).
    { apply not_true_is_false. intros H. apply isTestFile_ts in H. congruence. }
    assert (Ht : testFilesOf [cf] = []).
    { unfold testFilesOf. cbn [filter]. now rewrite Htest. }
    assert (Hh : helperFilesOf [cf] = []).
    { unfold helperFilesOf. cbn [filter]. now rewrite Htest, Hts. }
    repeat split; try assumption.
    intros pre post.
    unfold analyzeChanged, directPass, indirectPass, testFilesOf, helperFilesOf
      in *.
    rewrite !filter_app. cbn [filter]. now rewrite Htest, Hts.
Qed.

End WithEnv.

Lemma added_and_removed_by_name_witness :
  exists results,
    analyzeTestFile Examples.env Examples.repo Examples.changed_login "abc123"
      = Some results /\
    filter isAdded results =
      [mkImpact "B" "tests/login.spec.ts" added None] /\
    filter isRemoved results = [].
Proof.
  assert (Hold : Examples.login_old <> "") by (vm_compute; discriminate).
  assert (Hnew : Examples.login_new <> "") by (vm_compute; discriminate).
  destruct (added_and_removed_by_name
              Examples.env Examples.repo Examples.changed_login "abc123"
              Examples.login_old Examples.login_new
              eq_refl eq_refl Hold eq_refl Hnew)
    as (results & Hres & Ha & Hr).
  exists results. split; [exact Hres|]. split.
  - rewrite Ha. reflexivity.
  - rewrite Hr. reflexivity.
Defined.

Lemma one_type_per_name_witness :
  exists (results : list ImpactResult) (r1 r2 : ImpactResult),
    analyzeTestFile MoreExamples.env_dup Examples.repo
                    MoreExamples.changed_dup "d0d0d0" = Some results /\
    List.length results = 2 /\
    nth_error results 0 = Some r1 /\ nth_error results 1 = Some r2 /\
    testName r1 = "loads" /\ testName r2 = "loads" /\
    impactType r1 = impactType r2.
Proof.
  exists [mkImpact "loads" "tests/dup.spec.ts" modified None;
          mkImpact "loads" "tests/dup.spec.ts" modified None].
  eexists. eexists.
  split; [reflexivity|]. split; [reflexivity|].
  split; [reflexivity|]. split; [reflexivity|].
  split; [reflexivity|]. split; [reflexivity|].
  apply (one_type_per_name
           MoreExamples.env_dup Examples.repo MoreExamples.changed_dup
           "d0d0d0"
           [mkImpact "loads" "tests/dup.spec.ts" modified None;
            mkImpact "loads" "tests/dup.spec.ts" modified None]).
  - reflexivity.
  - left. reflexivity.
  - right. left. reflexivity.
  - reflexivity.
Defined.

Lemma only_added_lines_count_witness :
  analyzeTestFile Examples.env Examples.repo
    (mkChangedFile "tests/login.spec.ts" ct_modified [3; 5; 6]%N [])
    "abc123"
  = Some [mkImpact "B" "tests/login.spec.ts" added None;
          mkImpact "A" "tests/login.spec.ts" modified None].
Proof.
  destruct (only_added_lines_count
              Examples.env Examples.repo Examples.changed_login "abc123"
              [mkImpact "B" "tests/login.spec.ts" added None;
               mkImpact "A" "tests/login.spec.ts" modified None]
              eq_refl)
    as [Hany _].
  exact (Hany []).
Defined.

Lemma identical_contents_witness :
  analyzeTestFile MoreExamples.env_same Examples.repo
                  MoreExamples.changed_mode "fff000" = Some [].
Proof.
  assert (Hne : Examples.nested_new <> "") by (vm_compute; discriminate).
  destruct (identical_contents
              MoreExamples.env_same Examples.repo MoreExamples.changed_mode
              "fff000" Examples.nested_new eq_refl eq_refl eq_refl Hne)
    as [_ Hnone].
  exact (Hnone eq_refl).
Defined.

Lemma helper_results_witness :
  analyzeHelperFile Examples.env Examples.repo Examples.changed_helper =
    Some [mkImpact "bare" "tests/bare.spec.ts" modified (Some true);
          mkImpact "A" "tests/login.spec.ts" modified (Some true);
          mkImpact "B" "tests/login.spec.ts" modified (Some true)] /\
  [mkImpact "bare" "tests/bare.spec.ts" modified (Some true);
   mkImpact "A" "tests/login.spec.ts" modified (Some true);
   mkImpact "B" "tests/login.spec.ts" modified (Some true)] =
    flat_map (indirectOf Examples.env Examples.repo)
             (findTestFilesImporting Examples.env Examples.repo
                (path_join Examples.env Examples.repo
                           (path Examples.changed_helper))).
Proof.
  split; [reflexivity|].
  exact (proj1 (helper_results Examples.env Examples.repo
                               Examples.changed_helper _ eq_refl)).
Defined.

Lemma analysis_of_parsed_diff_witness :
  exists diff : string,
    git_show_commit Examples.env "abc123" = Some diff /\
    [mkImpact "B" "tests/login.spec.ts" added None;
     mkImpact "A" "tests/login.spec.ts" modified None;
     mkImpact "bare" "tests/bare.spec.ts" modified (Some true);
     mkImpact "A" "tests/login.spec.ts" modified (Some true);
     mkImpact "B" "tests/login.spec.ts" modified (Some true)] =
      flat_map
        (fun cf =>
           classified cf
             (fst (versions Examples.env Examples.repo cf "abc123"))
             (snd (versions Examples.env Examples.repo cf "abc123")))
        (testFilesOf (GitOperations.parseDiff diff)) ++
      flat_map
        (fun cf =>
           flat_map (indirectOf Examples.env Examples.repo)
                    (findTestFilesImporting Examples.env Examples.repo
                       (path_join Examples.env Examples.repo (path cf))))
        (helperFilesOf (GitOperations.parseDiff diff)).
Proof.
  exact (proj2 (proj2 (analysis_of_parsed_diff
                         Examples.env Examples.repo "abc123"))
               _ eq_refl).
Defined.

Lemma whole_file_added_or_deleted_witness :
  analyzeTestFile Examples.env Examples.repo
    (mkChangedFile "tests/login.spec.ts" ct_deleted [] [1; 2; 3; 4]%N)
    "abc123"
  = Some [mkImpact "A" "tests/login.spec.ts" removed None].
Proof.
  assert (Hne : Examples.login_old <> "") by (vm_compute; discriminate).
  destruct (whole_file_added_or_deleted
              Examples.env Examples.repo
              (mkChangedFile "tests/login.spec.ts" ct_deleted []
                             [1; 2; 3; 4]%N)
              "abc123" Examples.login_old Hne)
    as [_ Hdel].
  rewrite (Hdel eq_refl eq_refl). reflexivity.
Defined.

End ImpactAnalyzerMore.

(* ================================================================= *)
(** * The command line *)

Module CliProps.

Import ImpactAnalyzer Cli.

Lemma groups_partition (impacts : list ImpactResult) :
  List.length impacts =
    List.length (group added impacts) + List.length (group removed impacts) +
    List.length (group modified impacts).
Proof.
  unfold group. induction impacts as [|i rest IH]; [reflexivity|].
  cbn [filter List.length]. destruct (impactType i); cbn [ImpactType_eqb List.length]; lia.
Qed.

Lemma length_filter_le {A} (p q : A -> bool) (l : list A) :
  Forall (fun x => p x = true -> q x = true) l ->
  List.length (filter p l) <= List.length (filter q l).
Proof.
  induction 1 as [|x l Hx _ IH]; [apply le_n|].
  cbn [filter]. destruct (p x) eqn:Hp.
  - rewrite (Hx eq_refl). cbn [List.length]. lia.
  - destruct (q x); cbn [List.length]; lia.
Qed.

(** In a result of [analyzeCommit] an indirect result is a [modified]
    one. *)
Lemma indirect_is_modified (E : Env) (repoPath commit : string)
      (impacts : list ImpactResult) :
  analyzeCommit E repoPath commit = Some impacts ->
  Forall (fun i => match isIndirect i with Some b => b | None => false end
                   = true ->
                   ImpactType_eqb (impactType i) modified = true) impacts.
Proof.
  unfold analyzeCommit, analyzeChanged.
  destruct (getChangedFiles E commit) as [changed|]; [|discriminate].
  cbn [bind].
  destruct (directPass E repoPath changed commit) as [d|] eqn:Hd;
    [|discriminate].
  cbn [bind].
  destruct (indirectPass E repoPath changed) as [i|] eqn:Hi; [|discriminate].
  cbn [bind]. intros [= <-]. apply Forall_app. split.
  - unfold directPass in Hd.
    eapply Forall_impl;
      [|eapply ImpactAnalyzerProps.collect_Forall
          with (P := fun r => isIndirect r = None); [|exact Hd]].
    + intros r ->. discriminate.
    + intros cf rs _. apply ImpactAnalyzerProps.analyzeTestFile_direct.
  - unfold indirectPass in Hi.
    eapply Forall_impl;
      [|eapply ImpactAnalyzerProps.collect_Forall
          with (P := fun r => impactType r = modified /\
                              isIndirect r = Some true); [|exact Hi]].
    + intros r [-> _] _. reflexivity.
    + intros cf rs _. apply ImpactAnalyzerProps.analyzeHelperFile_indirect.
Qed.

(** X16: [main] exits with failure exactly when the repository path does not
    exist, or it holds no [.git], or [analyzeCommit] throws, as it does
    when git does not give the diff of the commit.  It prints that there
    is no impact exactly when the two paths exist and [analyzeCommit]
    returns the empty list.  When it reports, there is at least one impact,
    the total of the summary is the sum of its added, removed and modified
    numbers, and the number of indirect impacts is at most the number of
    modified ones. *)
Theorem main_outcomes (E : Env) (repoPath commit : string) :
  (main E repoPath commit = ExitFailure <->
   fs_exists E repoPath = false \/
   fs_exists E (path_join E repoPath ".git") = false \/
   analyzeCommit E repoPath commit = None) /\
  (git_show_commit E commit = None ->
   main E repoPath commit = ExitFailure) /\
  (main E repoPath commit = NoImpacts <->
   fs_exists E repoPath = true /\
   fs_exists E (path_join E repoPath ".git") = true /\
   analyzeCommit E repoPath commit = Some []) /\
  (forall a r m total na nr nm ni,
      main E repoPath commit = Report a r m total na nr nm ni ->
      0 < total /\ total = na + nr + nm /\ ni <= nm /\
      na = List.length a /\ nr = List.length r /\ nm = List.length m).
Proof.
  assert (Hgit : git_show_commit E commit = None ->
                 analyzeCommit E repoPath commit = None).
  { intros H. unfold analyzeCommit, getChangedFiles. now rewrite H. }
  split; [|split; [|split]].
  - unfold main.
    destruct (fs_exists E repoPath); cbn [negb];
      [|split; [now left | reflexivity]].
    destruct (fs_exists E (path_join E repoPath ".git")); cbn [negb];
      [|split; [right; now left | reflexivity]].
    destruct (analyzeCommit E repoPath commit) as [impacts|].
    + split.
      * destruct (List.length impacts =? 0)%nat; discriminate.
      * intros [H|[H|H]]; discriminate H.
    + split; [intros _; right; now right | reflexivity].
  - intros H. unfold main. rewrite (Hgit H).
    destruct (negb (fs_exists E repoPath)); [reflexivity|].
    now destruct (negb (fs_exists E (path_join E repoPath ".git"))).
  - unfold main.
    destruct (fs_exists E repoPath); cbn [negb];
      [|split; [discriminate | intros (H & _); discriminate H]].
    destruct (fs_exists E (path_join E repoPath ".git")); cbn [negb];
      [|split; [discriminate | intros (_ & H & _); discriminate H]].
    destruct (analyzeCommit E repoPath commit) as [[|i rest]|];
      cbn [List.length Nat.eqb].
    + split; [now repeat split | reflexivity].
    + split; [discriminate | intros (_ & _ & H); discriminate H].
    + split; [discriminate | intros (_ & _ & H); discriminate H].
  - intros a r m total na nr nm ni. unfold main.
    destruct (fs_exists E repoPath); cbn [negb]; [|discriminate].
    destruct (fs_exists E (path_join E repoPath ".git")); cbn [negb];
      [|discriminate].
    destruct (analyzeCommit E repoPath commit) as [[|i rest]|] eqn:Hrun;
      cbn [List.length Nat.eqb]; try discriminate.
    intros [= <- <- <- <- <- <- <- <-].
    repeat split; try reflexivity.
    + cbn [List.length]. lia.
    + apply (groups_partition (i :: rest)).
    + exact (length_filter_le
               (fun x => match isIndirect x with
                         | Some b => b
                         | None => false
                         end)
               (fun x => ImpactType_eqb (impactType x) modified)
               (i :: rest)
               (indirect_is_modified E repoPath commit _ Hrun)).
Qed.

End CliProps.
